(** * Session generators and campaign scheduler: a shallow embedding

    The Python sources [behavior_ai.py], [fingerprint_rotator.py],
    [stealth_manager.py] and [session_orchestrator.py] are embedded as
    Rocq functions.  Conventions:

    - Python [float] values are modelled by exact rationals ([Q]); Python
      [int] values by [Z] (or [nat] for loop counters and lengths).
    - The [random] module and [time.time()] are effects.  They are read
      from an [Oracle]: the k-th call of [random.random()] returns
      [rand o k], the k-th call of [time.time()] returns [clock o k].
      Every other function of [random] is derived from [random.random()]
      by the formula of the CPython library ([uniform]) or by an
      equidistributed stand-in ([randint], [choice], [choices]).
      Theorems quantify over all oracles whose draws lie in [0, 1).
    - A computation is a function [Oracle -> Cursor -> A * Cursor]; the
      cursor counts the draws and clock reads made so far. *)

From Stdlib Require Import String.
From Stdlib Require Import List ZArith QArith Qround Qabs Lqa Lia Bool.
From Stdlib Require Import Sorted Permutation.
Import ListNotations.

Set Implicit Arguments.
Open Scope Q_scope.

(* ================================================================== *)
(** ** Python primitives *)
(* ================================================================== *)

Module Py.

(** [int(x)] on a float: truncation towards zero. *)
Definition int (x : Q) : Z :=
  if Qle_bool 0 x then Qfloor x else Qceiling x.

(** [round(x, 1)]: the nearest multiple of 1/10, ties to the even one. *)
Definition round_half_even (x : Q) : Z :=
  let f := Qfloor x in
  let d := x - inject_Z f in
  match Qcompare d (1 # 2) with
  | Lt => f
  | Gt => (f + 1)%Z
  | Eq => if Z.even f then f else (f + 1)%Z
  end.

Definition round1 (x : Q) : Q := inject_Z (round_half_even (x * 10)) / 10.

Definition Qmax (a b : Q) : Q := if Qle_bool b a then a else b.
Definition Qmin (a b : Q) : Q := if Qle_bool a b then a else b.

(** Strict comparisons as booleans. *)
Definition Qlt_bool (a b : Q) : bool := negb (Qle_bool b a).

(** The two effect sources. *)
Record Oracle : Type := { rand : nat -> Q; clock : nat -> Q }.
Record Cursor : Type := { rpos : nat; tpos : nat }.

Definition M (A : Type) : Type := Oracle -> Cursor -> A * Cursor.

Definition ret {A} (a : A) : M A := fun _ c => (a, c).
Definition bind {A B} (m : M A) (k : A -> M B) : M B :=
  fun o c => let (a, c') := m o c in k a o c'.

(** [random.random()] *)
Definition random : M Q :=
  fun o c => (rand o (rpos c), {| rpos := S (rpos c); tpos := tpos c |}).

(** [time.time()] *)
Definition time : M Q :=
  fun o c => (clock o (tpos c), {| rpos := rpos c; tpos := S (tpos c) |}).

End Py.

Declare Scope py_scope.
Delimit Scope py_scope with py.
Notation "x <- m ;; k" := (Py.bind m (fun x => k))
  (at level 61, m at next level, right associativity) : py_scope.
Notation "m ;;; k" := (Py.bind m (fun _ => k))
  (at level 61, right associativity) : py_scope.
Open Scope py_scope.

Module PyRandom.
Import Py.

(** [random.uniform(a, b)] is [a + (b - a) * random()]. *)
Definition uniform (a b : Q) : M Q :=
  r <- random ;; ret (a + (b - a) * r).

(** [random.randint(a, b)]: an integer of [a..b]. *)
Definition randint (a b : Z) : M Z :=
  r <- random ;; ret (a + Qfloor (r * inject_Z (b - a + 1)))%Z.

(** [random.choice(seq)] on a non-empty sequence; [d] is only returned
    for the empty one, where Python raises [IndexError]. *)
Definition choice {A} (d : A) (l : list A) : M A :=
  r <- random ;;
  ret (nth (Z.to_nat (Qfloor (r * inject_Z (Z.of_nat (length l))))) l d).

(** [random.choices(population, weights=weights, k=1)[0]]: the library
    accumulates the weights and bisects the running totals (all but the
    last) at [random() * total]. *)
Fixpoint accumulate (acc : Q) (ws : list Q) : list Q :=
  match ws with
  | [] => []
  | w :: ws' => (acc + w) :: accumulate (acc + w) ws'
  end.

Fixpoint bisect (cum : list Q) (x : Q) : nat :=
  match cum with
  | [] => O
  | c :: cum' => if Qlt_bool x c then O else S (bisect cum' x)
  end.

Definition choices {A} (d : A) (population : list A) (weights : list Q) : M A :=
  r <- random ;;
  let cum := accumulate 0 weights in
  let total := last cum 0 in
  ret (nth (bisect (removelast cum) (r * total)) population d).

(** A [for _ in range(n)] loop that collects one value per iteration. *)
Fixpoint replicateM {A} (n : nat) (m : M A) : M (list A) :=
  match n with
  | O => ret []
  | S n' => x <- m ;; xs <- replicateM n' m ;; ret (x :: xs)
  end.

(** A [for x in xs] loop that collects one value per iteration. *)
Fixpoint mapM {A B} (f : A -> M B) (xs : list A) : M (list B) :=
  match xs with
  | [] => ret []
  | x :: xs' => y <- f x ;; ys <- mapM f xs' ;; ret (y :: ys)
  end.

End PyRandom.

Open Scope string_scope.
Open Scope list_scope.
Open Scope Q_scope.

Module PyList.
Import Py.

(** [l.sort(key=key)]: the sort is stable and compares keys with [<]
    only; an insertion sort that keeps equal keys in their order returns
    the same list. *)
Fixpoint insert_by {A} (key : A -> Q) (a : A) (l : list A) : list A :=
  match l with
  | [] => [a]
  | b :: l' =>
      if Qlt_bool (key b) (key a) then b :: insert_by key a l'
      else a :: b :: l'
  end.

Fixpoint sort_by {A} (key : A -> Q) (l : list A) : list A :=
  match l with
  | [] => []
  | a :: l' => insert_by key a (sort_by key l')
  end.

(** [l[-n:]] for [n > 0]: the last [n] elements, all of [l] when it is
    shorter. *)
Definition last_n {A} (n : nat) (l : list A) : list A :=
  skipn (length l - n) l.

(** [range(n)] *)
Definition range (n : Z) : list Z := map Z.of_nat (seq 0 (Z.to_nat n)).

End PyList.


(* ================================================================== *)
(** ** behavior_ai.py *)
(* ================================================================== *)

Module BehaviorAI.
Import Py PyRandom PyList.

(** [class BehaviorPattern(Enum)], in declaration order. *)
Inductive BehaviorPattern : Type :=
  | CASUAL_BROWSING
  | FOCUSED_WATCHING
  | MULTITASKING
  | RESEARCH_MODE
  | ENTERTAINMENT.

Definition BehaviorPattern_eqb (a b : BehaviorPattern) : bool :=
  match a, b with
  | CASUAL_BROWSING, CASUAL_BROWSING
  | FOCUSED_WATCHING, FOCUSED_WATCHING
  | MULTITASKING, MULTITASKING
  | RESEARCH_MODE, RESEARCH_MODE
  | ENTERTAINMENT, ENTERTAINMENT => true
  | _, _ => false
  end.

(** [pattern.value] *)
Definition value (p : BehaviorPattern) : string :=
  match p with
  | CASUAL_BROWSING => "casual_browsing"
  | FOCUSED_WATCHING => "focused_watching"
  | MULTITASKING => "multitasking"
  | RESEARCH_MODE => "research_mode"
  | ENTERTAINMENT => "entertainment"
  end.

(** [list(BehaviorPattern)] *)
Definition all_patterns : list BehaviorPattern :=
  [CASUAL_BROWSING; FOCUSED_WATCHING; MULTITASKING; RESEARCH_MODE; ENTERTAINMENT].

(** One entry of the table returned by [_load_behavior_models]. *)
Record BehaviorModel : Type := {
  watch_completion : Q * Q;
  attention_span : Q * Q;
  click_frequency : Q * Q;
  scroll_frequency : Q * Q;
  pause_frequency : Q * Q;
  engagement_rate : Q * Q;
  preferred_times : list string;
  content_preferences : list string;
  device_bias : list (string * Q)
}.

Definition behavior_models (p : BehaviorPattern) : BehaviorModel :=
  match p with
  | CASUAL_BROWSING => {|
      watch_completion := (3 # 10, 7 # 10);
      attention_span := (15, 45);
      click_frequency := (1 # 10, 3 # 10);
      scroll_frequency := (2, 5);
      pause_frequency := (1 # 2, 3 # 2);
      engagement_rate := (1 # 10, 3 # 10);
      preferred_times := ["afternoon"; "evening"; "night"];
      content_preferences := ["entertainment"; "music"; "vlogs"];
      device_bias := [("mobile", 6 # 10); ("desktop", 4 # 10)] |}
  | FOCUSED_WATCHING => {|
      watch_completion := (7 # 10, 95 # 100);
      attention_span := (60, 180);
      click_frequency := (5 # 100, 15 # 100);
      scroll_frequency := (1 # 2, 2);
      pause_frequency := (8 # 10, 2);
      engagement_rate := (4 # 10, 7 # 10);
      preferred_times := ["morning"; "afternoon"];
      content_preferences := ["educational"; "tutorial"; "documentary"];
      device_bias := [("desktop", 7 # 10); ("tablet", 3 # 10)] |}
  | MULTITASKING => {|
      watch_completion := (2 # 10, 5 # 10);
      attention_span := (5, 20);
      click_frequency := (3 # 10, 6 # 10);
      scroll_frequency := (4, 8);
      pause_frequency := (2, 4);
      engagement_rate := (5 # 100, 2 # 10);
      preferred_times := ["afternoon"; "evening"];
      content_preferences := ["entertainment"; "background"];
      device_bias := [("mobile", 8 # 10); ("tablet", 2 # 10)] |}
  | RESEARCH_MODE => {|
      watch_completion := (4 # 10, 6 # 10);
      attention_span := (30, 90);
      click_frequency := (2 # 10, 4 # 10);
      scroll_frequency := (3, 6);
      pause_frequency := (3 # 2, 3);
      engagement_rate := (3 # 10, 5 # 10);
      preferred_times := ["morning"; "afternoon"];
      content_preferences := ["educational"; "review"; "comparison"];
      device_bias := [("desktop", 9 # 10); ("tablet", 1 # 10)] |}
  | ENTERTAINMENT => {|
      watch_completion := (5 # 10, 8 # 10);
      attention_span := (20, 60);
      click_frequency := (15 # 100, 25 # 100);
      scroll_frequency := (1, 3);
      pause_frequency := (3 # 10, 1);
      engagement_rate := (2 # 10, 4 # 10);
      preferred_times := ["evening"; "night"];
      content_preferences := ["entertainment"; "comedy"; "music"];
      device_bias := [("mobile", 5 # 10); ("desktop", 3 # 10); ("tv", 2 # 10)] |}
  end.

(** One entry of [_load_mouse_patterns]. *)
Record MousePattern : Type := {
  speed_range : Q * Q;
  acceleration_range : Q * Q;
  curvature_range : Q * Q;
  pause_probability : Q
}.

Definition mouse_straight : MousePattern :=
  {| speed_range := (1 # 2, 2); acceleration_range := (1 # 100, 5 # 100);
     curvature_range := (0, 1 # 10); pause_probability := 1 # 10 |}.
Definition mouse_exploratory : MousePattern :=
  {| speed_range := (3 # 10, 3 # 2); acceleration_range := (2 # 100, 8 # 100);
     curvature_range := (2 # 10, 5 # 10); pause_probability := 3 # 10 |}.
Definition mouse_hesitant : MousePattern :=
  {| speed_range := (1 # 10, 8 # 10); acceleration_range := (5 # 1000, 2 # 100);
     curvature_range := (3 # 10, 7 # 10); pause_probability := 5 # 10 |}.
Definition mouse_rapid : MousePattern :=
  {| speed_range := (1, 3); acceleration_range := (5 # 100, 15 # 100);
     curvature_range := (1 # 10, 3 # 10); pause_probability := 5 # 100 |}.
Definition mouse_natural : MousePattern :=
  {| speed_range := (4 # 10, 18 # 10); acceleration_range := (1 # 100, 1 # 10);
     curvature_range := (5 # 100, 4 # 10); pause_probability := 2 # 10 |}.

(** [self.mouse_patterns.get(pattern_type, self.mouse_patterns['natural'])] *)
Definition mouse_patterns_get (pattern_type : string) : MousePattern :=
  if pattern_type =? "straight" then mouse_straight
  else if pattern_type =? "exploratory" then mouse_exploratory
  else if pattern_type =? "hesitant" then mouse_hesitant
  else if pattern_type =? "rapid" then mouse_rapid
  else mouse_natural.

(** [_load_attention_models], as the dict iterates. *)
Definition attention_models : list (string * list Q) :=
  [ ("short_attention", [1; 8 # 10; 6 # 10; 4 # 10; 3 # 10; 2 # 10; 1 # 10]);
    ("medium_attention",
       [1; 9 # 10; 8 # 10; 7 # 10; 6 # 10; 5 # 10; 4 # 10; 3 # 10]);
    ("long_attention",
       [1; 95 # 100; 9 # 10; 85 # 100; 8 # 10; 75 # 100; 7 # 10; 65 # 100; 6 # 10]);
    ("spikey_attention", [1; 7 # 10; 9 # 10; 5 # 10; 8 # 10; 4 # 10; 7 # 10]);
    ("sustained_attention",
       [1; 98 # 100; 96 # 100; 94 # 100; 92 # 100; 90 # 100; 88 # 100]) ].

(** [d[k]]: [None] stands for [KeyError]. *)
Fixpoint dict_lookup {A} (k : string) (d : list (string * A)) : option A :=
  match d with
  | [] => None
  | (k', v) :: d' => if k =? k' then Some v else dict_lookup k d'
  end.

(** [d.get(k, default)] *)
Definition dict_get {A} (k : string) (d : list (string * A)) (default : A) : A :=
  match dict_lookup k d with Some v => v | None => default end.

(** [s in l] for a list of strings *)
Definition str_in (s : string) (l : list string) : bool :=
  existsb (String.eqb s) l.

(** The [context] argument once it is truthy: a dict that is not empty.
    A key that is absent is [None]; keys other than these three do not
    matter to the code. *)
Record Context : Type := {
  time_of_day : option string;
  content_type : option string;
  device_type : option string
}.

Definition get_or (o : option string) (default : string) : string :=
  match o with Some s => s | None => default end.

(** The body of the scoring loop of [select_behavior_pattern]. *)
Definition pattern_score (ctx : Context) (model : BehaviorModel) : Q :=
  let tod := get_or (time_of_day ctx) "afternoon" in
  let ct := get_or (content_type ctx) "entertainment" in
  let dt := get_or (device_type ctx) "desktop" in
  let score := 0 in
  let score := if str_in tod (preferred_times model) then score + 2 else score in
  let score := if str_in ct (content_preferences model) then score + 3 else score in
  let bias := dict_get dt (device_bias model) 0 in
  score + bias * 2.

(** [max(items, key=...)]: the first item whose key no later item
    exceeds; [None] stands for the [ValueError] on an empty sequence. *)
Fixpoint max_from {A} (key : A -> Q) (best : A) (l : list A) : A :=
  match l with
  | [] => best
  | x :: l' => max_from key (if Qlt_bool (key best) (key x) then x else best) l'
  end.

Definition py_max {A} (key : A -> Q) (l : list A) : option A :=
  match l with
  | [] => None
  | x :: l' => Some (max_from key x l')
  end.

(** [ViewSession] and the actions it carries. *)
Inductive Action : Type :=
  | Click (time : Q) (element : string) (duration : Q)
  | Scroll (time : Q) (direction : string) (amount : Z) (speed : Q)
  | Pause (time : Q) (duration : Q)
  | QualityChange (time : Q) (from to : string)
  | VolumeChange (time : Q) (amount : Z).

(** [x['time']] *)
Definition action_time (a : Action) : Q :=
  match a with
  | Click t _ _ | Scroll t _ _ _ | Pause t _
  | QualityChange t _ _ | VolumeChange t _ => t
  end.

Record ViewSession : Type := {
  start_time : Q;
  end_time : Q;
  video_duration : Z;
  watch_time : Z;
  retention_rate : Q;
  engagement_actions : list Action;
  attention_pattern : list Q
}.

(** The mutable part of a [BehaviorAISimulator]. *)
Record Simulator : Type := {
  session_history : list ViewSession;
  pattern_usage : BehaviorPattern -> Z
}.

(** [__init__] *)
Definition init : Simulator :=
  {| session_history := []; pattern_usage := fun _ => 0%Z |}.

Definition bump_usage (s : Simulator) (p : BehaviorPattern) : Simulator :=
  {| session_history := session_history s;
     pattern_usage := fun q =>
       if BehaviorPattern_eqb q p then (pattern_usage s q + 1)%Z
       else pattern_usage s q |}.

(** [select_behavior_pattern(context)]; [None] is both [None] and the
    empty dict. *)
Definition select_behavior_pattern (self : Simulator) (context : option Context)
  : M (BehaviorPattern * Simulator) :=
  selected <-
    match context with
    | Some ctx =>
        let pattern_scores :=
          map (fun p => (p, pattern_score ctx (behavior_models p))) all_patterns in
        match py_max snd pattern_scores with
        | Some item => ret (fst item)
        | None => ret CASUAL_BROWSING
        end
    | None =>
        choices CASUAL_BROWSING all_patterns
          [3 # 10; 2 # 10; 2 # 10; 15 # 100; 15 # 100]
    end ;;
  ret (selected, bump_usage self selected).

(** [MouseAction] *)
Record MouseAction : Type := {
  x : Z;
  y : Z;
  action_type : string;
  timestamp : Q;
  duration : Q;
  pressure : Q
}.

(** Control points of the Bezier curve, by [pattern_type]. *)
Definition control_points_for (pattern_type : string)
    (start_x start_y dx dy : Z) : M (list (Q * Q)) :=
  let sx := inject_Z start_x in
  let sy := inject_Z start_y in
  let ddx := inject_Z dx in
  let ddy := inject_Z dy in
  if pattern_type =? "straight" then
    let control_x := sx + ddx * (1 # 2) in
    let control_y := sy + ddy * (1 # 2) in
    ret [(control_x, control_y)]
  else if pattern_type =? "exploratory" then
    j1 <- randint (-50) 50 ;;
    let control_x1 := sx + ddx * (3 # 10) + inject_Z j1 in
    j2 <- randint (-50) 50 ;;
    let control_y1 := sy + ddy * (3 # 10) + inject_Z j2 in
    j3 <- randint (-50) 50 ;;
    let control_x2 := sx + ddx * (7 # 10) + inject_Z j3 in
    j4 <- randint (-50) 50 ;;
    let control_y2 := sy + ddy * (7 # 10) + inject_Z j4 in
    ret [(control_x1, control_y1); (control_x2, control_y2)]
  else if pattern_type =? "hesitant" then
    mapM (fun i : Z =>
            let t := inject_Z i / 4 in
            j1 <- randint (-30) 30 ;;
            let cx := sx + ddx * t + inject_Z j1 in
            j2 <- randint (-30) 30 ;;
            let cy := sy + ddy * t + inject_Z j2 in
            ret (cx, cy))
         [1; 2; 3]%Z
  else
    u1 <- uniform (3 # 10) (7 # 10) ;;
    let control_x := sx + ddx * u1 in
    u2 <- uniform (3 # 10) (7 # 10) ;;
    let control_y := sy + ddy * u2 in
    ret [(control_x, control_y)].

(** [points[i] = v] on a list; nothing is written out of range (the
    loops below never index out of range). *)
Fixpoint list_set {A} (i : nat) (v : A) (l : list A) : list A :=
  match l, i with
  | [], _ => []
  | _ :: l', O => v :: l'
  | a :: l', S i' => a :: list_set i' v l'
  end.

(** The inner loop of de Casteljau's algorithm, in place:
    [for i in range(len(points) - r): points[i] = lerp(points[i], points[i+1])]. *)
Definition casteljau_round (t : Q) (points : list (Q * Q)) (r : nat)
  : list (Q * Q) :=
  fold_left
    (fun points i =>
       let '(px, py) := nth i points (0, 0) in
       let '(qx, qy) := nth (S i) points (0, 0) in
       list_set i ((1 - t) * px + t * qx, (1 - t) * py + t * qy) points)
    (seq 0 (length points - r))
    points.

Definition casteljau (t : Q) (points : list (Q * Q)) : Q * Q :=
  nth 0 (fold_left (casteljau_round t) (seq 1 (length points - 1)) points) (0, 0).

(** Position on the curve at parameter [t]. *)
Definition bezier_point (start_x start_y end_x end_y : Z)
    (control_points : list (Q * Q)) (t : Q) : Q * Q :=
  let sx := inject_Z start_x in
  let sy := inject_Z start_y in
  let ex := inject_Z end_x in
  let ey := inject_Z end_y in
  match control_points with
  | [(cx, cy)] =>
      ((1 - t) ^ 2 * sx + 2 * (1 - t) * t * cx + t ^ 2 * ex,
       (1 - t) ^ 2 * sy + 2 * (1 - t) * t * cy + t ^ 2 * ey)
  | [(cx1, cy1); (cx2, cy2)] =>
      ((1 - t) ^ 3 * sx + 3 * (1 - t) ^ 2 * t * cx1
         + 3 * (1 - t) * t ^ 2 * cx2 + t ^ 3 * ex,
       (1 - t) ^ 3 * sy + 3 * (1 - t) ^ 2 * t * cy1
         + 3 * (1 - t) * t ^ 2 * cy2 + t ^ 3 * ey)
  | _ => casteljau t ([(sx, sy)] ++ control_points ++ [(ex, ey)])
  end.

(** [num_points = max(10, min(50, int(distance / 10)))] *)
Definition num_points_for (distance : Q) : Z :=
  Z.max 10 (Z.min 50 (int (distance / 10))).

(** One iteration of the point loop: the action appended and the new
    [current_time]. *)
Definition trajectory_step (pattern_type : string) (pattern : MousePattern)
    (start_x start_y end_x end_y : Z) (control_points : list (Q * Q))
    (distance : Q) (num_points : Z) (current_time : Q) (i : Z)
  : M (MouseAction * Q) :=
  let t := inject_Z i / inject_Z (num_points - 1) in
  let '(x0, y0) := bezier_point start_x start_y end_x end_y control_points t in
  r <- random ;;
  xy <- (if Qlt_bool (7 # 10) r then
           jx <- randint (-2) 2 ;;
           jy <- randint (-2) 2 ;;
           ret (x0 + inject_Z jx, y0 + inject_Z jy)
         else ret (x0, y0)) ;;
  speed <- uniform (fst (speed_range pattern)) (snd (speed_range pattern)) ;;
  let move_duration :=
    if Qlt_bool 0 speed then distance / (inject_Z num_points * speed)
    else 1 # 100 in
  pr <- (if pattern_type =? "hesitant" then uniform (1 # 2) 1 else ret 1) ;;
  let action :=
    {| x := int (fst xy); y := int (snd xy); action_type := "move";
       timestamp := current_time; duration := move_duration; pressure := pr |} in
  let current_time := current_time + move_duration in
  r2 <- random ;;
  current_time <-
    (if Qlt_bool r2 (pause_probability pattern) then
       pause_duration <- uniform (5 # 100) (2 # 10) ;;
       ret (current_time + pause_duration)
     else ret current_time) ;;
  ret (action, current_time).

Fixpoint trajectory_loop (step : Q -> Z -> M (MouseAction * Q))
    (current_time : Q) (indices : list Z) : M (list MouseAction) :=
  match indices with
  | [] => ret []
  | i :: rest =>
      ac <- step current_time i ;;
      actions <- trajectory_loop step (snd ac) rest ;;
      ret (fst ac :: actions)
  end.

Section MouseTrajectory.

(** [math.sqrt]: the model leaves the square root open. *)
Variable sqrt : Q -> Q.

(** [generate_mouse_trajectory(start_x, start_y, end_x, end_y, pattern_type)] *)
Definition generate_mouse_trajectory (start_x start_y end_x end_y : Z)
    (pattern_type : string) : M (list MouseAction) :=
  let pattern := mouse_patterns_get pattern_type in
  current_time <- time ;;
  let dx := (end_x - start_x)%Z in
  let dy := (end_y - start_y)%Z in
  let distance := sqrt (inject_Z (dx ^ 2 + dy ^ 2)) in
  let num_points := num_points_for distance in
  control_points <- control_points_for pattern_type start_x start_y dx dy ;;
  trajectory_loop
    (trajectory_step pattern_type pattern start_x start_y end_x end_y
       control_points distance num_points)
    current_time (range num_points).

End MouseTrajectory.

(** [generate_attention_pattern(video_duration, pattern_type)]; the
    result [None] stands for the [KeyError] of an unknown shape name. *)
Definition generate_attention_pattern (video_duration : Z)
    (pattern_type : option string) : M (option (list Q)) :=
  pattern_type <-
    match pattern_type with
    | Some s => if s =? "" then choice "" (map fst attention_models) else ret s
    | None => choice "" (map fst attention_models)
    end ;;
  match dict_lookup pattern_type attention_models with
  | None => ret None
  | Some base_pattern =>
      let len := Z.of_nat (length base_pattern) in
      let num_segments := Z.min (video_duration / 30) len in
      let num_segments := if (num_segments <? 2)%Z then 2%Z else num_segments in
      scaled_pattern <-
        mapM (fun i : Z =>
                let base_idx := Z.min i (len - 1) in
                let base_value := nth (Z.to_nat base_idx) base_pattern 0 in
                variation <-
                  (if pattern_type =? "spikey_attention"
                   then uniform (- (3 # 10)) (3 # 10)
                   else uniform (- (15 # 100)) (15 # 100)) ;;
                ret (Qmax (1 # 10) (Qmin 1 (base_value + variation))))
             (range num_segments) ;;
      ret (Some scaled_pattern)
  end.

(** [_generate_engagement_actions(behavior_pattern, watch_time)] *)
Definition _generate_engagement_actions (behavior_pattern : BehaviorPattern)
    (watch_time : Z) : M (list Action) :=
  let model := behavior_models behavior_pattern in
  let wt := inject_Z watch_time in
  click_freq <- uniform (fst (click_frequency model)) (snd (click_frequency model)) ;;
  scroll_freq <- uniform (fst (scroll_frequency model)) (snd (scroll_frequency model)) ;;
  pause_freq <- uniform (fst (pause_frequency model)) (snd (pause_frequency model)) ;;
  let num_clicks := int (wt * click_freq / 60) in
  let num_scrolls := int (wt * scroll_freq / 60) in
  let num_pauses := int (wt * pause_freq / 60) in
  clicks <-
    replicateM (Z.to_nat num_clicks)
      (click_time <- uniform 10 (wt - 10) ;;
       element <- choice "" ["video"; "like"; "subscribe"; "comment"; "share"] ;;
       d <- uniform (1 # 10) (5 # 10) ;;
       ret (Click click_time element d)) ;;
  scrolls <-
    replicateM (Z.to_nat num_scrolls)
      (scroll_time <- uniform 5 (wt - 5) ;;
       direction <- choice "" ["up"; "down"] ;;
       amount <- randint 100 500 ;;
       speed <- uniform 50 300 ;;
       ret (Scroll scroll_time direction amount speed)) ;;
  pauses <-
    replicateM (Z.to_nat num_pauses)
      (pause_time <- uniform 15 (wt - 15) ;;
       pause_duration <- uniform 2 10 ;;
       ret (Pause pause_time pause_duration)) ;;
  r1 <- random ;;
  quality <-
    (if Qlt_bool r1 (1 # 10) then
       change_time <- uniform 30 (wt - 30) ;;
       from <- choice "" ["360p"; "480p"; "720p"] ;;
       to <- choice "" ["480p"; "720p"; "1080p"] ;;
       ret [QualityChange change_time from to]
     else ret []) ;;
  r2 <- random ;;
  volume <-
    (if Qlt_bool r2 (3 # 10) then
       num_volume_changes <- randint 1 3 ;;
       replicateM (Z.to_nat num_volume_changes)
         (change_time <- uniform 20 (wt - 20) ;;
          amount <- randint (-30) 30 ;;
          ret (VolumeChange change_time amount))
     else ret []) ;;
  let actions := clicks ++ scrolls ++ pauses ++ quality ++ volume in
  ret (sort_by action_time actions).

(** [generate_view_session(video_duration, behavior_pattern)]; the
    session is [None] when a [KeyError] escapes, which leaves the
    history as it was. *)
Definition generate_view_session (self : Simulator) (video_duration : Z)
    (behavior_pattern : option BehaviorPattern)
  : M (option ViewSession * Simulator) :=
  ps <- match behavior_pattern with
        | Some p => ret (p, self)
        | None => select_behavior_pattern self None
        end ;;
  let behavior_pattern := fst ps in
  let self := snd ps in
  let model := behavior_models behavior_pattern in
  completion_rate <-
    uniform (fst (watch_completion model)) (snd (watch_completion model)) ;;
  let watch_time := int (inject_Z video_duration * completion_rate) in
  attention_type <-
    match behavior_pattern with
    | FOCUSED_WATCHING => ret "long_attention"
    | MULTITASKING => ret "short_attention"
    | _ => choice "" ["medium_attention"; "spikey_attention"]
    end ;;
  attention <- generate_attention_pattern video_duration (Some attention_type) ;;
  match attention with
  | None => ret (None, self)
  | Some attention_pattern =>
      engagement_actions <- _generate_engagement_actions behavior_pattern watch_time ;;
      t1 <- time ;;
      t2 <- time ;;
      let session :=
        {| start_time := t1;
           end_time := t2 + inject_Z watch_time;
           video_duration := video_duration;
           watch_time := watch_time;
           retention_rate := completion_rate;
           engagement_actions := engagement_actions;
           attention_pattern := attention_pattern |} in
      ret (Some session,
           {| session_history := session_history self ++ [session];
              pattern_usage := pattern_usage self |})
  end.

(** [generate_scroll_actions] and its pattern table *)

(** [ScrollAction] *)
Record ScrollAction : Type := {
  sc_direction : string;
  sc_amount : Z;
  sc_speed : Q;
  sc_timestamp : Q;
  sc_smoothness : Q
}.

(** One entry of [_load_scroll_patterns]. *)
Record ScrollPattern : Type := {
  sp_speed_range : Q * Q;
  sp_burst_count : Z * Z;
  sp_burst_duration : Q * Q;
  sp_pause_between : Q * Q;
  sp_smoothness : Q
}.

Definition burst_scroll_pattern : ScrollPattern :=
  {| sp_speed_range := (100, 500); sp_burst_count := (2, 5)%Z;
     sp_burst_duration := (1 # 2, 3 # 2); sp_pause_between := (1 # 2, 2);
     sp_smoothness := 7 # 10 |}.
Definition continuous_scroll_pattern : ScrollPattern :=
  {| sp_speed_range := (50, 200); sp_burst_count := (1, 1)%Z;
     sp_burst_duration := (3, 10); sp_pause_between := (0, 0);
     sp_smoothness := 9 # 10 |}.
Definition idle_scroll_pattern : ScrollPattern :=
  {| sp_speed_range := (20, 100); sp_burst_count := (1, 3)%Z;
     sp_burst_duration := (1, 3); sp_pause_between := (1, 3);
     sp_smoothness := 8 # 10 |}.
Definition reading_scroll_pattern : ScrollPattern :=
  {| sp_speed_range := (30, 150); sp_burst_count := (1, 2)%Z;
     sp_burst_duration := (2, 5); sp_pause_between := (2, 5);
     sp_smoothness := 85 # 100 |}.

(** [self.scroll_patterns.get(pattern_type, self.scroll_patterns['burst_scroll'])] *)
Definition scroll_patterns_get (pattern_type : string) : ScrollPattern :=
  if pattern_type =? "burst_scroll" then burst_scroll_pattern
  else if pattern_type =? "continuous_scroll" then continuous_scroll_pattern
  else if pattern_type =? "idle_scroll" then idle_scroll_pattern
  else if pattern_type =? "reading_scroll" then reading_scroll_pattern
  else burst_scroll_pattern.

(** The burst loop of [generate_scroll_actions]; a burst of no scroll
    left breaks out of it. *)
Fixpoint scroll_loop (pattern : ScrollPattern) (n scroll_per_burst : Z)
    (bursts : list Z) (current_time : Q) (remaining_scroll : Z)
  : M (list ScrollAction) :=
  match bursts with
  | [] => ret []
  | burst :: rest =>
      d <- uniform (fst (sp_burst_duration pattern)) (snd (sp_burst_duration pattern)) ;;
      v <- uniform (fst (sp_speed_range pattern)) (snd (sp_speed_range pattern)) ;;
      let burst_scroll := Z.min scroll_per_burst remaining_scroll in
      if (burst_scroll <=? 0)%Z then ret []
      else
        r <- random ;;
        let action :=
          {| sc_direction := if Qlt_bool (1 # 10) r then "down" else "up";
             sc_amount := burst_scroll; sc_speed := v; sc_timestamp := current_time;
             sc_smoothness := sp_smoothness pattern |} in
        let current_time := current_time + d in
        let remaining_scroll := (remaining_scroll - burst_scroll)%Z in
        current_time <-
          (if (burst <? n - 1)%Z && (0 <? remaining_scroll)%Z then
             p <- uniform (fst (sp_pause_between pattern)) (snd (sp_pause_between pattern)) ;;
             ret (current_time + p)
           else ret current_time) ;;
        actions <- scroll_loop pattern n scroll_per_burst rest current_time
                     remaining_scroll ;;
        ret (action :: actions)
  end.

(** [generate_scroll_actions(pattern_type, total_scroll)]; [None] stands
    for the [ZeroDivisionError] of a burst count of 0. *)
Definition generate_scroll_actions (pattern_type : string) (total_scroll : Z)
  : M (option (list ScrollAction)) :=
  let pattern := scroll_patterns_get pattern_type in
  current_time <- time ;;
  n <- randint (fst (sp_burst_count pattern)) (snd (sp_burst_count pattern)) ;;
  if (n =? 0)%Z then ret None
  else
    let scroll_per_burst := (total_scroll / n)%Z in
    actions <- scroll_loop pattern n scroll_per_burst (range n) current_time
                 total_scroll ;;
    ret (Some actions).

End BehaviorAI.

(* ================================================================== *)
(** ** fingerprint_rotator.py *)
(* ================================================================== *)

Module FingerprintRotator.
Import Py PyRandom PyList.

(** [class FingerprintType(Enum)] *)
Inductive FingerprintType : Type :=
  | DESKTOP_CHROME
  | DESKTOP_FIREFOX
  | DESKTOP_SAFARI
  | MOBILE_CHROME
  | MOBILE_SAFARI
  | TABLET_CHROME
  | LINUX_FIREFOX
  | EDGE.

(** The keys of [_load_hardware_profiles]. *)
Inductive HardwareProfile : Type :=
  | desktop_high_end
  | desktop_mid_end
  | desktop_low_end
  | laptop
  | mobile_high_end
  | mobile_mid_end
  | mobile_low_end
  | tablet.

(** [_select_fingerprint_type] *)
Definition _select_fingerprint_type : M FingerprintType :=
  choices DESKTOP_CHROME
    [DESKTOP_CHROME; DESKTOP_FIREFOX; DESKTOP_SAFARI; MOBILE_CHROME;
     MOBILE_SAFARI; TABLET_CHROME; LINUX_FIREFOX; EDGE]
    [65 # 100; 5 # 100; 3 # 100; 20 # 100; 3 # 100; 2 # 100; 1 # 100; 1 # 100].

(** [_select_hardware_profile] *)
Definition _select_hardware_profile (fingerprint_type : FingerprintType)
  : M HardwareProfile :=
  match fingerprint_type with
  | MOBILE_CHROME | MOBILE_SAFARI =>
      choices mobile_high_end
        [mobile_high_end; mobile_mid_end; mobile_low_end]
        [3 # 10; 5 # 10; 2 # 10]
  | TABLET_CHROME => ret tablet
  | DESKTOP_SAFARI => ret laptop
  | _ =>
      choices desktop_high_end
        [desktop_high_end; desktop_mid_end; desktop_low_end; laptop]
        [2 # 10; 3 # 10; 2 # 10; 3 # 10]
  end.

(** [_generate_permissions] *)
Record Permissions : Type := {
  geolocation : string;
  notifications : string;
  camera : string;
  microphone : string;
  background_sync : string;
  persistent_storage : string
}.

Definition _generate_permissions : M Permissions :=
  g <- choice "" ["granted"; "denied"; "prompt"] ;;
  n <- choice "" ["granted"; "denied"; "prompt"] ;;
  c <- choice "" ["denied"; "prompt"] ;;
  m <- choice "" ["denied"; "prompt"] ;;
  p <- choice "" ["granted"; "prompt"] ;;
  ret {| geolocation := g; notifications := n; camera := c; microphone := m;
         background_sync := "granted"; persistent_storage := p |}.

(** [self.stats] *)
Record Stats : Type := {
  fingerprints_generated : Z;
  rotations_performed : Z;
  unique_configs : Z;
  detection_attempts : Z;
  successful_rotations : Z
}.

Section Rotator.

(** The sampled attributes of a [FingerprintConfig] from [user_agent] to
    [fingerprint_hash] (screen, hardware, locale, WebGL strings, fonts,
    plugins, hashes).  The rotation policy and the history do not read
    them; their sampling is a parameter of the model. *)
Variable Attributes : Type.
Variable sample_attributes : FingerprintType -> HardwareProfile -> M Attributes.

Record FingerprintConfig : Type := {
  attributes : Attributes;
  created_at : Q;
  expires_at : Q;
  permissions : Permissions
}.

(** The mutable part of a [FingerprintRotator]. *)
Record Rotator : Type := {
  fingerprint_history : list FingerprintConfig;
  current_fingerprint : option FingerprintConfig;
  rotation_counter : Z;
  stats : Stats
}.

(** [__init__] *)
Definition init : Rotator :=
  {| fingerprint_history := [];
     current_fingerprint := None;
     rotation_counter := 0;
     stats := {| fingerprints_generated := 0; rotations_performed := 0;
                 unique_configs := 0; detection_attempts := 0;
                 successful_rotations := 0 |} |}.

(** [generate_fingerprint(fingerprint_type, hardware_profile)] *)
Definition generate_fingerprint (self : Rotator)
    (fingerprint_type : option FingerprintType)
    (hardware_profile : option HardwareProfile)
  : M (FingerprintConfig * Rotator) :=
  fingerprint_type <-
    match fingerprint_type with
    | Some t => ret t
    | None => _select_fingerprint_type
    end ;;
  hardware_profile <-
    match hardware_profile with
    | Some h => ret h
    | None => _select_hardware_profile fingerprint_type
    end ;;
  attrs <- sample_attributes fingerprint_type hardware_profile ;;
  t1 <- time ;;
  t2 <- time ;;
  perms <- _generate_permissions ;;
  let fingerprint :=
    {| attributes := attrs; created_at := t1; expires_at := t2 + 3600;
       permissions := perms |} in
  let history := fingerprint_history self ++ [fingerprint] in
  let st := stats self in
  let st :=
    {| fingerprints_generated := (fingerprints_generated st + 1)%Z;
       rotations_performed := rotations_performed st;
       unique_configs := unique_configs st;
       detection_attempts := detection_attempts st;
       successful_rotations := successful_rotations st |} in
  let history :=
    if (50 <? length history)%nat then last_n 50 history else history in
  ret (fingerprint,
       {| fingerprint_history := history;
          current_fingerprint := Some fingerprint;
          rotation_counter := rotation_counter self;
          stats := st |}).

(** [rotate_fingerprint(force_rotation, min_time_between)] *)
Definition rotate_fingerprint (self : Rotator) (force_rotation : bool)
    (min_time_between : Z) : M (option FingerprintConfig * Rotator) :=
  current_time <- time ;;
  let regenerate :=
    r <- generate_fingerprint self None None ;; ret (Some (fst r), snd r) in
  match current_fingerprint self with
  | None => regenerate
  | Some current =>
      if Qlt_bool (expires_at current) current_time then regenerate
      else if force_rotation then regenerate
      else
        let time_since_last := current_time - created_at current in
        if Qlt_bool (inject_Z min_time_between) time_since_last then regenerate
        else ret (None, self)
  end.

(** [get_fingerprint_for_playwright]: the browser context returned is a
    projection of the current fingerprint, which is what is returned
    here. *)
Definition get_fingerprint_for_playwright (self : Rotator)
  : M (FingerprintConfig * Rotator) :=
  match current_fingerprint self with
  | None => generate_fingerprint self None None
  | Some current => ret (current, self)
  end.

(** [get_fingerprint_for_session(rotator, session_type)] *)
Definition get_fingerprint_for_session (rotator : Rotator) (session_type : string)
  : M (FingerprintConfig * Rotator) :=
  fp_type <-
    (if session_type =? "desktop" then
       t <- choice DESKTOP_CHROME
              [DESKTOP_CHROME; DESKTOP_FIREFOX; DESKTOP_SAFARI; EDGE] ;;
       ret (Some t)
     else if session_type =? "mobile" then
       t <- choice MOBILE_CHROME [MOBILE_CHROME; MOBILE_SAFARI] ;;
       ret (Some t)
     else if session_type =? "tablet" then ret (Some TABLET_CHROME)
     else ret None) ;;
  generate_fingerprint rotator fp_type None.

End Rotator.

End FingerprintRotator.

(* ================================================================== *)
(** ** stealth_manager.py *)
(* ================================================================== *)

Module StealthManager.
Import Py PyRandom PyList.

(** One entry of [_load_real_patterns()['retention_curves']]. *)
Record RetentionPattern : Type := {
  curve : list Z;
  drop_points : list Z;
  rewind_probability : Q;
  pause_frequency : Q
}.

Definition educational_curve : RetentionPattern :=
  {| curve := [100; 95; 92; 88; 85; 82; 78; 75; 70; 65; 60]%Z;
     drop_points := [3; 7]%Z;
     rewind_probability := 3 # 10;
     pause_frequency := 4 # 10 |}.
Definition entertainment_curve : RetentionPattern :=
  {| curve := [100; 85; 75; 70; 65; 60; 55; 50; 45; 40; 35]%Z;
     drop_points := [1; 2; 5]%Z;
     rewind_probability := 1 # 10;
     pause_frequency := 2 # 10 |}.
Definition tutorial_curve : RetentionPattern :=
  {| curve := [100; 98; 95; 93; 90; 88; 85; 83; 80; 78; 75]%Z;
     drop_points := [4; 8]%Z;
     rewind_probability := 5 # 10;
     pause_frequency := 6 # 10 |}.
Definition music_curve : RetentionPattern :=
  {| curve := [100; 90; 85; 83; 82; 81; 80; 79; 78; 77; 76]%Z;
     drop_points := []%Z;
     rewind_probability := 2 # 10;
     pause_frequency := 1 # 10 |}.

(** [retention_curves.get(video_type, retention_curves['entertainment'])] *)
Definition retention_curves_get (video_type : string) : RetentionPattern :=
  if video_type =? "educational" then educational_curve
  else if video_type =? "entertainment" then entertainment_curve
  else if video_type =? "tutorial" then tutorial_curve
  else if video_type =? "music" then music_curve
  else entertainment_curve.

(** The entries of [events]. *)
Inductive WatchEvent : Type :=
  | EvPause (time : Q) (duration : Q)
  | EvSeek (time : Q) (amount : Z)
  | EvQuality (time : Q) (from to : string)
  | EvVolume (time : Q) (amount : Z).

(** [e['time']] *)
Definition event_time (e : WatchEvent) : Q :=
  match e with
  | EvPause t _ | EvSeek t _ | EvQuality t _ _ | EvVolume t _ => t
  end.

(** The entries of [drop_events]. *)
Record DropEvent : Type := { drop_time : Z; drop_amount : Z }.

(** The dict returned by [generate_human_watch_pattern]. *)
Record WatchPattern : Type := {
  video_type : string;
  retention_curve : list Q;
  segment_length : Q;
  drop_events : list DropEvent;
  events : list WatchEvent;
  total_watch_time : Z;
  completion_rate : Q
}.

(** What one event takes off the watch time of its segment. *)
Definition event_cost (e : WatchEvent) : Q :=
  match e with
  | EvPause _ d => d
  | EvSeek _ a => inject_Z (Z.abs a) * (1 # 10)
  | _ => 0
  end.

(** The body of the segment loop of [_calculate_actual_watch_time]. *)
Definition segment_watch_time (segment_length : Q) (events : list WatchEvent)
    (i : nat) (retention : Q) : Q :=
  let segment_start := inject_Z (Z.of_nat i) * segment_length in
  let segment_end := inject_Z (Z.of_nat i + 1) * segment_length in
  let segment_watch := segment_length * (retention / 100) in
  let segment_events :=
    filter (fun e => Qle_bool segment_start (event_time e)
                     && Qlt_bool (event_time e) segment_end) events in
  let segment_watch :=
    fold_left (fun w e => w - event_cost e) segment_events segment_watch in
  Qmax 0 segment_watch.

Fixpoint sum_segments (segment_length : Q) (events : list WatchEvent)
    (i : nat) (retention_curve : list Q) (total_watch : Q) : Q :=
  match retention_curve with
  | [] => total_watch
  | retention :: rest =>
      sum_segments segment_length events (S i) rest
        (total_watch + segment_watch_time segment_length events i retention)
  end.

(** [_calculate_actual_watch_time]; [None] stands for the
    [ZeroDivisionError] of an empty retention curve. *)
Definition _calculate_actual_watch_time (video_length : Z)
    (retention_curve : list Q) (events : list WatchEvent) : M (option Z) :=
  match retention_curve with
  | [] => ret None
  | _ =>
      let segment_length :=
        inject_Z video_length / inject_Z (Z.of_nat (length retention_curve)) in
      let total_watch := sum_segments segment_length events 0 retention_curve 0 in
      u <- uniform (- (5 # 100)) (5 # 100) ;;
      let noise := total_watch * u in
      let total_watch := total_watch + noise in
      ret (Some (int (Qmax 30 total_watch)))
  end.

(** The retention value of segment [i]. *)
Definition retention_at (base_curve : list Z) (i : Z) : M Q :=
  let base_idx := Z.min i (Z.of_nat (length base_curve) - 1) in
  let base_value := inject_Z (nth (Z.to_nat base_idx) base_curve 0%Z) in
  variation <-
    (if (i =? 0)%Z then uniform (-2) 2
     else if (i <? 3)%Z then uniform (-5) 5
     else uniform (-10) 5) ;;
  ret (Qmax 5 (Qmin 100 (base_value + variation))).

(** The drop-off loop: one draw per drop point, a second one when the
    drop happens. *)
Fixpoint gen_drop_events (video_length : Z) (points : list Z)
  : M (list DropEvent) :=
  match points with
  | [] => ret []
  | drop_point :: rest =>
      r <- random ;;
      here <-
        (if Qlt_bool (1 # 2) r then
           amount <- randint 20 60 ;;
           ret [{| drop_time := Z.min (video_length - 10) (drop_point * 30);
                   drop_amount := amount |}]
         else ret []) ;;
      more <- gen_drop_events video_length rest ;;
      ret (here ++ more)
  end.

(** [generate_human_watch_pattern(video_length, video_type)]; [None]
    stands for the [ZeroDivisionError] of [video_length = 0]. *)
Definition generate_human_watch_pattern (video_length : Z)
    (video_type : option string) : M (option WatchPattern) :=
  let pick := choice "" ["educational"; "entertainment"; "tutorial"; "music"] in
  video_type <-
    match video_type with
    | Some s => if s =? "" then pick else ret s
    | None => pick
    end ;;
  let pattern_data := retention_curves_get video_type in
  let base_curve := curve pattern_data in
  let vl := inject_Z video_length in
  let segments := Z.min (video_length / 30) (Z.of_nat (length base_curve)) in
  let segments := if (segments <? 2)%Z then 2%Z else segments in
  let segment_length := vl / inject_Z segments in
  scaled_retention <- mapM (retention_at base_curve) (range segments) ;;
  drop_events <- gen_drop_events video_length (drop_points pattern_data) ;;
  let num_pauses := int (vl * pause_frequency pattern_data / 120) in
  let num_pauses := Z.max 0 (Z.min 5 num_pauses) in
  pauses <-
    replicateM (Z.to_nat num_pauses)
      (pause_time <- uniform 30 (vl - 60) ;;
       pause_duration <- uniform 2 15 ;;
       ret (EvPause (round1 pause_time) (round1 pause_duration))) ;;
  r1 <- random ;;
  seeks <-
    (if Qlt_bool r1 (rewind_probability pattern_data) then
       num_seeks <- randint 1 3 ;;
       replicateM (Z.to_nat num_seeks)
         (seek_time <- uniform 60 (vl - 30) ;;
          seek_amount <- randint (-45) (-10) ;;
          ret (EvSeek (round1 seek_time) seek_amount))
     else ret []) ;;
  r2 <- random ;;
  skips <-
    (if Qlt_bool r2 (3 # 10) then
       num_skips <- randint 1 2 ;;
       replicateM (Z.to_nat num_skips)
         (skip_time <- uniform 30 (vl - 60) ;;
          skip_amount <- randint 10 30 ;;
          ret (EvSeek (round1 skip_time) skip_amount))
     else ret []) ;;
  r3 <- random ;;
  quality <-
    (if Qlt_bool r3 (2 # 10) then
       change_time <- uniform 45 (vl - 45) ;;
       from <- choice "" ["480p"; "720p"] ;;
       to <- choice "" ["360p"; "480p"; "720p"; "1080p"] ;;
       ret [EvQuality (round1 change_time) from to]
     else ret []) ;;
  r4 <- random ;;
  volume <-
    (if Qlt_bool r4 (4 # 10) then
       num_volume_changes <- randint 1 3 ;;
       replicateM (Z.to_nat num_volume_changes)
         (change_time <- uniform 20 (vl - 20) ;;
          change_amount <- randint (-30) 30 ;;
          ret (EvVolume (round1 change_time) change_amount))
     else ret []) ;;
  let events := sort_by event_time (pauses ++ seeks ++ skips ++ quality ++ volume) in
  actual <- _calculate_actual_watch_time video_length scaled_retention events ;;
  match actual with
  | None => ret None
  | Some actual_watch =>
      if (video_length =? 0)%Z then ret None
      else
        ret (Some
          {| video_type := video_type;
             retention_curve := scaled_retention;
             segment_length := segment_length;
             drop_events := drop_events;
             events := events;
             total_watch_time := actual_watch;
             completion_rate := round1 (inject_Z actual_watch / vl * 100) |})
  end.

Section SessionLog.

(** A saved session is a dict that [save_session] stamps with the time
    and with the result of [check_detection_risk]; neither the dict nor
    the check takes part in how the history is kept. *)
Variable SessionData : Type.
Variable stamp : list SessionData -> Q -> SessionData -> SessionData.

(** [save_session(session_data)], on [self.session_history] *)
Definition save_session (session_history : list SessionData)
    (session_data : SessionData) : M (list SessionData) :=
  t <- time ;;
  let session_data := stamp session_history t session_data in
  let session_history := session_history ++ [session_data] in
  ret (if (100 <? length session_history)%nat
       then last_n 100 session_history else session_history).

End SessionLog.

(** [should_perform_action(action_type, viewer_profile)], on the
    ['interaction_probabilities'] of the profile *)
Definition should_perform_action (action_type : string)
    (probabilities : list (string * Q)) : M bool :=
  let base_prob := BehaviorAI.dict_get action_type probabilities (1 # 10) in
  u <- uniform (- (2 # 10)) (2 # 10) ;;
  let variation := base_prob * u in
  let final_prob := Qmax 0 (Qmin 1 (base_prob + variation)) in
  r <- random ;;
  ret (Qlt_bool r final_prob).

End StealthManager.

(* ================================================================== *)
(** ** session_orchestrator.py *)
(* ================================================================== *)

Module SessionOrchestrator.
Import Py PyRandom PyList.
Import BehaviorAI.

(** [class SessionPriority(Enum)] *)
Inductive SessionPriority : Type := HIGH | MEDIUM | LOW | TEST.

(** [priority.value] *)
Definition priority_value (p : SessionPriority) : string :=
  match p with
  | HIGH => "high" | MEDIUM => "medium" | LOW => "low" | TEST => "test"
  end.

(** [_get_engagement_pattern] *)
Record EngagementPattern : Type := {
  ep_like_probability : Q;
  ep_comment_probability : Q;
  ep_subscribe_probability : Q;
  ep_share_probability : Q;
  ep_completion_rate : Q;
  ep_avg_watch_time_percentage : Q
}.

Definition _get_engagement_pattern : M EngagementPattern :=
  a <- uniform (3 # 10) (7 # 10) ;;
  b <- uniform (5 # 100) (2 # 10) ;;
  c <- uniform (1 # 10) (4 # 10) ;;
  d <- uniform (2 # 100) (1 # 10) ;;
  e <- uniform (4 # 10) (8 # 10) ;;
  f <- uniform (5 # 10) (9 # 10) ;;
  ret {| ep_like_probability := a; ep_comment_probability := b;
         ep_subscribe_probability := c; ep_share_probability := d;
         ep_completion_rate := e; ep_avg_watch_time_percentage := f |}.

(** [sum(values)]: from 0, in order. *)
Definition py_sum (l : list Q) : Q := fold_left Qplus l 0.

(** One category of [_get_audience_demographics]: the draws, then the
    normalisation loop. *)
Definition draw_category (ranges : list (string * (Q * Q)))
  : M (list (string * Q)) :=
  mapM (fun kr : string * (Q * Q) =>
          v <- uniform (fst (snd kr)) (snd (snd kr)) ;; ret (fst kr, v))
       ranges.

Definition normalise (category : list (string * Q)) : list (string * Q) :=
  let total := py_sum (map snd category) in
  if Qlt_bool 0 total
  then map (fun kv : string * Q => (fst kv, snd kv / total)) category
  else category.

Record Demographics : Type := {
  age_groups : list (string * Q);
  genders : list (string * Q);
  devices : list (string * Q);
  locations : list (string * Q)
}.

(** [_get_audience_demographics] *)
Definition _get_audience_demographics : M Demographics :=
  a <- draw_category
         [("13-17", (1 # 10, 2 # 10)); ("18-24", (3 # 10, 4 # 10));
          ("25-34", (2 # 10, 3 # 10)); ("35-44", (1 # 10, 2 # 10));
          ("45+", (5 # 100, 15 # 100))] ;;
  g <- draw_category
         [("male", (4 # 10, 6 # 10)); ("female", (3 # 10, 5 # 10));
          ("other", (1 # 100, 5 # 100))] ;;
  d <- draw_category
         [("mobile", (5 # 10, 7 # 10)); ("desktop", (2 # 10, 4 # 10));
          ("tablet", (1 # 10, 2 # 10)); ("tv", (5 # 100, 1 # 10))] ;;
  l <- draw_category
         [("US", (3 # 10, 5 # 10)); ("IN", (1 # 10, 2 # 10));
          ("GB", (5 # 100, 1 # 10)); ("DE", (3 # 100, 7 # 100));
          ("Others", (2 # 10, 4 # 10))] ;;
  ret {| age_groups := normalise a; genders := normalise g;
         devices := normalise d; locations := normalise l |}.

(** [_get_optimal_view_times], as a function of
    [datetime.now().weekday()]. *)
Record TimeSlot : Type := { hour : Z; weight : Q; description : string }.

Definition _get_optimal_view_times (day_of_week : Z) : list TimeSlot :=
  let time_slots :=
    [ {| hour := 9; weight := 3 # 10; description := "Morning" |};
      {| hour := 12; weight := 7 # 10; description := "Lunch time" |};
      {| hour := 15; weight := 8 # 10; description := "Afternoon" |};
      {| hour := 18; weight := 9 # 10; description := "Evening" |};
      {| hour := 21; weight := 6 # 10; description := "Night" |};
      {| hour := 2; weight := 1 # 10; description := "Late night" |} ] in
  if (5 <=? day_of_week)%Z then
    map (fun slot =>
           if existsb (Z.eqb (hour slot)) [9; 12]%Z then
             {| hour := hour slot; weight := weight slot * (5 # 10);
                description := description slot |}
           else if existsb (Z.eqb (hour slot)) [15; 18; 21]%Z then
             {| hour := hour slot; weight := weight slot * (12 # 10);
                description := description slot |}
           else slot)
        time_slots
  else time_slots.

(** The dict returned by [_analyze_video].  Its ['optimal_view_times']
    entry, which no function of the module reads, is left out. *)
Record VideoAnalysis : Type := {
  estimated_length : Z;
  va_content_type : string;
  engagement_pattern : EngagementPattern;
  audience_demographics : Demographics;
  watch_pattern_recommendations : list string
}.

(** [_analyze_video(video_url)] *)
Definition _analyze_video (video_url : string) : M VideoAnalysis :=
  len <- choice 0%Z [180; 300; 600; 900; 1200]%Z ;;
  ct <- choice ""
          ["educational"; "entertainment"; "tutorial"; "music"; "documentary"] ;;
  ep <- _get_engagement_pattern ;;
  ad <- _get_audience_demographics ;;
  let recommendations :=
    if ct =? "educational" then
      ["Use focused_watching pattern"; "Include frequent pauses";
       "High completion rates expected"]
    else if ct =? "entertainment" then
      ["Use casual_browsing or entertainment pattern";
       "Variable completion rates"; "Include engagement actions"]
    else [] in
  ret {| estimated_length := len; va_content_type := ct;
         engagement_pattern := ep; audience_demographics := ad;
         watch_pattern_recommendations := recommendations |}.

(** [_get_stealth_level(priority)] *)
Record StealthLevel : Type := {
  fingerprint_rotation : bool;
  proxy_rotation : bool;
  behavior_randomization : bool;
  network_randomization : bool;
  timing_randomization : bool;
  mouse_movement_simulation : bool;
  scroll_behavior_simulation : bool;
  max_concurrent_sessions : Z;
  min_session_gap : Z;
  geo_diversity : bool
}.

Definition _get_stealth_level (priority : SessionPriority) : StealthLevel :=
  match priority with
  | HIGH =>
      {| fingerprint_rotation := true; proxy_rotation := true;
         behavior_randomization := true; network_randomization := true;
         timing_randomization := true; mouse_movement_simulation := true;
         scroll_behavior_simulation := true; max_concurrent_sessions := 1;
         min_session_gap := 1800; geo_diversity := true |}
  | MEDIUM =>
      {| fingerprint_rotation := true; proxy_rotation := true;
         behavior_randomization := true; network_randomization := false;
         timing_randomization := true; mouse_movement_simulation := true;
         scroll_behavior_simulation := false; max_concurrent_sessions := 2;
         min_session_gap := 900; geo_diversity := false |}
  | LOW =>
      {| fingerprint_rotation := false; proxy_rotation := false;
         behavior_randomization := true; network_randomization := false;
         timing_randomization := false; mouse_movement_simulation := false;
         scroll_behavior_simulation := false; max_concurrent_sessions := 3;
         min_session_gap := 300; geo_diversity := false |}
  | TEST =>
      {| fingerprint_rotation := false; proxy_rotation := false;
         behavior_randomization := false; network_randomization := false;
         timing_randomization := false; mouse_movement_simulation := false;
         scroll_behavior_simulation := false; max_concurrent_sessions := 5;
         min_session_gap := 60; geo_diversity := false |}
  end.

(** [_get_network_config(priority)] *)
Record NetworkConfig : Type := {
  use_proxy : bool;
  proxy_type : string;
  bandwidth_simulation : bool;
  latency_simulation : bool;
  packet_loss_simulation : bool;
  dns_simulation : bool;
  isp_rotation : bool;
  geo_ip_rotation : bool
}.

Definition _get_network_config (priority : SessionPriority) : NetworkConfig :=
  match priority with
  | HIGH =>
      {| use_proxy := true; proxy_type := "residential";
         bandwidth_simulation := true; latency_simulation := true;
         packet_loss_simulation := true; dns_simulation := true;
         isp_rotation := true; geo_ip_rotation := true |}
  | MEDIUM =>
      {| use_proxy := true; proxy_type := "mixed";
         bandwidth_simulation := true; latency_simulation := false;
         packet_loss_simulation := false; dns_simulation := false;
         isp_rotation := false; geo_ip_rotation := false |}
  | _ =>
      {| use_proxy := false; proxy_type := "none";
         bandwidth_simulation := false; latency_simulation := false;
         packet_loss_simulation := false; dns_simulation := false;
         isp_rotation := false; geo_ip_rotation := false |}
  end.

(** [_get_engagement_goals(behavior_pattern)] *)
Record EngagementGoals : Type := {
  min_watch_percentage : Q;
  max_watch_percentage : Q;
  like_probability : Q;
  comment_probability : Q;
  subscribe_probability : Q;
  share_probability : Q
}.

Definition _get_engagement_goals (behavior_pattern : BehaviorPattern)
  : EngagementGoals :=
  match behavior_pattern with
  | FOCUSED_WATCHING =>
      {| min_watch_percentage := 7 # 10; max_watch_percentage := 95 # 100;
         like_probability := 7 # 10; comment_probability := 2 # 10;
         subscribe_probability := 4 # 10; share_probability := 1 # 10 |}
  | CASUAL_BROWSING =>
      {| min_watch_percentage := 3 # 10; max_watch_percentage := 7 # 10;
         like_probability := 3 # 10; comment_probability := 5 # 100;
         subscribe_probability := 1 # 10; share_probability := 2 # 100 |}
  | MULTITASKING =>
      {| min_watch_percentage := 2 # 10; max_watch_percentage := 5 # 10;
         like_probability := 1 # 10; comment_probability := 1 # 100;
         subscribe_probability := 2 # 100; share_probability := 5 # 1000 |}
  | _ =>
      {| min_watch_percentage := 4 # 10; max_watch_percentage := 8 # 10;
         like_probability := 5 # 10; comment_probability := 1 # 10;
         subscribe_probability := 2 # 10; share_probability := 5 # 100 |}
  end.

(** [_create_success_criteria(num_sessions, priority)] *)
Record SuccessCriteria : Type := {
  min_successful_sessions : Z;
  min_success_rate : Q;
  min_average_watch_percentage : Q;
  max_detection_risk : Q;
  max_consecutive_failures : Z;
  max_total_duration : Q;
  fingerprint_diversity : Q;
  behavior_variance : Q;
  timing_naturalness : Q;
  network_realism : Q
}.

Definition _create_success_criteria (num_sessions : Z)
    (priority : SessionPriority) : SuccessCriteria :=
  let '(min_success_rate, min_avg_watch, max_detection_risk) :=
    match priority with
    | HIGH => (9 # 10, 7 # 10, 1 # 10)
    | MEDIUM => (8 # 10, 6 # 10, 2 # 10)
    | LOW => (7 # 10, 5 # 10, 3 # 10)
    | TEST => (6 # 10, 4 # 10, 4 # 10)
    end in
  {| min_successful_sessions := int (inject_Z num_sessions * min_success_rate);
     min_success_rate := min_success_rate;
     min_average_watch_percentage := min_avg_watch;
     max_detection_risk := max_detection_risk;
     max_consecutive_failures := 2;
     max_total_duration := 86400;
     fingerprint_diversity := 8 # 10;
     behavior_variance := 7 # 10;
     timing_naturalness := 9 # 10;
     network_realism :=
       match priority with HIGH => 6 # 10 | _ => 3 # 10 end |}.

(** [_get_mitigation_strategies(priority, risk_level)] *)
Definition _get_mitigation_strategies (priority : SessionPriority)
    (risk_level : Q) : list string :=
  let strategies := [] in
  let strategies :=
    if Qlt_bool (7 # 10) risk_level then
      strategies ++ ["Consider reducing number of sessions";
                     "Increase time between sessions";
                     "Use maximum stealth settings"]
    else strategies in
  let strategies :=
    if Qlt_bool (5 # 10) risk_level then
      strategies ++ ["Rotate fingerprints between sessions";
                     "Use residential proxies";
                     "Vary behavior patterns significantly"]
    else strategies in
  let strategies :=
    match priority with
    | HIGH => strategies
    | _ => strategies ++
             ["Consider upgrading to HIGH priority for better stealth"]
    end in
  let strategies := strategies ++ ["Monitor session success rates closely"] in
  let strategies := strategies ++ ["Have fallback configurations ready"] in
  firstn 5 strategies.

(** [_assess_campaign_risk]; the formatted ['risk_factors'] strings are
    left out. *)
Record RiskAssessment : Type := {
  overall_risk : Q;
  detection_risk : Q;
  technical_risk : Q;
  timing_risk : Q;
  behavioral_risk : Q;
  network_risk : Q;
  mitigation_strategies : list string
}.

Definition base_risk (priority : SessionPriority) : Q :=
  match priority with
  | LOW => 1 # 10 | MEDIUM => 3 # 10 | HIGH => 6 # 10 | TEST => 8 # 10
  end.

Definition _assess_campaign_risk (num_sessions : Z) (priority : SessionPriority)
    (video_analysis : VideoAnalysis) : RiskAssessment :=
  let risk_level := base_risk priority in
  let risk_level :=
    if (10 <? num_sessions)%Z then risk_level * (15 # 10)
    else if (5 <? num_sessions)%Z then risk_level * (12 # 10)
    else risk_level in
  let ct := va_content_type video_analysis in
  let risk_level :=
    if str_in ct ["educational"; "documentary"] then risk_level * (8 # 10)
    else if ct =? "entertainment" then risk_level * (11 # 10)
    else risk_level in
  {| overall_risk := Qmin (95 # 100) risk_level;
     detection_risk := risk_level * (8 # 10);
     technical_risk := risk_level * (4 # 10);
     timing_risk := risk_level * (6 # 10);
     behavioral_risk := risk_level * (7 # 10);
     network_risk := risk_level * (5 # 10);
     mitigation_strategies := _get_mitigation_strategies priority risk_level |}.

(** The timing parameters of a priority: [(min_gap, max_gap)] and the
    bounds of the first [session_duration]. *)
Definition gap_bounds (priority : SessionPriority) : Q * Q :=
  match priority with
  | HIGH => (1800, 7200)
  | MEDIUM => (900, 3600)
  | LOW => (300, 1800)
  | TEST => (60, 300)
  end.

Definition duration_bounds (priority : SessionPriority) : Q * Q :=
  match priority with
  | HIGH => (300, 600)
  | MEDIUM => (240, 480)
  | LOW => (180, 360)
  | TEST => (120, 240)
  end.

(** [self.session_result] as the orchestrator reads it: the ['success']
    flag and the ['watch_time'] of a non-empty ['watch_data']. *)
Record SessionResult : Type := {
  success : bool;
  watch_data : option Q;
  error : option string
}.

(** The campaign states. *)
Inductive Status : Type := running | stopped_early | completed | failed.

(** [self.metrics] *)
Record Metrics : Type := {
  total_campaigns : Z;
  successful_campaigns : Z;
  failed_campaigns : Z;
  m_total_sessions : Z;
  m_total_watch_time : Q;
  avg_success_rate : Q;
  peak_concurrent_sessions : Z;
  m_detection_events : Z
}.

(** The dict returned by [_check_success_criteria]. *)
Record MetCriteria : Type := {
  met_min_successful_sessions : bool;
  met_min_success_rate : bool;
  met_min_average_watch : bool;
  met_max_detection_risk : bool;
  met_max_consecutive_failures : bool;
  met_max_total_duration : bool
}.

(** [campaign_data['results']] once it is filled. *)
Record Results : Type := {
  successful_sessions : Z;
  failed_sessions : Z;
  success_rate : Q;
  total_watch_time : Q;
  average_watch_time : Q;
  detection_events : Z;
  met_success_criteria : MetCriteria
}.

Section Orchestrator.

(** The viewer profile of a schedule entry is sampled by
    [_generate_viewer_profile] (numpy draws, a set of interests); no
    function of the module reads it back, and its sampling is a
    parameter of the model. *)
Variable ViewerProfile : Type.
Variable _generate_viewer_profile : VideoAnalysis -> M ViewerProfile.

(** One entry of the schedule. *)
Record SessionConfig : Type := {
  session_number : Z;
  scheduled_start : Q;
  estimated_duration : Q;
  behavior_pattern : string;
  viewer_profile : ViewerProfile;
  stealth_level : StealthLevel;
  network_config : NetworkConfig;
  engagement_goals : EngagementGoals;
  retention_target : Q
}.

(** The body of the loop of [_create_session_schedule]: the entry, the
    new [current_time], the next [session_duration] and the behaviour
    simulator, whose usage counters the pattern selection updates. *)
Definition schedule_entry (priority : SessionPriority)
    (video_analysis : VideoAnalysis) (i : Z)
    (current_time session_duration : Q) (ai : Simulator)
  : M (SessionConfig * Q * Q * Simulator) :=
  start_delay <-
    (if (i =? 0)%Z then uniform 60 300
     else uniform (fst (gap_bounds priority)) (snd (gap_bounds priority))) ;;
  let current_time := current_time + start_delay in
  sel <-
    (if va_content_type video_analysis =? "educational" then
       ret (FOCUSED_WATCHING, ai)
     else if va_content_type video_analysis =? "entertainment" then
       p <- choice CASUAL_BROWSING [CASUAL_BROWSING; ENTERTAINMENT] ;;
       ret (p, ai)
     else select_behavior_pattern ai None) ;;
  let pattern := fst sel in
  let ai := snd sel in
  vp <- _generate_viewer_profile video_analysis ;;
  target <- uniform (4 # 10) (8 # 10) ;;
  let session_config :=
    {| session_number := (i + 1)%Z;
       scheduled_start := current_time;
       estimated_duration := session_duration;
       behavior_pattern := value pattern;
       viewer_profile := vp;
       stealth_level := _get_stealth_level priority;
       network_config := _get_network_config priority;
       engagement_goals := _get_engagement_goals pattern;
       retention_target := target |} in
  f <- uniform (8 # 10) (12 # 10) ;;
  ret (session_config, current_time, session_duration * f, ai).

Fixpoint schedule_loop (priority : SessionPriority)
    (video_analysis : VideoAnalysis) (indices : list Z)
    (current_time session_duration : Q) (ai : Simulator)
  : M (list SessionConfig * Simulator) :=
  match indices with
  | [] => ret ([], ai)
  | i :: rest =>
      e <- schedule_entry priority video_analysis i current_time
             session_duration ai ;;
      let '(session_config, current_time, session_duration, ai) := e in
      r <- schedule_loop priority video_analysis rest current_time
             session_duration ai ;;
      ret (session_config :: fst r, snd r)
  end.

(** [_create_session_schedule(num_sessions, priority, video_analysis)] *)
Definition _create_session_schedule (ai : Simulator) (num_sessions : Z)
    (priority : SessionPriority) (video_analysis : VideoAnalysis)
  : M (list SessionConfig * Simulator) :=
  session_duration <-
    uniform (fst (duration_bounds priority)) (snd (duration_bounds priority)) ;;
  current_time <- time ;;
  schedule_loop priority video_analysis (range num_sessions)
    current_time session_duration ai.

(** [OrchestrationPlan]; the [campaign_id] string is formatted from the
    wall clock and is kept as the instant it is formatted from. *)
Record OrchestrationPlan : Type := {
  campaign_id : Q;
  video_url : string;
  total_sessions : Z;
  priority : SessionPriority;
  start_time : Q;
  end_time : Q;
  session_schedule : list SessionConfig;
  success_criteria : SuccessCriteria;
  risk_assessment : RiskAssessment
}.

(** [create_campaign_plan(video_url, num_sessions, priority)] *)
Definition create_campaign_plan (ai : Simulator) (video_url : string)
    (num_sessions : Z) (priority : SessionPriority)
  : M (OrchestrationPlan * Simulator) :=
  now <- time ;;
  video_analysis <- _analyze_video video_url ;;
  s <- _create_session_schedule ai num_sessions priority video_analysis ;;
  let session_schedule := fst s in
  let total_duration := py_sum (map estimated_duration session_schedule) in
  let buffer_time := total_duration * (2 # 10) in
  let success_criteria := _create_success_criteria num_sessions priority in
  let risk_assessment :=
    _assess_campaign_risk num_sessions priority video_analysis in
  t1 <- time ;;
  t2 <- time ;;
  ret ({| campaign_id := now;
          video_url := video_url;
          total_sessions := num_sessions;
          priority := priority;
          start_time := t1;
          end_time := t2 + total_duration + buffer_time;
          session_schedule := session_schedule;
          success_criteria := success_criteria;
          risk_assessment := risk_assessment |},
       snd s).

(** One entry of [campaign_data['sessions']]. *)
Record SessionData : Type := {
  sd_session_number : Z;
  sd_config : SessionConfig;
  sd_result : SessionResult;
  sd_timestamp : Q
}.

(** [campaign_data]; [cd_results = None] is the empty dict it starts
    with, and [cd_end_time], [cd_duration] and [cd_error] are [None]
    until the code sets them. *)
Record CampaignData : Type := {
  cd_plan : OrchestrationPlan;
  cd_start_time : Q;
  cd_end_time : option Q;
  cd_sessions : list SessionData;
  cd_results : option Results;
  cd_status : Status;
  cd_duration : option Q;
  cd_error : option string
}.

Definition set_sessions (cd : CampaignData) (l : list SessionData) :=
  {| cd_plan := cd_plan cd; cd_start_time := cd_start_time cd;
     cd_end_time := cd_end_time cd; cd_sessions := l;
     cd_results := cd_results cd; cd_status := cd_status cd;
     cd_duration := cd_duration cd; cd_error := cd_error cd |}.

Definition set_status (cd : CampaignData) (s : Status) :=
  {| cd_plan := cd_plan cd; cd_start_time := cd_start_time cd;
     cd_end_time := cd_end_time cd; cd_sessions := cd_sessions cd;
     cd_results := cd_results cd; cd_status := s;
     cd_duration := cd_duration cd; cd_error := cd_error cd |}.

Definition set_end_time (cd : CampaignData) (t : Q) :=
  {| cd_plan := cd_plan cd; cd_start_time := cd_start_time cd;
     cd_end_time := Some t; cd_sessions := cd_sessions cd;
     cd_results := cd_results cd; cd_status := cd_status cd;
     cd_duration := cd_duration cd; cd_error := cd_error cd |}.

Definition set_duration (cd : CampaignData) (d : Q) :=
  {| cd_plan := cd_plan cd; cd_start_time := cd_start_time cd;
     cd_end_time := cd_end_time cd; cd_sessions := cd_sessions cd;
     cd_results := cd_results cd; cd_status := cd_status cd;
     cd_duration := Some d; cd_error := cd_error cd |}.

Definition set_results (cd : CampaignData) (r : Results) :=
  {| cd_plan := cd_plan cd; cd_start_time := cd_start_time cd;
     cd_end_time := cd_end_time cd; cd_sessions := cd_sessions cd;
     cd_results := Some r; cd_status := cd_status cd;
     cd_duration := cd_duration cd; cd_error := cd_error cd |}.

Definition set_error (cd : CampaignData) (e : string) :=
  {| cd_plan := cd_plan cd; cd_start_time := cd_start_time cd;
     cd_end_time := cd_end_time cd; cd_sessions := cd_sessions cd;
     cd_results := cd_results cd; cd_status := cd_status cd;
     cd_duration := cd_duration cd; cd_error := Some e |}.

(** [sum(1 for s in sessions if s['result'].get('success', False))] *)
Definition count_successful (sessions : list SessionData) : nat :=
  length (filter (fun s => success (sd_result s)) sessions).

(** [_should_stop_campaign(campaign_data, success_criteria)] *)
Definition _should_stop_campaign (campaign_data : CampaignData)
    (criteria : SuccessCriteria) : M bool :=
  let sessions := cd_sessions campaign_data in
  if (length sessions <? 3)%nat then ret false
  else
    let recent_failures :=
      fold_left
        (fun n s => if success (sd_result s) then n else (n + 1)%Z)
        (rev (last_n 3 sessions)) 0%Z in
    if (max_consecutive_failures criteria <=? recent_failures)%Z then ret true
    else
      let successful := inject_Z (Z.of_nat (count_successful sessions)) in
      let n := inject_Z (Z.of_nat (length sessions)) in
      let rate := if (0 <? length sessions)%nat then successful / n else 0 in
      if Qlt_bool rate (min_success_rate criteria * (5 # 10)) then ret true
      else if Qeq_bool (cd_start_time campaign_data) 0 then ret false
      else
        now <- time ;;
        let elapsed := now - cd_start_time campaign_data in
        if Qlt_bool (max_total_duration criteria * (5 # 10)) elapsed then
          if Qlt_bool rate (min_success_rate criteria * (7 # 10))
          then ret true else ret false
        else ret false.

(** [_check_success_criteria(campaign_data, success_criteria)].  The
    left results are the exceptions the lookups and the division raise:
    [KeyError] on a [results] dict that is still empty, [KeyError] on a
    campaign without ['duration'], [ZeroDivisionError] on a plan of no
    sessions. *)
Definition _check_success_criteria (campaign_data : CampaignData)
    (criteria : SuccessCriteria) : string + MetCriteria :=
  match cd_results campaign_data with
  | None => inl "'successful_sessions'"
  | Some results =>
      let n := total_sessions (cd_plan campaign_data) in
      if (n =? 0)%Z then inl "division by zero"
      else
        match cd_duration campaign_data with
        | None => inl "'duration'"
        | Some duration =>
            inr {| met_min_successful_sessions :=
                     (min_successful_sessions criteria
                        <=? successful_sessions results)%Z;
                   met_min_success_rate :=
                     Qle_bool (min_success_rate criteria) (success_rate results);
                   met_min_average_watch :=
                     Qle_bool (min_average_watch_percentage criteria)
                       (average_watch_time results / 300);
                   met_max_detection_risk :=
                     Qle_bool (inject_Z (detection_events results) / inject_Z n)
                       (max_detection_risk criteria);
                   met_max_consecutive_failures := true;
                   met_max_total_duration :=
                     Qle_bool duration (max_total_duration criteria) |}
        end
  end.

(** The browser-driving collaborator, [self.bot.run_advanced_session]:
    a session result, or on the right the text of an exception that
    escapes it. *)
Variable run_advanced_session : string -> Z -> M (SessionResult + string).

(** The mutable part of a [SessionOrchestrator]. *)
Record Orchestrator : Type := {
  behavior_ai : Simulator;
  active_campaigns : list CampaignData;
  completed_campaigns : list CampaignData;
  campaign_history : list CampaignData;
  metrics : Metrics
}.

(** The local counters of [execute_campaign]. *)
Record Counters : Type := {
  c_successful_sessions : Z;
  c_failed_sessions : Z;
  c_total_watch_time : Q;
  c_detection_events : Z
}.

Definition is_running (cd : CampaignData) : bool :=
  match cd_status cd with running => true | _ => false end.

(** The session loop of [execute_campaign].  [others] is
    [self.active_campaigns] without the campaign being run; the result
    carries the exception text when one escapes, the campaign record,
    the counters and the peak of concurrent sessions. *)
Fixpoint run_sessions (plan : OrchestrationPlan) (others : list CampaignData)
    (schedule : list SessionConfig) (i : Z)
    (campaign_data : CampaignData) (cnt : Counters) (peak : Z)
  : M (option string * CampaignData * Counters * Z) :=
  match schedule with
  | [] => ret (None, campaign_data, cnt, peak)
  | session_config :: rest =>
      let session_num := (i + 1)%Z in
      current_time <- time ;;
      let concurrent_sessions :=
        Z.of_nat (length (filter is_running (others ++ [campaign_data]))) in
      let peak := Z.max peak concurrent_sessions in
      out <- run_advanced_session (video_url plan) session_num ;;
      match out with
      | inr e => ret (Some e, campaign_data, cnt, peak)
      | inl session_result =>
          ts <- time ;;
          let session_data :=
            {| sd_session_number := session_num; sd_config := session_config;
               sd_result := session_result; sd_timestamp := ts |} in
          let campaign_data :=
            set_sessions campaign_data (cd_sessions campaign_data ++ [session_data]) in
          let cnt :=
            if success session_result then
              {| c_successful_sessions := (c_successful_sessions cnt + 1)%Z;
                 c_failed_sessions := c_failed_sessions cnt;
                 c_total_watch_time :=
                   match watch_data session_result with
                   | Some w => c_total_watch_time cnt + w
                   | None => c_total_watch_time cnt
                   end;
                 c_detection_events := c_detection_events cnt |}
            else
              {| c_successful_sessions := c_successful_sessions cnt;
                 c_failed_sessions := (c_failed_sessions cnt + 1)%Z;
                 c_total_watch_time := c_total_watch_time cnt;
                 c_detection_events := (c_detection_events cnt + 1)%Z |} in
          stop <- _should_stop_campaign campaign_data (success_criteria plan) ;;
          if stop then ret (None, set_status campaign_data stopped_early, cnt, peak)
          else run_sessions plan others rest (i + 1)%Z campaign_data cnt peak
      end
  end.

Definition with_peak (m : Metrics) (peak : Z) : Metrics :=
  {| total_campaigns := total_campaigns m;
     successful_campaigns := successful_campaigns m;
     failed_campaigns := failed_campaigns m;
     m_total_sessions := m_total_sessions m;
     m_total_watch_time := m_total_watch_time m;
     avg_success_rate := avg_success_rate m;
     peak_concurrent_sessions := peak;
     m_detection_events := m_detection_events m |}.

(** The [except Exception] block of [execute_campaign]. *)
Definition campaign_failed (self : Orchestrator) (others : list CampaignData)
    (campaign_data : CampaignData) (peak : Z) (e : string)
  : M (CampaignData * Orchestrator) :=
  let campaign_data := set_error (set_status campaign_data failed) e in
  t <- time ;;
  let campaign_data := set_end_time campaign_data t in
  let m := with_peak (metrics self) peak in
  ret (campaign_data,
       {| behavior_ai := behavior_ai self;
          active_campaigns := others;
          completed_campaigns := completed_campaigns self ++ [campaign_data];
          campaign_history := campaign_history self;
          metrics :=
            {| total_campaigns := total_campaigns m;
               successful_campaigns := successful_campaigns m;
               failed_campaigns := (failed_campaigns m + 1)%Z;
               m_total_sessions := m_total_sessions m;
               m_total_watch_time := m_total_watch_time m;
               avg_success_rate := avg_success_rate m;
               peak_concurrent_sessions := peak_concurrent_sessions m;
               m_detection_events := m_detection_events m |} |}).

(** [execute_campaign(plan)] *)
Definition execute_campaign (self : Orchestrator) (plan : OrchestrationPlan)
  : M (CampaignData * Orchestrator) :=
  t0 <- time ;;
  let campaign_data :=
    {| cd_plan := plan; cd_start_time := t0; cd_end_time := None;
       cd_sessions := []; cd_results := None; cd_status := running;
       cd_duration := None; cd_error := None |} in
  let others := active_campaigns self in
  let m0 := metrics self in
  let self :=
    {| behavior_ai := behavior_ai self;
       active_campaigns := others;
       completed_campaigns := completed_campaigns self;
       campaign_history := campaign_history self;
       metrics :=
         {| total_campaigns := (total_campaigns m0 + 1)%Z;
            successful_campaigns := successful_campaigns m0;
            failed_campaigns := failed_campaigns m0;
            m_total_sessions := m_total_sessions m0;
            m_total_watch_time := m_total_watch_time m0;
            avg_success_rate := avg_success_rate m0;
            peak_concurrent_sessions := peak_concurrent_sessions m0;
            m_detection_events := m_detection_events m0 |} |} in
  let cnt0 :=
    {| c_successful_sessions := 0; c_failed_sessions := 0;
       c_total_watch_time := 0; c_detection_events := 0 |} in
  looped <- run_sessions plan others (session_schedule plan) 0 campaign_data
              cnt0 (peak_concurrent_sessions (metrics self)) ;;
  let '(raised, campaign_data, cnt, peak) := looped in
  match raised with
  | Some e => campaign_failed self others campaign_data peak e
  | None =>
      t1 <- time ;;
      let campaign_data := set_end_time campaign_data t1 in
      let campaign_data := set_status campaign_data completed in
      let campaign_data :=
        set_duration campaign_data (t1 - cd_start_time campaign_data) in
      let n := total_sessions plan in
      let rate :=
        if (0 <? n)%Z
        then inject_Z (c_successful_sessions cnt) / inject_Z n else 0 in
      let avg_watch_time :=
        if (0 <? c_successful_sessions cnt)%Z
        then c_total_watch_time cnt / inject_Z (c_successful_sessions cnt)
        else 0 in
      match _check_success_criteria campaign_data (success_criteria plan) with
      | inl e => campaign_failed self others campaign_data peak e
      | inr met =>
          let campaign_data :=
            set_results campaign_data
              {| successful_sessions := c_successful_sessions cnt;
                 failed_sessions := c_failed_sessions cnt;
                 success_rate := rate;
                 total_watch_time := c_total_watch_time cnt;
                 average_watch_time := avg_watch_time;
                 detection_events := c_detection_events cnt;
                 met_success_criteria := met |} in
          let m := with_peak (metrics self) peak in
          let ok := Qle_bool (min_success_rate (success_criteria plan)) rate in
          let succ :=
            if ok then (successful_campaigns m + 1)%Z
            else successful_campaigns m in
          let history := campaign_history self ++ [campaign_data] in
          ret (campaign_data,
               {| behavior_ai := behavior_ai self;
                  active_campaigns := others;
                  completed_campaigns :=
                    completed_campaigns self ++ [campaign_data];
                  campaign_history :=
                    if (50 <? length history)%nat
                    then last_n 50 history else history;
                  metrics :=
                    {| total_campaigns := total_campaigns m;
                       successful_campaigns := succ;
                       failed_campaigns :=
                         if ok then failed_campaigns m
                         else (failed_campaigns m + 1)%Z;
                       m_total_sessions := (m_total_sessions m + n)%Z;
                       m_total_watch_time :=
                         m_total_watch_time m + c_total_watch_time cnt;
                       avg_success_rate :=
                         if (0 <? total_campaigns m)%Z
                         then inject_Z succ / inject_Z (total_campaigns m)
                         else avg_success_rate m;
                       peak_concurrent_sessions := peak_concurrent_sessions m;
                       m_detection_events :=
                         (m_detection_events m + c_detection_events cnt)%Z |} |})
      end
  end.

(** [run_campaign(video_url, num_sessions, priority)] *)
Definition run_campaign (self : Orchestrator) (video_url : string)
    (num_sessions : Z) (priority : SessionPriority)
  : M (CampaignData * Orchestrator) :=
  p <- create_campaign_plan (behavior_ai self) video_url num_sessions priority ;;
  execute_campaign
    {| behavior_ai := snd p;
       active_campaigns := active_campaigns self;
       completed_campaigns := completed_campaigns self;
       campaign_history := campaign_history self;
       metrics := metrics self |}
    (fst p).

(** [c['results'].get(key, default)]: the [results] dict is empty until
    it is filled. *)
Definition results_get {A} (c : CampaignData) (key : Results -> A)
    (default : A) : A :=
  match cd_results c with Some r => key r | None => default end.

(** [sum(... for c in campaigns)] of integers, as the float the
    divisions that follow turn it into. *)
Definition sum_over (f : CampaignData -> Z) (l : list CampaignData) : Q :=
  inject_Z (fold_left Z.add (map f l) 0%Z).

(** [_calculate_recent_success_rate()] *)
Definition _calculate_recent_success_rate (self : Orchestrator) : Q :=
  match completed_campaigns self with
  | [] => 0
  | _ =>
      let recent := last_n 10 (completed_campaigns self) in
      let successful :=
        sum_over
          (fun c =>
             if results_get c
                  (fun r => met_min_success_rate (met_success_criteria r)) false
             then 1%Z else 0%Z)
          recent in
      if (0 <? length recent)%nat
      then successful / inject_Z (Z.of_nat (length recent)) else 0
  end.

(** The dict of [_calculate_efficiency_metrics]; the key
    ['avg_campaign_duration'] is absent when nothing has completed. *)
Record EfficiencyMetrics : Type := {
  watch_time_per_hour : Q;
  sessions_per_hour : Q;
  success_per_hour : Q;
  avg_campaign_duration : option Q
}.

(** [_calculate_efficiency_metrics()] *)
Definition _calculate_efficiency_metrics (self : Orchestrator)
  : EfficiencyMetrics :=
  match completed_campaigns self with
  | [] => {| watch_time_per_hour := 0; sessions_per_hour := 0;
             success_per_hour := 0; avg_campaign_duration := None |}
  | _ =>
      let cs := completed_campaigns self in
      let total_duration :=
        py_sum (map (fun c => match cd_duration c with
                              | Some d => d
                              | None => 0
                              end) cs) in
      let total_sessions :=
        sum_over (fun c => Z.of_nat (length (cd_sessions c))) cs in
      let total_successful :=
        sum_over (fun c => results_get c successful_sessions 0%Z) cs in
      let total_watch :=
        py_sum (map (fun c => results_get c total_watch_time 0) cs) in
      let total_hours := total_duration / 3600 in
      {| watch_time_per_hour :=
           if Qlt_bool 0 total_hours then total_watch / total_hours else 0;
         sessions_per_hour :=
           if Qlt_bool 0 total_hours then total_sessions / total_hours else 0;
         success_per_hour :=
           if Qlt_bool 0 total_hours then total_successful / total_hours else 0;
         avg_campaign_duration :=
           Some (total_duration / inject_Z (Z.of_nat (length cs))) |}
  end.

(** The dict of [_calculate_risk_profile]; the key ['risk_level'] is
    absent when nothing has completed. *)
Record RiskProfile : Type := {
  detection_rate : Q;
  failure_rate : Q;
  risk_score : Q;
  risk_level : option string
}.

(** [_calculate_risk_profile()] *)
Definition _calculate_risk_profile (self : Orchestrator) : RiskProfile :=
  match completed_campaigns self with
  | [] => {| detection_rate := 0; failure_rate := 0; risk_score := 0;
             risk_level := None |}
  | _ =>
      let cs := completed_campaigns self in
      let total_sessions :=
        sum_over (fun c => Z.of_nat (length (cd_sessions c))) cs in
      let total_detections :=
        sum_over (fun c => results_get c detection_events 0%Z) cs in
      let total_failures :=
        sum_over (fun c => results_get c failed_sessions 0%Z) cs in
      let detection_rate :=
        if Qlt_bool 0 total_sessions
        then total_detections / total_sessions else 0 in
      let failure_rate :=
        if Qlt_bool 0 total_sessions
        then total_failures / total_sessions else 0 in
      {| detection_rate := detection_rate;
         failure_rate := failure_rate;
         risk_score :=
           Qmin 1 (detection_rate * (7 # 10) + failure_rate * (3 # 10));
         risk_level :=
           Some (if Qlt_bool (3 # 10) detection_rate then "high"
                 else if Qlt_bool (1 # 10) detection_rate then "medium"
                 else "low") |}
  end.

(** The dict of [get_campaign_statistics]. *)
Record CampaignStatistics : Type := {
  st_metrics : Metrics;
  st_active_campaigns : nat;
  st_completed_campaigns : nat;
  st_campaign_history_size : nat;
  st_recent_success_rate : Q;
  st_efficiency_metrics : EfficiencyMetrics;
  st_risk_profile : RiskProfile
}.

(** [get_campaign_statistics()] *)
Definition get_campaign_statistics (self : Orchestrator) : CampaignStatistics :=
  {| st_metrics := metrics self;
     st_active_campaigns := length (active_campaigns self);
     st_completed_campaigns := length (completed_campaigns self);
     st_campaign_history_size := length (campaign_history self);
     st_recent_success_rate := _calculate_recent_success_rate self;
     st_efficiency_metrics := _calculate_efficiency_metrics self;
     st_risk_profile := _calculate_risk_profile self |}.

End Orchestrator.

End SessionOrchestrator.

(* ================================================================== *)
(** ** Vocabulary of the properties *)
(* ================================================================== *)

(** The oracles the theorems range over: every draw of
    [random.random()] lies in [0, 1). *)
Definition unit_draws (o : Py.Oracle) : Prop :=
  forall n, 0 <= Py.rand o n /\ Py.rand o n < 1.

(** [always o m P]: under the oracle [o], whatever has been drawn or
    read before, the value [m] returns satisfies [P]. *)
Definition always (o : Py.Oracle) {A} (m : Py.M A) (P : A -> Prop) : Prop :=
  forall c, P (fst (m o c)).

(** Non-decreasing keys, for [Sorted]. *)
Definition by_key {A} (key : A -> Q) (a b : A) : Prop := key a <= key b.

(** The sum of a list of rationals. *)
Definition Qsum (l : list Q) : Q := fold_right Qplus 0 l.

(** The cursor after one clock read. *)
Definition after_clock_read (c : Py.Cursor) : Py.Cursor :=
  {| Py.rpos := Py.rpos c; Py.tpos := S (Py.tpos c) |}.

(** The context of the scenario: morning, educational, desktop. *)
Definition morning_educational_desktop : BehaviorAI.Context :=
  {| BehaviorAI.time_of_day := Some "morning";
     BehaviorAI.content_type := Some "educational";
     BehaviorAI.device_type := Some "desktop" |}.

(** A point of the trajectory lies within the jitter of the curve point
    [p]: each coordinate is the truncation of the curve's coordinate
    plus an integer of [-2..2]. *)
Definition near (p : Q * Q) (a : BehaviorAI.MouseAction) : Prop :=
  exists jx jy : Z,
    (-2 <= jx <= 2)%Z /\ (-2 <= jy <= 2)%Z
    /\ BehaviorAI.x a = Py.int (fst p + inject_Z jx)
    /\ BehaviorAI.y a = Py.int (snd p + inject_Z jy).

(** [n] calls of [generate_view_session(video_duration)] in a row. *)
Fixpoint view_sessions (n : nat) (self : BehaviorAI.Simulator)
    (video_duration : Z) : Py.M BehaviorAI.Simulator :=
  match n with
  | O => Py.ret self
  | S n' =>
      r <- BehaviorAI.generate_view_session self video_duration None ;;
      view_sessions n' (snd r) video_duration
  end.

(** The largest retention [retention_at] can return for segment [i]. *)
Definition retention_cap (base_curve : list Z) (i : Z) : Q :=
  let base_idx := Z.min i (Z.of_nat (length base_curve) - 1) in
  Py.Qmax 5
    (Py.Qmin 100 (inject_Z (nth (Z.to_nat base_idx) base_curve 0%Z) + 5)).

(** An event takes nothing negative off the watch time. *)
Definition cost_ok (e : StealthManager.WatchEvent) : Prop :=
  0 <= StealthManager.event_cost e.

(** Consecutive starts, from [prev] on, are at least [lo] and at most
    [hi] apart. *)
Fixpoint spaced {V : Type} (lo hi prev : Q)
    (l : list (SessionOrchestrator.SessionConfig V)) : Prop :=
  match l with
  | [] => True
  | e :: l' =>
      prev + lo <= SessionOrchestrator.scheduled_start e
      /\ SessionOrchestrator.scheduled_start e <= prev + hi
      /\ spaced lo hi (SessionOrchestrator.scheduled_start e) l'
  end.

(** The failures among the given sessions. *)
Definition count_failed {V : Type}
    (l : list (SessionOrchestrator.SessionData V)) : Z :=
  Z.of_nat
    (length
       (filter (fun s => negb (SessionOrchestrator.success
                                 (SessionOrchestrator.sd_result s))) l)).

(** The text of the exception that ends every campaign whose sessions
    all return: the lookup of ['successful_sessions'] in the [results]
    dict, which is still empty when [_check_success_criteria] reads it. *)
Definition results_key_error : string := "'successful_sessions'".

(** Concrete inputs: oracles with a constant draw and a clock that
    advances by one second a read, the start cursor, an integer square
    root standing for [math.sqrt], and a rotator whose sampled
    attributes are empty. *)
Definition half_oracle : Py.Oracle :=
  {| Py.rand := fun _ => 1 # 2; Py.clock := fun n => inject_Z (Z.of_nat n) |}.

Definition high_oracle : Py.Oracle :=
  {| Py.rand := fun _ => 9 # 10; Py.clock := fun n => inject_Z (Z.of_nat n) |}.

Definition start_cursor : Py.Cursor := {| Py.rpos := 0; Py.tpos := 0 |}.

Definition isqrt (q : Q) : Q := inject_Z (Z.sqrt (Qfloor q)).

Definition no_attributes
    (_ : FingerprintRotator.FingerprintType)
    (_ : FingerprintRotator.HardwareProfile) : Py.M unit :=
  Py.ret tt.

(** A plan of four sessions, written out by hand, a collaborator whose
    sessions all report failure, and an orchestrator that has run
    nothing yet. *)
Definition sample_analysis : SessionOrchestrator.VideoAnalysis :=
  {| SessionOrchestrator.estimated_length := 300;
     SessionOrchestrator.va_content_type := "tutorial";
     SessionOrchestrator.engagement_pattern :=
       {| SessionOrchestrator.ep_like_probability := 5 # 10;
          SessionOrchestrator.ep_comment_probability := 1 # 10;
          SessionOrchestrator.ep_subscribe_probability := 2 # 10;
          SessionOrchestrator.ep_share_probability := 5 # 100;
          SessionOrchestrator.ep_completion_rate := 6 # 10;
          SessionOrchestrator.ep_avg_watch_time_percentage := 7 # 10 |};
     SessionOrchestrator.audience_demographics :=
       {| SessionOrchestrator.age_groups := [("18-24", 1)];
          SessionOrchestrator.genders := [("other", 1)];
          SessionOrchestrator.devices := [("desktop", 1)];
          SessionOrchestrator.locations := [("Others", 1)] |};
     SessionOrchestrator.watch_pattern_recommendations := [] |}.

Definition sample_config (k : Z) (start : Q)
  : SessionOrchestrator.SessionConfig unit :=
  {| SessionOrchestrator.session_number := k;
     SessionOrchestrator.scheduled_start := start;
     SessionOrchestrator.estimated_duration := 300;
     SessionOrchestrator.behavior_pattern := "focused_watching";
     SessionOrchestrator.viewer_profile := tt;
     SessionOrchestrator.stealth_level :=
       SessionOrchestrator._get_stealth_level SessionOrchestrator.HIGH;
     SessionOrchestrator.network_config :=
       SessionOrchestrator._get_network_config SessionOrchestrator.HIGH;
     SessionOrchestrator.engagement_goals :=
       SessionOrchestrator._get_engagement_goals BehaviorAI.FOCUSED_WATCHING;
     SessionOrchestrator.retention_target := 6 # 10 |}.

Definition sample_plan : SessionOrchestrator.OrchestrationPlan unit :=
  {| SessionOrchestrator.campaign_id := 0;
     SessionOrchestrator.video_url := "https://video.example/watch?v=1";
     SessionOrchestrator.total_sessions := 4;
     SessionOrchestrator.priority := SessionOrchestrator.HIGH;
     SessionOrchestrator.start_time := 0;
     SessionOrchestrator.end_time := 1440;
     SessionOrchestrator.session_schedule :=
       [sample_config 1 100; sample_config 2 2000;
        sample_config 3 4000; sample_config 4 6000];
     SessionOrchestrator.success_criteria :=
       SessionOrchestrator._create_success_criteria 4 SessionOrchestrator.HIGH;
     SessionOrchestrator.risk_assessment :=
       SessionOrchestrator._assess_campaign_risk 4 SessionOrchestrator.HIGH
         sample_analysis |}.

Definition failing_bot (_ : string) (_ : Z)
  : Py.M (SessionOrchestrator.SessionResult + string) :=
  Py.ret (inl {| SessionOrchestrator.success := false;
                 SessionOrchestrator.watch_data := None;
                 SessionOrchestrator.error := Some "Browsing flow failed" |}).

Definition fresh_orchestrator : SessionOrchestrator.Orchestrator unit :=
  {| SessionOrchestrator.behavior_ai := BehaviorAI.init;
     SessionOrchestrator.active_campaigns := [];
     SessionOrchestrator.completed_campaigns := [];
     SessionOrchestrator.campaign_history := [];
     SessionOrchestrator.metrics :=
       {| SessionOrchestrator.total_campaigns := 0;
          SessionOrchestrator.successful_campaigns := 0;
          SessionOrchestrator.failed_campaigns := 0;
          SessionOrchestrator.m_total_sessions := 0;
          SessionOrchestrator.m_total_watch_time := 0;
          SessionOrchestrator.avg_success_rate := 0;
          SessionOrchestrator.peak_concurrent_sessions := 0;
          SessionOrchestrator.m_detection_events := 0 |} |}.

(** A rotator whose current Identity was created at time 0. *)
Definition aged_fingerprint : FingerprintRotator.FingerprintConfig unit :=
  {| FingerprintRotator.attributes := tt;
     FingerprintRotator.created_at := 0;
     FingerprintRotator.expires_at := 3600;
     FingerprintRotator.permissions :=
       {| FingerprintRotator.geolocation := "prompt";
          FingerprintRotator.notifications := "prompt";
          FingerprintRotator.camera := "prompt";
          FingerprintRotator.microphone := "prompt";
          FingerprintRotator.background_sync := "granted";
          FingerprintRotator.persistent_storage := "prompt" |} |}.

Definition aged_rotator : FingerprintRotator.Rotator unit :=
  {| FingerprintRotator.fingerprint_history := [aged_fingerprint];
     FingerprintRotator.current_fingerprint := Some aged_fingerprint;
     FingerprintRotator.rotation_counter := 0;
     FingerprintRotator.stats :=
       {| FingerprintRotator.fingerprints_generated := 1;
          FingerprintRotator.rotations_performed := 0;
          FingerprintRotator.unique_configs := 0;
          FingerprintRotator.detection_attempts := 0;
          FingerprintRotator.successful_rotations := 0 |} |}.

(** The coordinates of a trajectory point. *)
Definition coords (a : BehaviorAI.MouseAction) : Z * Z :=
  (BehaviorAI.x a, BehaviorAI.y a).

(** The place of a pattern in the enumeration. *)
Definition pattern_rank (p : BehaviorAI.BehaviorPattern) : nat :=
  match p with
  | BehaviorAI.CASUAL_BROWSING => 0
  | BehaviorAI.FOCUSED_WATCHING => 1
  | BehaviorAI.MULTITASKING => 2
  | BehaviorAI.RESEARCH_MODE => 3
  | BehaviorAI.ENTERTAINMENT => 4
  end.

(** The declared ranges of the fields of an engagement action, for a
    watch window of [wt] seconds. *)
Definition action_in_range (wt : Q) (a : BehaviorAI.Action) : Prop :=
  match a with
  | BehaviorAI.Click t e d =>
      10 <= t /\ t <= wt - 10 /\ 1 # 10 <= d /\ d <= 5 # 10
      /\ In e ["video"; "like"; "subscribe"; "comment"; "share"]
  | BehaviorAI.Scroll t dir amount speed =>
      5 <= t /\ t <= wt - 5 /\ In dir ["up"; "down"]
      /\ (100 <= amount <= 500)%Z /\ 50 <= speed /\ speed <= 300
  | BehaviorAI.Pause t d =>
      15 <= t /\ t <= wt - 15 /\ 2 <= d /\ d <= 10
  | BehaviorAI.QualityChange t from to =>
      30 <= t /\ t <= wt - 30
      /\ In from ["360p"; "480p"; "720p"] /\ In to ["480p"; "720p"; "1080p"]
  | BehaviorAI.VolumeChange t amount =>
      20 <= t /\ t <= wt - 20 /\ (-30 <= amount <= 30)%Z
  end.

(** An oracle whose fourth draw is 0 and whose other draws are 0.9. *)
Definition fourth_draw_low : Py.Oracle :=
  {| Py.rand := fun n => if Nat.eqb n 3 then 0 else 9 # 10;
     Py.clock := fun n => inject_Z (Z.of_nat n) |}.

(** The ['device_type'] of the template of a fingerprint type. *)
Definition template_device_type (t : FingerprintRotator.FingerprintType) : string :=
  match t with
  | FingerprintRotator.MOBILE_CHROME | FingerprintRotator.MOBILE_SAFARI => "mobile"
  | FingerprintRotator.TABLET_CHROME => "tablet"
  | _ => "desktop"
  end.

(** The device class a hardware profile is named for. *)
Definition profile_class (h : FingerprintRotator.HardwareProfile) : string :=
  match h with
  | FingerprintRotator.mobile_high_end | FingerprintRotator.mobile_mid_end
  | FingerprintRotator.mobile_low_end => "mobile"
  | FingerprintRotator.tablet => "tablet"
  | _ => "desktop"
  end.

(** The rotators that calls of the four operations lead to, from a new
    one, under the oracle [o]. *)
Inductive rotator_reachable {A : Type}
    (sample : FingerprintRotator.FingerprintType ->
              FingerprintRotator.HardwareProfile -> Py.M A)
    (o : Py.Oracle) : FingerprintRotator.Rotator A -> Prop :=
  | reach_init : rotator_reachable sample o (FingerprintRotator.init A)
  | reach_generate self ft hp c :
      rotator_reachable sample o self ->
      rotator_reachable sample o
        (snd (fst (FingerprintRotator.generate_fingerprint sample self ft hp o c)))
  | reach_rotate self force min_time c :
      rotator_reachable sample o self ->
      rotator_reachable sample o
        (snd (fst (FingerprintRotator.rotate_fingerprint sample self force
                     min_time o c)))
  | reach_playwright self c :
      rotator_reachable sample o self ->
      rotator_reachable sample o
        (snd (fst (FingerprintRotator.get_fingerprint_for_playwright sample self o c)))
  | reach_session self session_type c :
      rotator_reachable sample o self ->
      rotator_reachable sample o
        (snd (fst (FingerprintRotator.get_fingerprint_for_session sample self
                     session_type o c))).

(** What every reachable rotator satisfies. *)
Definition rotator_ok {A : Type} (self : FingerprintRotator.Rotator A) : Prop :=
  Z.of_nat (length (FingerprintRotator.fingerprint_history self))
  = Z.min 50 (FingerprintRotator.fingerprints_generated
                (FingerprintRotator.stats self))
  /\ (0 <= FingerprintRotator.fingerprints_generated
             (FingerprintRotator.stats self))%Z
  /\ FingerprintRotator.current_fingerprint self
     = last (map Some (FingerprintRotator.fingerprint_history self)) None.

(** The scroll distances of a list of actions, summed. *)
Definition total_amount (l : list BehaviorAI.ScrollAction) : Z :=
  fold_right Z.add 0%Z (map BehaviorAI.sc_amount l).

(** The orchestrators that calls of [execute_campaign] and
    [run_campaign] lead to, from one that has completed no campaign,
    with the collaborators [gen_vp] and [bot] and under the oracle
    [o]. *)
Inductive orchestrator_reachable {V : Type}
    (gen_vp : SessionOrchestrator.VideoAnalysis -> Py.M V)
    (bot : string -> Z -> Py.M (SessionOrchestrator.SessionResult + string))
    (o : Py.Oracle) : SessionOrchestrator.Orchestrator V -> Prop :=
  | reach_new self :
      SessionOrchestrator.completed_campaigns self = [] ->
      orchestrator_reachable gen_vp bot o self
  | reach_execute self plan c :
      orchestrator_reachable gen_vp bot o self ->
      orchestrator_reachable gen_vp bot o
        (snd (fst (SessionOrchestrator.execute_campaign bot self plan o c)))
  | reach_run self video_url num_sessions priority c :
      orchestrator_reachable gen_vp bot o self ->
      orchestrator_reachable gen_vp bot o
        (snd (fst (SessionOrchestrator.run_campaign gen_vp bot self video_url
                     num_sessions priority o c))).

(** A campaign record whose first and third sessions failed and whose
    second one succeeded. *)
Definition sample_session (k : Z) (start : Q) (ok : bool)
  : SessionOrchestrator.SessionData unit :=
  {| SessionOrchestrator.sd_session_number := k;
     SessionOrchestrator.sd_config := sample_config k start;
     SessionOrchestrator.sd_result :=
       {| SessionOrchestrator.success := ok;
          SessionOrchestrator.watch_data := None;
          SessionOrchestrator.error := None |};
     SessionOrchestrator.sd_timestamp := start |}.

Definition interleaved_failures : SessionOrchestrator.CampaignData unit :=
  {| SessionOrchestrator.cd_plan := sample_plan;
     SessionOrchestrator.cd_start_time := 0;
     SessionOrchestrator.cd_end_time := None;
     SessionOrchestrator.cd_sessions :=
       [sample_session 1 100 false; sample_session 2 2000 true;
        sample_session 3 4000 false];
     SessionOrchestrator.cd_results := None;
     SessionOrchestrator.cd_status := SessionOrchestrator.running;
     SessionOrchestrator.cd_duration := None;
     SessionOrchestrator.cd_error := None |}.

(* ================================================================== *)
(** ** Properties *)
(* ================================================================== *)

(** *** Python primitives *)

Section PrimitiveFacts.
Import Py PyRandom PyList.

Lemma Qlt_bool_true (a b : Q) : Qlt_bool a b = true <-> a < b.
Proof.
  unfold Qlt_bool. rewrite negb_true_iff. split; intro H.
  - apply Qnot_le_lt. intro L. apply Qle_bool_iff in L. congruence.
  - destruct (Qle_bool b a) eqn:E; [|reflexivity].
    apply Qle_bool_iff in E. exfalso. apply (Qlt_not_le _ _ H E).
Qed.

Lemma Qlt_bool_false (a b : Q) : Qlt_bool a b = false <-> b <= a.
Proof.
  unfold Qlt_bool. rewrite negb_false_iff. apply Qle_bool_iff.
Qed.

Lemma Qle_bool_false (a b : Q) : Qle_bool a b = false <-> b < a.
Proof.
  rewrite <- Qlt_bool_true. unfold Qlt_bool.
  destruct (Qle_bool a b); simpl; split; congruence.
Qed.

Lemma Qmax_cases (a b : Q) :
  (b <= a /\ Qmax a b = a) \/ (a < b /\ Qmax a b = b).
Proof.
  unfold Qmax. destruct (Qle_bool b a) eqn:E.
  - left. split; [apply Qle_bool_iff; exact E | reflexivity].
  - right. split; [apply Qle_bool_false; exact E | reflexivity].
Qed.

Lemma Qmin_cases (a b : Q) :
  (a <= b /\ Qmin a b = a) \/ (b < a /\ Qmin a b = b).
Proof.
  unfold Qmin. destruct (Qle_bool a b) eqn:E.
  - left. split; [apply Qle_bool_iff; exact E | reflexivity].
  - right. split; [apply Qle_bool_false; exact E | reflexivity].
Qed.

Lemma Qmax_lower (a b : Q) : a <= Qmax a b.
Proof. destruct (Qmax_cases a b) as [[H ->]|[H ->]]; lra. Qed.

Lemma Qmax_upper (a b c : Q) : a <= c -> b <= c -> Qmax a b <= c.
Proof. destruct (Qmax_cases a b) as [[H ->]|[H ->]]; lra. Qed.

Lemma Qmin_upper (a b : Q) : Qmin a b <= a.
Proof. destruct (Qmin_cases a b) as [[H ->]|[H ->]]; lra. Qed.

Lemma Qmin_upper_r (a b : Q) : Qmin a b <= b.
Proof. destruct (Qmin_cases a b) as [[H ->]|[H ->]]; lra. Qed.

(** A value clamped by [max(lo, min(hi, v))] lies in [lo, hi]. *)
Lemma clamp_bounds (lo hi v : Q) :
  lo <= hi -> lo <= Qmax lo (Qmin hi v) /\ Qmax lo (Qmin hi v) <= hi.
Proof.
  intro L. split; [apply Qmax_lower|].
  apply Qmax_upper; [exact L | apply Qmin_upper].
Qed.

(** [int] on an integer-valued float, and its monotonicity. *)
Lemma int_inject_Z (z : Z) : int (inject_Z z) = z.
Proof.
  unfold int. destruct (Qle_bool 0 (inject_Z z)).
  - apply Qfloor_Z.
  - unfold Qceiling. rewrite <- inject_Z_opp, Qfloor_Z. lia.
Qed.

Lemma int_comp (a b : Q) : a == b -> int a = int b.
Proof.
  intro E. unfold int.
  assert (Qle_bool 0 a = Qle_bool 0 b) as ->.
  { destruct (Qle_bool 0 b) eqn:B.
    - apply Qle_bool_iff. apply Qle_bool_iff in B. lra.
    - apply Qle_bool_false. apply Qle_bool_false in B. lra. }
  destruct (Qle_bool 0 b).
  - apply Qfloor_comp. exact E.
  - apply Qceiling_comp. exact E.
Qed.

Lemma int_nonneg_floor (a : Q) : 0 <= a -> int a = Qfloor a.
Proof.
  intro H. unfold int. apply Qle_bool_iff in H. rewrite H. reflexivity.
Qed.

Lemma Qfloor_bounds (a : Q) (lo hi : Z) :
  inject_Z lo <= a -> a < inject_Z hi -> (lo <= Qfloor a < hi)%Z.
Proof.
  intros L H. split.
  - rewrite <- (Qfloor_Z lo). apply Qfloor_resp_le. exact L.
  - apply Z.lt_nge. intro C.
    assert (inject_Z hi <= inject_Z (Qfloor a)) by (rewrite <- Zle_Qle; exact C).
    pose proof (Qfloor_le a). lra.
Qed.

(** The derived draws stay in their intervals. *)
Lemma uniform_value (a b : Q) (o : Oracle) (c : Cursor) :
  uniform a b o c
  = (a + (b - a) * rand o (rpos c), {| rpos := S (rpos c); tpos := tpos c |}).
Proof. reflexivity. Qed.

Lemma uniform_bounds (a b : Q) (o : Oracle) (c : Cursor) :
  unit_draws o -> a <= b ->
  a <= fst (uniform a b o c) /\ fst (uniform a b o c) <= b.
Proof.
  intros U L. rewrite uniform_value. cbn [fst].
  destruct (U (rpos c)) as [U0 U1].
  split; nra.
Qed.

Lemma randint_value (a b : Z) (o : Oracle) (c : Cursor) :
  randint a b o c
  = ((a + Qfloor (rand o (rpos c) * inject_Z (b - a + 1)))%Z,
     {| rpos := S (rpos c); tpos := tpos c |}).
Proof. reflexivity. Qed.

Lemma randint_bounds (a b : Z) (o : Oracle) (c : Cursor) :
  unit_draws o -> (a <= b)%Z ->
  (a <= fst (randint a b o c) <= b)%Z.
Proof.
  intros U L. rewrite randint_value. cbn [fst].
  destruct (U (rpos c)) as [U0 U1].
  assert (P : 0 < inject_Z (b - a + 1)).
  { replace 0 with (inject_Z 0) by reflexivity. rewrite <- Zlt_Qlt. lia. }
  assert (0 <= Qfloor (rand o (rpos c) * inject_Z (b - a + 1)) < b - a + 1)%Z.
  { apply Qfloor_bounds.
    - change (inject_Z 0) with 0. nra.
    - nra. }
  lia.
Qed.

End PrimitiveFacts.

(** *** Loops in the effect monad *)

Section LoopFacts.
Import Py PyRandom PyList.

Lemma bind_value {A B} (m : M A) (k : A -> M B) (o : Oracle) (c : Cursor) :
  bind m k o c = k (fst (m o c)) o (snd (m o c)).
Proof. unfold bind. destruct (m o c). reflexivity. Qed.

Lemma mapM_length {A B} (f : A -> M B) (xs : list A) (o : Oracle) (c : Cursor) :
  length (fst (mapM f xs o c)) = length xs.
Proof.
  revert c. induction xs as [|a xs IH]; intro c; [reflexivity|].
  cbn [mapM]. rewrite !bind_value. cbn. f_equal. apply IH.
Qed.

Lemma mapM_Forall {A B} (P : B -> Prop) (f : A -> M B) (xs : list A)
    (o : Oracle) :
  (forall a c, In a xs -> P (fst (f a o c))) ->
  forall c, Forall P (fst (mapM f xs o c)).
Proof.
  induction xs as [|a xs IH]; intros H c; [constructor|].
  cbn [mapM]. rewrite !bind_value. cbn. constructor.
  - apply H. left. reflexivity.
  - apply IH. intros b c' I. apply H. right. exact I.
Qed.

Lemma replicateM_length {A} (n : nat) (m : M A) (o : Oracle) (c : Cursor) :
  length (fst (replicateM n m o c)) = n.
Proof.
  revert c. induction n as [|n IH]; intro c; [reflexivity|].
  cbn [replicateM]. rewrite !bind_value. cbn. f_equal. apply IH.
Qed.

Lemma replicateM_Forall {A} (P : A -> Prop) (n : nat) (m : M A) (o : Oracle) :
  (forall c, P (fst (m o c))) ->
  forall c, Forall P (fst (replicateM n m o c)).
Proof.
  intro H. induction n as [|n IH]; intro c; [constructor|].
  cbn [replicateM]. rewrite !bind_value. cbn. constructor; [apply H | apply IH].
Qed.

Lemma range_length (n : Z) : length (range n) = Z.to_nat n.
Proof. unfold range. rewrite length_map, length_seq. reflexivity. Qed.

Lemma range_In (n i : Z) : In i (range n) -> (0 <= i < n)%Z.
Proof.
  unfold range. rewrite in_map_iff. intros [k [<- K]].
  apply in_seq in K. lia.
Qed.

(** [sort_by] returns a sorted permutation of its argument. *)
Lemma insert_by_perm {A} (key : A -> Q) (a : A) (l : list A) :
  Permutation (a :: l) (insert_by key a l).
Proof.
  induction l as [|b l IH]; [apply Permutation_refl|].
  cbn [insert_by]. destruct (Qlt_bool (key b) (key a)).
  - eapply perm_trans; [apply perm_swap|]. apply perm_skip. exact IH.
  - apply Permutation_refl.
Qed.

Lemma sort_by_perm {A} (key : A -> Q) (l : list A) :
  Permutation l (sort_by key l).
Proof.
  induction l as [|a l IH]; [constructor|].
  cbn [sort_by]. eapply perm_trans; [|apply insert_by_perm].
  apply perm_skip. exact IH.
Qed.

Lemma insert_by_sorted {A} (key : A -> Q) (a : A) (l : list A) :
  Sorted (by_key key) l -> Sorted (by_key key) (insert_by key a l).
Proof.
  induction l as [|b l IH]; intro S.
  - repeat constructor.
  - cbn [insert_by]. destruct (Qlt_bool (key b) (key a)) eqn:E.
    + apply Qlt_bool_true in E. inversion S as [|? ? S' Hd]; subst.
      constructor; [apply IH; exact S'|].
      destruct l as [|d l].
      * cbn. constructor. unfold by_key. lra.
      * cbn [insert_by]. inversion Hd; subst.
        destruct (Qlt_bool (key d) (key a)); constructor;
          unfold by_key in *; lra.
    + apply Qlt_bool_false in E.
      constructor; [exact S|]. constructor. exact E.
Qed.

Lemma sort_by_sorted {A} (key : A -> Q) (l : list A) :
  Sorted (by_key key) (sort_by key l).
Proof.
  induction l as [|a l IH]; [constructor|].
  cbn [sort_by]. apply insert_by_sorted. exact IH.
Qed.

(** [l[-n:]] keeps at most [n] entries, and they are the newest ones. *)
Lemma last_n_length {A} (n : nat) (l : list A) :
  length (last_n n l) = Nat.min n (length l).
Proof. unfold last_n. rewrite length_skipn. lia. Qed.

Lemma last_n_suffix {A} (n : nat) (l : list A) :
  firstn (length l - n) l ++ last_n n l = l.
Proof. unfold last_n. apply firstn_skipn. Qed.

(** The capping idiom [if len(h) > n: h = h[-n:]]. *)
Lemma cap_is_last_n {A} (n : nat) (l : list A) :
  (if (n <? length l)%nat then last_n n l else l) = last_n n l.
Proof.
  destruct (n <? length l)%nat eqn:E; [reflexivity|].
  apply Nat.ltb_ge in E. unfold last_n.
  replace (length l - n)%nat with 0%nat by lia. reflexivity.
Qed.

End LoopFacts.

(** *** behavior_ai.py: pattern selection and attention curves *)

Section BehaviorFacts.
Import Py PyRandom PyList.

(** C7: with the context morning / educational / desktop,
    [select_behavior_pattern] selects FOCUSED_WATCHING or RESEARCH_MODE,
    never CASUAL_BROWSING; the selection reads no random draw (the
    cursor comes back unchanged) and is the same for every oracle. *)
Theorem select_pattern_morning_educational_desktop
    (self : BehaviorAI.Simulator) (o : Oracle) (c : Cursor) :
  let r := BehaviorAI.select_behavior_pattern self
             (Some morning_educational_desktop) o c in
  (fst (fst r) = BehaviorAI.FOCUSED_WATCHING
   \/ fst (fst r) = BehaviorAI.RESEARCH_MODE)
  /\ fst (fst r) <> BehaviorAI.CASUAL_BROWSING
  /\ snd r = c
  /\ forall o' c',
       fst (fst (BehaviorAI.select_behavior_pattern self
                   (Some morning_educational_desktop) o' c')) = fst (fst r).
Proof.
  cbv zeta. repeat split.
  - right. reflexivity.
  - discriminate.
Qed.

Lemma attention_lookup_cases (name : string) (base : list Q) :
  BehaviorAI.dict_lookup name BehaviorAI.attention_models = Some base ->
  (name =? "") = false /\ (7 <= length base <= 9)%nat.
Proof.
  intro H. split.
  - destruct (name =? "") eqn:E; [|reflexivity].
    apply String.eqb_eq in E. subst name. discriminate H.
  - unfold BehaviorAI.attention_models in H. cbn [BehaviorAI.dict_lookup] in H.
    repeat match type of H with
           | (if ?b then _ else _) = _ => destruct b
           end;
      try discriminate H; injection H as <-; cbn; lia.
Qed.

Lemma attention_pattern_shape
    (duration : Z) (name : string) (base : list Q) (o : Oracle) (c : Cursor) :
  BehaviorAI.dict_lookup name BehaviorAI.attention_models = Some base ->
  exists l,
    fst (BehaviorAI.generate_attention_pattern duration (Some name) o c) = Some l
    /\ Z.of_nat (length l)
       = Z.min (Z.max 2 (duration / 30)) (Z.of_nat (length base))
    /\ Forall (fun v => 1 # 10 <= v /\ v <= 1) l.
Proof.
  intro H. destruct (attention_lookup_cases _ H) as [NE LEN].
  unfold BehaviorAI.generate_attention_pattern.
  rewrite NE. rewrite bind_value. cbn [ret fst snd]. rewrite H.
  rewrite bind_value. cbn [ret fst snd].
  eexists. split; [reflexivity|]. split.
  - rewrite mapM_length, range_length.
    destruct (Z.min (duration / 30) (Z.of_nat (length base)) <? 2)%Z eqn:E.
    + apply Z.ltb_lt in E. lia.
    + apply Z.ltb_ge in E. lia.
  - apply mapM_Forall. intros i c' _.
    destruct (name =? "spikey_attention");
      rewrite bind_value; cbn [ret fst]; apply clamp_bounds; lra.
Qed.

(** C6: for a named base shape, [generate_attention_pattern] returns a
    list whose length is [max(2, duration // 30)] truncated to the
    length of the base curve, and whose values all lie in [0.1, 1.0]. *)
Theorem attention_pattern_length_and_range
    (duration : Z) (name : string) (base : list Q) (o : Oracle) (c : Cursor) :
  BehaviorAI.dict_lookup name BehaviorAI.attention_models = Some base ->
  exists l,
    fst (BehaviorAI.generate_attention_pattern duration (Some name) o c) = Some l
    /\ Z.of_nat (length l)
       = Z.min (Z.max 2 (duration / 30)) (Z.of_nat (length base))
    /\ Forall (fun v => 1 # 10 <= v /\ v <= 1) l.
Proof. apply attention_pattern_shape. Qed.

Lemma attention_pattern_length_and_range_witness :
  exists l,
    fst (BehaviorAI.generate_attention_pattern 300 (Some "short_attention")
           {| rand := fun _ => 1 # 2; clock := fun _ => 0 |}
           {| rpos := 0; tpos := 0 |}) = Some l
    /\ Z.of_nat (length l) = 7%Z
    /\ Forall (fun v => 1 # 10 <= v /\ v <= 1) l.
Proof.
  apply (@attention_pattern_length_and_range 300 "short_attention"
           [1; 8 # 10; 6 # 10; 4 # 10; 3 # 10; 2 # 10; 1 # 10]).
  reflexivity.
Defined.

End BehaviorFacts.

(** *** Postconditions of computations *)

Section Postconditions.
Import Py PyRandom PyList.

Lemma always_ret (o : Oracle) {A} (a : A) (P : A -> Prop) :
  P a -> always o (ret a) P.
Proof. intros H c. exact H. Qed.

Lemma always_bind (o : Oracle) {A B} (m : M A) (k : A -> M B)
    (Q : A -> Prop) (P : B -> Prop) :
  always o m Q -> (forall a, Q a -> always o (k a) P) -> always o (bind m k) P.
Proof. intros Hm Hk c. rewrite bind_value. apply Hk. apply Hm. Qed.

Lemma always_bind_any (o : Oracle) {A B} (m : M A) (k : A -> M B)
    (P : B -> Prop) :
  (forall a, always o (k a) P) -> always o (bind m k) P.
Proof. intros Hk c. rewrite bind_value. apply Hk. Qed.

Lemma always_weaken (o : Oracle) {A} (m : M A) (P Q : A -> Prop) :
  always o m P -> (forall a, P a -> Q a) -> always o m Q.
Proof. intros H W c. apply W. apply H. Qed.

Lemma always_uniform (o : Oracle) (a b : Q) :
  unit_draws o -> a <= b -> always o (uniform a b) (fun v => a <= v /\ v <= b).
Proof. intros U L c. apply uniform_bounds; assumption. Qed.

Lemma always_randint (o : Oracle) (a b : Z) :
  unit_draws o -> (a <= b)%Z ->
  always o (randint a b) (fun v => (a <= v <= b)%Z).
Proof. intros U L c. apply randint_bounds; assumption. Qed.

Lemma always_mapM (o : Oracle) {A B} (f : A -> M B) (xs : list A)
    (P : B -> Prop) :
  (forall a, In a xs -> always o (f a) P) ->
  always o (mapM f xs) (fun l => length l = length xs /\ Forall P l).
Proof.
  intros H c. split; [apply mapM_length|].
  apply mapM_Forall. intros a c' I. apply (H a I).
Qed.

Lemma always_replicateM (o : Oracle) {A} (n : nat) (m : M A) (P : A -> Prop) :
  always o m P ->
  always o (replicateM n m) (fun l => length l = n /\ Forall P l).
Proof.
  intros H c. split; [apply replicateM_length|].
  apply replicateM_Forall. exact H.
Qed.

End Postconditions.

Ltac step_any := apply always_bind_any; intro.
Ltac step_with post := eapply (@always_bind _ _ _ _ _ post); [|intros ? ?].

(** *** Generated event lists are ordered by time *)

Section EventOrder.
Import Py PyRandom PyList.

Lemma engagement_actions_sorted (o : Oracle)
    (bp : BehaviorAI.BehaviorPattern) (wt : Z) :
  always o (BehaviorAI._generate_engagement_actions bp wt)
    (Sorted (by_key BehaviorAI.action_time)).
Proof.
  unfold BehaviorAI._generate_engagement_actions. cbv zeta.
  repeat step_any. apply always_ret. apply sort_by_sorted.
Qed.

Lemma actual_watch_time_some (o : Oracle) (vl : Z) (curve : list Q)
    (evs : list StealthManager.WatchEvent) :
  curve <> [] ->
  always o (StealthManager._calculate_actual_watch_time vl curve evs)
    (fun r => exists z, r = Some z).
Proof.
  intro NE. unfold StealthManager._calculate_actual_watch_time.
  destruct curve as [|q curve]; [congruence|]. cbv zeta.
  step_any. apply always_ret. eexists. reflexivity.
Qed.

Lemma segments_at_least_two (vl : Z) (n : nat) :
  (2 <= Z.of_nat n)%Z ->
  let s := Z.min (vl / 30) (Z.of_nat n) in
  (2 <= (if (s <? 2)%Z then 2 else s))%Z.
Proof.
  intros H s. destruct (s <? 2)%Z eqn:E; [lia|]. apply Z.ltb_ge in E. exact E.
Qed.

Lemma watch_pattern_sorted (o : Oracle) (vl : Z) (vt : option string) :
  vl <> 0%Z ->
  always o (StealthManager.generate_human_watch_pattern vl vt)
    (fun r => exists p, r = Some p
                /\ Sorted (by_key StealthManager.event_time)
                     (StealthManager.events p)).
Proof.
  intro NZ. unfold StealthManager.generate_human_watch_pattern. cbv zeta.
  step_any.
  step_with (fun l : list Q => l <> []).
  { eapply always_weaken; [apply always_mapM with (P := fun _ => True)|].
    - intros i _ c. exact I.
    - intros l [L _] E. subst l. rewrite range_length in L. cbn in L.
      destruct (Z.min _ _ <? 2)%Z eqn:E in L; [discriminate L|].
      apply Z.ltb_ge in E. lia. }
  do 10 step_any.
  step_with (fun r : option Z => exists z, r = Some z).
  { apply actual_watch_time_some. assumption. }
  destruct H0 as [z ->].
  apply Z.eqb_neq in NZ. rewrite NZ.
  apply always_ret. eexists. split; [reflexivity|].
  cbn [StealthManager.events]. apply sort_by_sorted.
Qed.

(** C9: the engagement-action list and the watch-pattern event list are
    returned in non-decreasing order of their timestamps. *)
Theorem generated_events_ordered_by_time
    (bp : BehaviorAI.BehaviorPattern) (watch_time : Z)
    (video_length : Z) (video_type : option string)
    (o : Oracle) (c : Cursor) :
  video_length <> 0%Z ->
  Sorted (by_key BehaviorAI.action_time)
    (fst (BehaviorAI._generate_engagement_actions bp watch_time o c))
  /\ exists p,
       fst (StealthManager.generate_human_watch_pattern
              video_length video_type o c) = Some p
       /\ Sorted (by_key StealthManager.event_time) (StealthManager.events p).
Proof.
  intro NZ. split.
  - apply engagement_actions_sorted.
  - apply watch_pattern_sorted. exact NZ.
Qed.

End EventOrder.

(** *** fingerprint_rotator.py: rotation policy *)

Section RotationFacts.
Import Py PyRandom PyList.
Import FingerprintRotator.

Context {Attributes : Type}.
Variable sample_attributes : FingerprintType -> HardwareProfile -> M Attributes.

Local Abbreviation generate := (generate_fingerprint sample_attributes).
Local Abbreviation rotate := (rotate_fingerprint sample_attributes).

Lemma generate_sets_current (self : Rotator Attributes)
    (ft : option FingerprintType) (hp : option HardwareProfile)
    (o : Oracle) (c : Cursor) :
  let r := fst (generate self ft hp o c) in
  current_fingerprint (snd r) = Some (fst r).
Proof.
  unfold generate_fingerprint. cbv zeta.
  repeat (rewrite bind_value; cbv beta). reflexivity.
Qed.

(** C8: with a current Identity, [rotate_fingerprint] returns a freshly
    generated Identity, which becomes the current one, exactly when the
    current one has expired, or rotation is forced, or the time since
    its creation exceeds [min_time_between]; otherwise it returns
    nothing and leaves the rotator as it was. *)
Theorem rotate_fingerprint_policy (self : Rotator Attributes)
    (current : FingerprintConfig Attributes) (force : bool) (min_time_between : Z)
    (o : Oracle) (c : Cursor) :
  current_fingerprint self = Some current ->
  let now := clock o (tpos c) in
  let due := expires_at current < now
             \/ force = true
             \/ inject_Z min_time_between < now - created_at current in
  let fresh := fst (generate self None None o (after_clock_read c)) in
  let r := fst (rotate self force min_time_between o c) in
  (due -> r = (Some (fst fresh), snd fresh)
          /\ current_fingerprint (snd r) = Some (fst fresh))
  /\ (~ due -> r = (None, self))
  /\ ((exists fp, fst r = Some fp) <-> due).
Proof.
  intros H now due fresh r.
  assert (R : r = if Qlt_bool (expires_at current) now
                  then (Some (fst fresh), snd fresh)
                  else if force then (Some (fst fresh), snd fresh)
                  else if Qlt_bool (inject_Z min_time_between)
                                   (now - created_at current)
                       then (Some (fst fresh), snd fresh)
                       else (None, self)).
  { unfold r, rotate_fingerprint. rewrite bind_value.
    cbn [time fst snd]. rewrite H. fold now.
    change {| rpos := rpos c; tpos := S (tpos c) |} with (after_clock_read c).
    destruct (Qlt_bool (expires_at current) now);
      [rewrite bind_value; reflexivity|].
    destruct force; [rewrite bind_value; reflexivity|].
    destruct (Qlt_bool _ _); [rewrite bind_value; reflexivity|reflexivity]. }
  assert (C : current_fingerprint (snd fresh) = Some (fst fresh))
    by apply generate_sets_current.
  destruct (Qlt_bool (expires_at current) now) eqn:E1.
  { apply Qlt_bool_true in E1.
    assert (D : due) by (left; exact E1).
    rewrite R. repeat split; auto; try tauto. eexists; reflexivity. }
  destruct force.
  { assert (D : due) by (right; left; reflexivity).
    rewrite R. repeat split; auto; try tauto. eexists; reflexivity. }
  destruct (Qlt_bool (inject_Z min_time_between) (now - created_at current)) eqn:E3.
  { apply Qlt_bool_true in E3.
    assert (D : due) by (right; right; exact E3).
    rewrite R. repeat split; auto; try tauto. eexists; reflexivity. }
  apply Qlt_bool_false in E1. apply Qlt_bool_false in E3.
  assert (D : ~ due).
  { intros [D|[D|D]]; [lra | discriminate D | lra]. }
  rewrite R. repeat split; auto; try tauto.
  intros [fp F]. discriminate F.
Qed.

(** C10: without a current Identity, [rotate_fingerprint] returns a
    freshly generated Identity, which becomes the current one, whatever
    the force flag and [min_time_between] are. *)
Theorem rotate_fingerprint_without_current (self : Rotator Attributes)
    (force : bool) (min_time_between : Z) (o : Oracle) (c : Cursor) :
  current_fingerprint self = None ->
  let fresh := fst (generate self None None o (after_clock_read c)) in
  let r := fst (rotate self force min_time_between o c) in
  r = (Some (fst fresh), snd fresh)
  /\ current_fingerprint (snd r) = Some (fst fresh).
Proof.
  intros H fresh r.
  assert (R : r = (Some (fst fresh), snd fresh)).
  { unfold r, rotate_fingerprint. rewrite bind_value.
    cbn [time fst snd]. rewrite H. rewrite bind_value. reflexivity. }
  rewrite R. split; [reflexivity|]. apply generate_sets_current.
Qed.

End RotationFacts.

(** *** stealth_manager.py: the watch pattern of a tutorial *)

Section WatchPatternFacts.
Import Py PyRandom PyList StealthManager.

Lemma round_half_even_bounds (y : Q) (a b : Z) :
  inject_Z a <= y -> y <= inject_Z b ->
  (a <= round_half_even y <= b)%Z.
Proof.
  intros L H. unfold round_half_even.
  assert (FL : (a <= Qfloor y)%Z).
  { rewrite <- (Qfloor_Z a). apply Qfloor_resp_le. exact L. }
  pose proof (Qfloor_le y) as F1. pose proof (Qlt_floor y) as F2.
  destruct (Qlt_le_dec y (inject_Z b)) as [Lt|Ge].
  - assert (Qfloor y < b)%Z.
    { apply Z.lt_nge. intro C. rewrite Zle_Qle in C. lra. }
    destruct (Qcompare _ _); [destruct (Z.even _)| |]; lia.
  - assert (E : y == inject_Z b) by lra.
    assert (EF : Qfloor y = b) by (rewrite (Qfloor_comp _ _ E); apply Qfloor_Z).
    rewrite EF in *.
    assert (C : Qcompare (y - inject_Z b) (1 # 2) = Lt).
    { apply (proj1 (Qlt_alt _ _)). lra. }
    rewrite C. lia.
Qed.

Lemma round1_bounds (x : Q) (a b : Z) :
  inject_Z a / 10 <= x -> x <= inject_Z b / 10 ->
  inject_Z a / 10 <= round1 x /\ round1 x <= inject_Z b / 10.
Proof.
  unfold round1, Qdiv. change (/ 10) with (1 # 10). intros L H.
  assert (B : (a <= round_half_even (x * 10) <= b)%Z).
  { apply round_half_even_bounds; lra. }
  destruct B as [B1 B2]. rewrite Zle_Qle in B1, B2.
  split; lra.
Qed.

Lemma fold_cost_le (evs : list WatchEvent) (w : Q) :
  Forall (fun e => 0 <= event_cost e) evs ->
  fold_left (fun w e => w - event_cost e) evs w <= w.
Proof.
  intro F. revert w. induction F as [|e evs H F IH]; intro w; cbn [fold_left].
  - lra.
  - specialize (IH (w - event_cost e)). lra.
Qed.

Lemma Forall_filter {A} (P : A -> Prop) (f : A -> bool) (l : list A) :
  Forall P l -> Forall P (filter f l).
Proof.
  intro F. apply Forall_forall. intros a I. apply filter_In in I.
  rewrite Forall_forall in F. apply F. tauto.
Qed.

Lemma segment_watch_time_bounds (sl : Q) (evs : list WatchEvent) (i : nat) (r : Q) :
  0 <= sl -> 0 <= r -> Forall (fun e => 0 <= event_cost e) evs ->
  0 <= segment_watch_time sl evs i r
  /\ segment_watch_time sl evs i r <= sl * r * (1 # 100).
Proof.
  intros S R F. unfold segment_watch_time. cbv zeta.
  split; [apply Qmax_lower|].
  apply Qmax_upper; [nra|].
  eapply Qle_trans; [apply fold_cost_le, Forall_filter, F|].
  unfold Qdiv. change (/ 100) with (1 # 100). lra.
Qed.

Lemma sum_segments_bounds (sl : Q) (evs : list WatchEvent) (l : list Q) :
  0 <= sl -> Forall (fun r => 0 <= r) l ->
  Forall (fun e => 0 <= event_cost e) evs ->
  forall i acc,
    acc <= sum_segments sl evs i l acc
    /\ sum_segments sl evs i l acc <= acc + sl * Qsum l * (1 # 100).
Proof.
  intros S F C. induction F as [|r l R F IH]; intros i acc; cbn [sum_segments Qsum fold_right].
  - lra.
  - destruct (segment_watch_time_bounds i S R C) as [B1 B2].
    destruct (IH (Datatypes.S i) (acc + segment_watch_time sl evs i r)) as [I1 I2].
    fold (Qsum l) in *. split; nra.
Qed.

Lemma mapM_sum_le {A} (f : A -> M Q) (ub : A -> Q) (xs : list A) (o : Oracle) :
  (forall a c, In a xs -> fst (f a o c) <= ub a) ->
  forall c, Qsum (fst (mapM f xs o c)) <= Qsum (map ub xs).
Proof.
  induction xs as [|a xs IH]; intros H c.
  - cbn. lra.
  - cbn [mapM]. rewrite !bind_value. cbn [ret fst map Qsum fold_right].
    fold (Qsum (map ub xs)).
    pose proof (H a c (or_introl eq_refl)).
    pose proof (IH (fun b c' I => H b c' (or_intror I)) (snd (f a o c))).
    unfold Qsum in *. lra.
Qed.

Lemma clamp_mono (lo hi v w : Q) :
  v <= w -> Qmax lo (Qmin hi v) <= Qmax lo (Qmin hi w).
Proof.
  intro L.
  destruct (Qmin_cases hi v) as [[? ->]|[? ->]];
  destruct (Qmin_cases hi w) as [[? ->]|[? ->]];
  destruct (Qmax_cases lo hi) as [[? E1]|[? E1]];
  destruct (Qmax_cases lo v) as [[? E2]|[? E2]];
  destruct (Qmax_cases lo w) as [[? E3]|[? E3]];
  try rewrite E1; try rewrite E2; try rewrite E3; lra.
Qed.

Lemma retention_at_bounds (o : Oracle) (base_curve : list Z) (i : Z) :
  unit_draws o ->
  always o (retention_at base_curve i)
    (fun v => 5 <= v /\ v <= retention_cap base_curve i).
Proof.
  intros U c. unfold retention_at, retention_cap. cbv zeta.
  rewrite bind_value. cbn [ret fst]. split; [apply Qmax_lower|].
  apply clamp_mono.
  assert (V : fst ((if (i =? 0)%Z then uniform (-2) 2
                    else if (i <? 3)%Z then uniform (-5) 5
                    else uniform (-10) 5) o c) <= 5).
  { destruct (i =? 0)%Z; [|destruct (i <? 3)%Z].
    - pose proof (@uniform_bounds (-2) 2 o c U). lra.
    - pose proof (@uniform_bounds (-5) 5 o c U). lra.
    - pose proof (@uniform_bounds (-10) 5 o c U). lra. }
  lra.
Qed.

Lemma Qmax_lower_r (a b : Q) : b <= Qmax a b.
Proof. destruct (Qmax_cases a b) as [[H ->]|[H ->]]; lra. Qed.

Lemma cost_ok_pause (t d : Q) : 2 <= d -> d <= 15 -> cost_ok (EvPause (round1 t) (round1 d)).
Proof.
  intros L H. unfold cost_ok. cbn [event_cost].
  destruct (@round1_bounds d 20 150) as [B _].
  - unfold Qdiv. change (/ 10) with (1 # 10). change (inject_Z 20) with 20. lra.
  - unfold Qdiv. change (/ 10) with (1 # 10). change (inject_Z 150) with 150. lra.
  - unfold Qdiv in B. change (/ 10) with (1 # 10) in B.
    change (inject_Z 20) with 20 in B. lra.
Qed.

Lemma cost_ok_seek (t : Q) (a : Z) : cost_ok (EvSeek t a).
Proof.
  unfold cost_ok. cbn [event_cost].
  assert (0 <= inject_Z (Z.abs a)).
  { change 0 with (inject_Z 0). rewrite <- Zle_Qle. lia. }
  lra.
Qed.

Lemma actual_watch_time_bounds (o : Oracle) (vl : Z) (l : list Q)
    (evs : list WatchEvent) (T : Q) :
  unit_draws o -> l <> [] -> (0 <= vl)%Z ->
  Forall (fun r => 0 <= r) l -> Forall cost_ok evs ->
  inject_Z vl / inject_Z (Z.of_nat (length l)) * Qsum l * (1 # 100) <= T ->
  always o (_calculate_actual_watch_time vl l evs)
    (fun r => exists z, r = Some z /\ (30 <= z)%Z
                        /\ inject_Z z <= Qmax 30 (T * (105 # 100))).
Proof.
  intros U NE V R C B. unfold _calculate_actual_watch_time.
  destruct l as [|q l]; [congruence|]. cbv zeta.
  set (sl := inject_Z vl / inject_Z (Z.of_nat (length (q :: l)))) in *.
  assert (SL : 0 <= sl).
  { unfold sl. apply Qle_shift_div_l.
    - change 0 with (inject_Z 0). rewrite <- Zlt_Qlt. cbn [length]. lia.
    - rewrite Qmult_0_l. change 0 with (inject_Z 0). rewrite <- Zle_Qle. exact V. }
  destruct (sum_segments_bounds (l := q :: l) SL R C 0 0) as [S1 S2].
  set (total := sum_segments sl evs 0 (q :: l) 0) in *.
  step_with (fun u : Q => - (5 # 100) <= u /\ u <= 5 # 100).
  { apply always_uniform; [exact U | lra]. }
  apply always_ret. eexists. split; [reflexivity|].
  destruct H as [U1 U2].
  set (x := Qmax 30 (total + total * a)).
  assert (X1 : 30 <= x) by apply Qmax_lower.
  assert (X2 : x <= Qmax 30 (T * (105 # 100))).
  { unfold x. apply Qmax_upper; [apply Qmax_lower|].
    eapply Qle_trans; [|apply Qmax_lower_r]. nra. }
  rewrite int_nonneg_floor by lra. split.
  - change 30%Z with (Qfloor 30). apply Qfloor_resp_le. exact X1.
  - pose proof (Qfloor_le x). lra.
Qed.

Lemma Forall_app_intro {A} (P : A -> Prop) (l1 l2 : list A) :
  Forall P l1 -> Forall P l2 -> Forall P (l1 ++ l2).
Proof. intros. apply Forall_app. split; assumption. Qed.

Lemma always_replicateM_all (o : Oracle) {A} (n : nat) (m : M A) (P : A -> Prop) :
  always o m P -> always o (replicateM n m) (Forall P).
Proof. intros H c. apply replicateM_Forall. exact H. Qed.

Lemma tutorial_caps_sum :
  Qsum (map (retention_cap (curve tutorial_curve)) (range 10)) <= 932.
Proof. apply Qle_bool_iff. vm_compute. reflexivity. Qed.

Lemma tutorial_pattern (o : Oracle) :
  unit_draws o ->
  always o (generate_human_watch_pattern 300 (Some "tutorial"))
    (fun r => exists p, r = Some p
                /\ (30 <= total_watch_time p)%Z
                /\ 10 <= completion_rate p /\ completion_rate p <= 100).
Proof.
  intro U. unfold generate_human_watch_pattern. cbv zeta.
  change ("tutorial" =? "") with false. cbv iota.
  step_with (fun s : string => s = "tutorial").
  { apply always_ret. reflexivity. }
  subst a.
  change (retention_curves_get "tutorial") with tutorial_curve.
  change (Z.min (300 / 30) (Z.of_nat (length (curve tutorial_curve)))) with 10%Z.
  change (10 <? 2)%Z with false. cbv iota.
  step_with (fun l : list Q =>
               length l = 10%nat /\ Forall (fun r => 0 <= r) l /\ Qsum l <= 932).
  { intro c. split; [|split].
    - rewrite mapM_length. reflexivity.
    - apply mapM_Forall. intros i c' _.
      pose proof (@retention_at_bounds o (curve tutorial_curve) i U c'). cbv beta in H. lra.
    - eapply Qle_trans; [|apply tutorial_caps_sum].
      apply mapM_sum_le. intros i c' _.
      apply (@retention_at_bounds o (curve tutorial_curve) i U c'). }
  destruct H as [LEN [NN SUM]].
  step_any.
  step_with (fun l : list WatchEvent => Forall cost_ok l).
  { apply always_replicateM_all.
    step_any.
    step_with (fun d : Q => 2 <= d /\ d <= 15).
    { apply always_uniform; [exact U | lra]. }
    apply always_ret. apply cost_ok_pause; tauto. }
  step_any.
  step_with (fun l : list WatchEvent => Forall cost_ok l).
  { destruct (Qlt_bool _ _); [|apply always_ret; constructor].
    step_any.
    apply always_replicateM_all.
    do 2 step_any. apply always_ret. apply cost_ok_seek. }
  step_any.
  step_with (fun l : list WatchEvent => Forall cost_ok l).
  { destruct (Qlt_bool _ _); [|apply always_ret; constructor].
    step_any.
    apply always_replicateM_all.
    do 2 step_any. apply always_ret. apply cost_ok_seek. }
  step_any.
  step_with (fun l : list WatchEvent => Forall cost_ok l).
  { destruct (Qlt_bool _ _); [|apply always_ret; constructor].
    do 3 step_any. apply always_ret. repeat constructor. unfold cost_ok. cbn. lra. }
  step_any.
  step_with (fun l : list WatchEvent => Forall cost_ok l).
  { destruct (Qlt_bool _ _); [|apply always_ret; constructor].
    step_any.
    apply always_replicateM_all.
    do 2 step_any. apply always_ret. unfold cost_ok. cbn. lra. }
  step_with (fun r : option Z =>
               exists z, r = Some z /\ (30 <= z)%Z
                         /\ inject_Z z <= Qmax 30 ((2796 # 10) * (105 # 100))).
  { apply actual_watch_time_bounds; try assumption.
    - intro E. subst a. discriminate LEN.
    - lia.
    - eapply Permutation_Forall; [apply sort_by_perm|].
      repeat apply Forall_app_intro; assumption.
    - rewrite LEN. change (inject_Z 300 / inject_Z (Z.of_nat 10)) with (300 / 10).
      unfold Qdiv. change (/ 10) with (1 # 10). lra. }
  destruct H4 as [z [-> [Z1 Z2]]].
  change (300 =? 0)%Z with false. cbv iota.
  apply always_ret. eexists. split; [reflexivity|].
  cbn [total_watch_time completion_rate]. split; [exact Z1|].
  assert (Z3 : inject_Z z <= 294).
  { eapply Qle_trans; [exact Z2|]. apply Qle_bool_iff. vm_compute. reflexivity. }
  assert (Z4 : 30 <= inject_Z z).
  { change 30 with (inject_Z 30). rewrite <- Zle_Qle. exact Z1. }
  destruct (@round1_bounds (inject_Z z / inject_Z 300 * 100) 100 1000) as [B1 B2].
  - unfold Qdiv. change (/ inject_Z 300) with (1 # 300). change (/ 10) with (1 # 10).
    change (inject_Z 100) with 100. lra.
  - unfold Qdiv. change (/ inject_Z 300) with (1 # 300). change (/ 10) with (1 # 10).
    change (inject_Z 1000) with 1000. lra.
  - unfold Qdiv in B1, B2. change (/ 10) with (1 # 10) in B1, B2.
    change (inject_Z 100) with 100 in B1. change (inject_Z 1000) with 1000 in B2.
    unfold Qdiv. split; lra.
Qed.

(** C2: [generate_human_watch_pattern(300, "tutorial")] returns a record
    whose [total_watch_time] is at least 30 and whose [completion_rate]
    lies in [10, 100]. *)
Theorem tutorial_watch_pattern_bounds (o : Oracle) (c : Cursor) :
  unit_draws o ->
  exists p,
    fst (generate_human_watch_pattern 300 (Some "tutorial") o c) = Some p
    /\ (30 <= total_watch_time p)%Z
    /\ 10 <= completion_rate p /\ completion_rate p <= 100.
Proof. intro U. apply (tutorial_pattern U c). Qed.

End WatchPatternFacts.

(** *** session_orchestrator.py: the session schedule *)

Section ScheduleFacts.
Import Py PyRandom PyList.
Import SessionOrchestrator.

Context {ViewerProfile : Type}.
Variable gen_vp : VideoAnalysis -> M ViewerProfile.

Lemma gap_bounds_ordered (p : SessionPriority) :
  fst (gap_bounds p) <= snd (gap_bounds p).
Proof. destruct p; cbn; lra. Qed.

Lemma schedule_entry_start (o : Oracle) (p : SessionPriority)
    (va : VideoAnalysis) (i : Z) (ct sd : Q) (ai : BehaviorAI.Simulator)
    (c : Cursor) :
  unit_draws o ->
  let r := fst (schedule_entry gen_vp p va i ct sd ai o c) in
  let cfg := fst (fst (fst r)) in
  let ct' := snd (fst (fst r)) in
  scheduled_start cfg = ct'
  /\ (i = 0%Z -> ct + 60 <= ct' /\ ct' <= ct + 300)
  /\ (i <> 0%Z -> ct + fst (gap_bounds p) <= ct'
                  /\ ct' <= ct + snd (gap_bounds p)).
Proof.
  intro U. unfold schedule_entry. cbv zeta.
  repeat (rewrite bind_value; cbv beta). cbn [ret fst snd scheduled_start].
  split; [reflexivity|]. split; intro I.
  - subst i. cbn [Z.eqb].
    pose proof (@uniform_bounds 60 300 o c U). lra.
  - apply Z.eqb_neq in I. rewrite I.
    pose proof (@uniform_bounds _ _ o c U (gap_bounds_ordered p)). lra.
Qed.

Lemma schedule_loop_spaced (o : Oracle) (p : SessionPriority)
    (va : VideoAnalysis) (indices : list Z) :
  unit_draws o -> Forall (fun i => i <> 0%Z) indices ->
  forall ct sd ai c,
    let l := fst (fst (schedule_loop gen_vp p va indices ct sd ai o c)) in
    length l = length indices
    /\ spaced (fst (gap_bounds p)) (snd (gap_bounds p)) ct l.
Proof.
  intros U F. induction F as [|i indices NZ F IH]; intros ct sd ai c.
  - cbn. split; [reflexivity|exact I].
  - cbn [schedule_loop]. rewrite bind_value.
    pose proof (@schedule_entry_start o p va i ct sd ai c U) as E.
    cbv zeta in E.
    destruct (fst (schedule_entry gen_vp p va i ct sd ai o c))
      as [[[cfg ct'] sd'] ai'] eqn:R.
    cbn [fst snd] in E. destruct E as [E1 [_ E3]]. specialize (E3 NZ).
    rewrite bind_value. cbn [ret fst snd length spaced].
    specialize (IH ct' sd' ai' (snd (schedule_entry gen_vp p va i ct sd ai o c))).
    cbv zeta in IH. destruct IH as [L S].
    split; [f_equal; exact L|].
    rewrite E1. tauto.
Qed.


Lemma range_positive (n : Z) :
  (0 < n)%Z ->
  exists rest, range n = 0%Z :: rest
               /\ Forall (fun i => i <> 0%Z) rest
               /\ length rest = (Z.to_nat n - 1)%nat.
Proof.
  intro P. unfold range.
  destruct (Z.to_nat n) as [|k] eqn:E; [lia|].
  cbn [seq map]. eexists. split; [reflexivity|]. split.
  - apply Forall_forall. intros i I. apply in_map_iff in I.
    destruct I as [j [<- J]]. apply in_seq in J. lia.
  - rewrite length_map, length_seq. lia.
Qed.

(** The schedule has one entry per session; the first starts one to five
    minutes after the clock read, and every later one starts between
    the minimum and the maximum gap of the priority after its
    predecessor. *)
Lemma session_schedule_spacing (o : Oracle) (ai : BehaviorAI.Simulator)
    (n : Z) (p : SessionPriority) (va : VideoAnalysis) (c : Cursor) :
  unit_draws o ->
  let l := fst (fst (_create_session_schedule gen_vp ai n p va o c)) in
  let now := clock o (tpos c) in
  length l = Z.to_nat n
  /\ match l with
     | [] => True
     | e :: l' =>
         now + 60 <= scheduled_start e /\ scheduled_start e <= now + 300
         /\ spaced (fst (gap_bounds p)) (snd (gap_bounds p)) (scheduled_start e) l'
     end.
Proof.
  intro U. unfold _create_session_schedule.
  rewrite bind_value. rewrite bind_value. cbn [time fst snd].
  destruct (Z_lt_le_dec 0 n) as [P|NP].
  - destruct (range_positive P) as [rest [-> [F L]]].
    cbn [schedule_loop]. rewrite bind_value.
    match goal with
    | |- context [schedule_entry gen_vp p va 0 ?ct ?sd ai o ?c0] =>
        pose proof (@schedule_entry_start o p va 0 ct sd ai c0 U) as E;
        cbv zeta in E;
        destruct (schedule_entry gen_vp p va 0 ct sd ai o c0)
          as [[[[cfg ct'] sd'] ai'] c1] eqn:R
    end.
    cbn [fst snd] in E. destruct E as [E1 [E2 _]]. specialize (E2 eq_refl).
    cbn [fst snd]. rewrite bind_value. cbn [ret fst snd length].
    pose proof (@schedule_loop_spaced o p va rest U F ct' sd' ai' c1) as S.
    cbv zeta in S. destruct S as [SL SS].
    split; [rewrite SL, L; lia|].
    rewrite E1. cbn [uniform] in *. tauto.
  - unfold range. replace (Z.to_nat n) with 0%nat by lia. cbn. tauto.
Qed.

(** C5: the plan of [create_campaign_plan(url, 3, HIGH)] schedules
    exactly three sessions, with strictly increasing [scheduled_start]
    values that are at least 1800 seconds apart. *)
Theorem high_priority_plan_schedule (o : Oracle) (ai : BehaviorAI.Simulator)
    (url : string) (c : Cursor) :
  unit_draws o ->
  let plan := fst (fst (create_campaign_plan gen_vp ai url 3 HIGH o c)) in
  exists e1 e2 e3,
    session_schedule plan = [e1; e2; e3]
    /\ scheduled_start e1 < scheduled_start e2
    /\ scheduled_start e2 < scheduled_start e3
    /\ scheduled_start e1 + 1800 <= scheduled_start e2
    /\ scheduled_start e2 + 1800 <= scheduled_start e3.
Proof.
  intro U. unfold create_campaign_plan. cbv zeta.
  repeat (rewrite bind_value; cbv beta). cbn [ret fst snd session_schedule].
  match goal with
  | |- context [_create_session_schedule gen_vp ai 3 HIGH ?va o ?c0] =>
      pose proof (@session_schedule_spacing o ai 3 HIGH va c0 U) as S;
      cbv zeta in S;
      destruct (fst (fst (_create_session_schedule gen_vp ai 3 HIGH va o c0)))
        as [|e1 [|e2 [|e3 [|e4 l]]]]
  end; destruct S as [L S]; try discriminate L.
  cbn [spaced gap_bounds fst snd] in S.
  exists e1, e2, e3. split; [reflexivity|].
  repeat split; lra.
Qed.

End ScheduleFacts.

(** *** behavior_ai.py: mouse trajectories *)

Section TrajectoryFacts.
Import Py PyRandom PyList.
Import BehaviorAI.

Lemma bezier_quadratic_ends (sx sy ex ey : Z) (cp : Q * Q) (t : Q) :
  let p := bezier_point sx sy ex ey [cp] t in
  (t == 0 -> fst p == inject_Z sx /\ snd p == inject_Z sy)
  /\ (t == 1 -> fst p == inject_Z ex /\ snd p == inject_Z ey).
Proof.
  destruct cp as [cx cy]. cbn [bezier_point fst snd].
  split; intro T; rewrite T; split; ring.
Qed.

Lemma bezier_cubic_ends (sx sy ex ey : Z) (cp1 cp2 : Q * Q) (t : Q) :
  let p := bezier_point sx sy ex ey [cp1; cp2] t in
  (t == 0 -> fst p == inject_Z sx /\ snd p == inject_Z sy)
  /\ (t == 1 -> fst p == inject_Z ex /\ snd p == inject_Z ey).
Proof.
  destruct cp1 as [cx1 cy1], cp2 as [cx2 cy2]. cbn [bezier_point fst snd].
  split; intro T; rewrite T; split; ring.
Qed.

Lemma bezier_casteljau_ends (sx sy ex ey : Z) (cp1 cp2 cp3 : Q * Q) (t : Q) :
  let p := bezier_point sx sy ex ey [cp1; cp2; cp3] t in
  (t == 0 -> fst p == inject_Z sx /\ snd p == inject_Z sy)
  /\ (t == 1 -> fst p == inject_Z ex /\ snd p == inject_Z ey).
Proof.
  destruct cp1 as [cx1 cy1], cp2 as [cx2 cy2], cp3 as [cx3 cy3].
  cbn [bezier_point]. unfold casteljau, casteljau_round.
  cbn [app length seq fold_left nth list_set Nat.sub fst snd].
  split; intro T; rewrite T; split; ring.
Qed.

Lemma control_points_count (o : Oracle) (style : string)
    (sx sy dx dy : Z) (c : Cursor) :
  let n := length (fst (control_points_for style sx sy dx dy o c)) in
  n = 1%nat \/ n = 2%nat \/ n = 3%nat.
Proof.
  unfold control_points_for. cbv zeta.
  destruct (style =? "straight"); [left; reflexivity|].
  destruct (style =? "exploratory").
  { right; left. repeat (rewrite bind_value; cbv beta). reflexivity. }
  destruct (style =? "hesitant").
  { right; right. rewrite mapM_length. reflexivity. }
  left. repeat (rewrite bind_value; cbv beta). reflexivity.
Qed.

Lemma bezier_ends (sx sy ex ey : Z) (cps : list (Q * Q)) (t : Q) :
  length cps = 1%nat \/ length cps = 2%nat \/ length cps = 3%nat ->
  let p := bezier_point sx sy ex ey cps t in
  (t == 0 -> fst p == inject_Z sx /\ snd p == inject_Z sy)
  /\ (t == 1 -> fst p == inject_Z ex /\ snd p == inject_Z ey).
Proof.
  intro L.
  destruct cps as [|c1 [|c2 [|c3 [|c4 l]]]]; cbn [length] in L;
    try (exfalso; lia).
  - apply bezier_quadratic_ends.
  - apply bezier_cubic_ends.
  - apply bezier_casteljau_ends.
Qed.

Lemma trajectory_step_near (o : Oracle) (style : string) (pat : MousePattern)
    (sx sy ex ey : Z) (cps : list (Q * Q)) (dist : Q) (n : Z) (ct : Q) (i : Z)
    (c : Cursor) :
  unit_draws o ->
  near (bezier_point sx sy ex ey cps (inject_Z i / inject_Z (n - 1)))
       (fst (fst (trajectory_step style pat sx sy ex ey cps dist n ct i o c))).
Proof.
  intro U. unfold trajectory_step. cbv zeta.
  destruct (bezier_point sx sy ex ey cps (inject_Z i / inject_Z (n - 1)))
    as [x0 y0].
  rewrite bind_value. cbn [random fst snd].
  destruct (Qlt_bool (7 # 10) (rand o (rpos c))).
  - rewrite bind_value. rewrite (bind_value (randint (-2) 2)).
    rewrite (bind_value (randint (-2) 2)). cbn [ret].
    repeat (rewrite bind_value; cbv beta). cbn [ret fst snd x y].
    eexists; eexists. split; [|split; [|split; reflexivity]].
    + apply randint_bounds; [exact U|lia].
    + apply randint_bounds; [exact U|lia].
  - repeat (rewrite bind_value; cbv beta). cbn [ret fst snd x y].
    exists 0%Z, 0%Z. split; [lia|]. split; [lia|].
    split; apply int_comp; change (inject_Z 0) with 0; cbn [fst snd]; lra.
Qed.

Lemma trajectory_loop_pointwise (o : Oracle)
    (step : Q -> Z -> M (MouseAction * Q)) (P : Z -> MouseAction -> Prop)
    (indices : list Z) :
  (forall i ct c, In i indices -> P i (fst (fst (step ct i o c)))) ->
  forall ct c, Forall2 P indices (fst (trajectory_loop step ct indices o c)).
Proof.
  induction indices as [|i indices IH]; intros H ct c.
  - constructor.
  - cbn [trajectory_loop]. rewrite !bind_value. cbn [ret fst].
    constructor.
    + apply H. left. reflexivity.
    + apply IH. intros j ct' c' J. apply H. right. exact J.
Qed.

Lemma near_start (sx sy : Z) (p : Q * Q) (a : MouseAction) :
  fst p == inject_Z sx -> snd p == inject_Z sy -> near p a ->
  (Z.abs (x a - sx) <= 2)%Z /\ (Z.abs (y a - sy) <= 2)%Z.
Proof.
  intros X Y [jx [jy [JX [JY [EX EY]]]]].
  rewrite (@int_comp _ (inject_Z (sx + jx))) in EX
    by (rewrite inject_Z_plus; rewrite X; reflexivity).
  rewrite (@int_comp _ (inject_Z (sy + jy))) in EY
    by (rewrite inject_Z_plus; rewrite Y; reflexivity).
  rewrite int_inject_Z in EX, EY. lia.
Qed.

Lemma Forall2_nth_error_r {A B} (P : A -> B -> Prop) (l1 : list A) (l2 : list B) :
  Forall2 P l1 l2 ->
  forall k b, nth_error l2 k = Some b ->
              exists a, nth_error l1 k = Some a /\ P a b.
Proof.
  induction 1 as [|a b l1 l2 H F IH]; intros k b' E.
  - destruct k; discriminate E.
  - destruct k as [|k]; cbn in *.
    + injection E as <-. exists a. split; [reflexivity|exact H].
    + apply IH. exact E.
Qed.

Lemma range_nth_error (n : Z) (k : nat) (i : Z) :
  nth_error (range n) k = Some i -> i = Z.of_nat k /\ (Z.of_nat k < n)%Z.
Proof.
  unfold range. intro E. rewrite nth_error_map in E.
  destruct (nth_error (seq 0 (Z.to_nat n)) k) as [j|] eqn:N; [|discriminate E].
  injection E as <-.
  assert (K : (k < length (seq 0 (Z.to_nat n)))%nat).
  { apply nth_error_Some. congruence. }
  rewrite length_seq in K.
  apply nth_error_nth with (d := 0%nat) in N. rewrite seq_nth in N by exact K.
  split; lia.
Qed.

Lemma num_points_bounds (d : Q) : (10 <= num_points_for d <= 50)%Z.
Proof. unfold num_points_for. lia. Qed.

(** C3, as the code has it: the trajectory has between 10 and 50 points;
    its first point is within the micro-movement (2 units a coordinate)
    of the start and its last point within 2 units of the end. *)
Theorem mouse_trajectory_count_and_ends (sqrt : Q -> Q)
    (start_x start_y end_x end_y : Z) (style : string)
    (o : Oracle) (c : Cursor) :
  unit_draws o ->
  let l := fst (generate_mouse_trajectory sqrt start_x start_y end_x end_y
                  style o c) in
  (10 <= length l <= 50)%nat
  /\ (exists first, nth_error l 0 = Some first
        /\ (Z.abs (x first - start_x) <= 2)%Z
        /\ (Z.abs (y first - start_y) <= 2)%Z)
  /\ (exists final, nth_error l (length l - 1) = Some final
        /\ (Z.abs (x final - end_x) <= 2)%Z
        /\ (Z.abs (y final - end_y) <= 2)%Z).
Proof.
  intro U. unfold generate_mouse_trajectory. cbv zeta.
  rewrite bind_value. cbn [time fst snd]. rewrite bind_value.
  set (dist := sqrt _).
  pose proof (num_points_bounds dist) as NB.
  set (n := num_points_for dist) in *.
  match goal with
  | |- context [control_points_for style start_x start_y ?dx ?dy o ?c0] =>
      pose proof (@control_points_count o style start_x start_y dx dy c0) as CP;
      cbv zeta in CP;
      set (cps := fst (control_points_for style start_x start_y dx dy o c0)) in *;
      set (c1 := snd (control_points_for style start_x start_y dx dy o c0))
  end.
  set (l := fst (trajectory_loop _ _ _ o c1)).
  assert (F : Forall2
                (fun i a =>
                   near (bezier_point start_x start_y end_x end_y cps
                           (inject_Z i / inject_Z (n - 1))) a)
                (range n) l).
  { apply trajectory_loop_pointwise. intros i ct c' _.
    apply trajectory_step_near. exact U. }
  assert (L : length l = Z.to_nat n).
  { rewrite <- (Forall2_length F). apply range_length. }
  split; [lia|].
  assert (E : forall k, (k < Z.to_nat n)%nat ->
                exists a, nth_error l k = Some a
                  /\ near (bezier_point start_x start_y end_x end_y cps
                             (inject_Z (Z.of_nat k) / inject_Z (n - 1))) a).
  { intros k K.
    destruct (nth_error l k) as [a|] eqn:N.
    - destruct (Forall2_nth_error_r F _ N) as [i [I P]].
      apply range_nth_error in I. destruct I as [-> _].
      exists a. split; [reflexivity|exact P].
    - apply nth_error_None in N. lia. }
  pose proof (@bezier_ends start_x start_y end_x end_y cps) as BE.
  split.
  - destruct (E 0%nat) as [a [N P]]; [lia|].
    exists a. split; [exact N|].
    destruct (BE (inject_Z (Z.of_nat 0) / inject_Z (n - 1)) CP) as [B0 _].
    assert (T0 : inject_Z (Z.of_nat 0) / inject_Z (n - 1) == 0).
    { change (inject_Z (Z.of_nat 0)) with 0. unfold Qdiv. ring. }
    destruct (B0 T0) as [BX BY].
    apply (near_start BX BY P).
  - destruct (E (length l - 1)%nat) as [a [N P]]; [lia|].
    exists a. split; [exact N|].
    destruct (BE (inject_Z (Z.of_nat (length l - 1)) / inject_Z (n - 1)) CP)
      as [_ B1].
    assert (T1 : inject_Z (Z.of_nat (length l - 1)) / inject_Z (n - 1) == 1).
    { replace (Z.of_nat (length l - 1)) with (n - 1)%Z by lia.
      apply Qmult_inv_r. intro Z0.
      assert (n - 1 = 0)%Z by (apply (proj1 (inject_Z_injective _ 0%Z)); exact Z0).
      lia. }
    destruct (B1 T1) as [BX BY].
    apply (near_start BX BY P).
Qed.

End TrajectoryFacts.

(** *** History lists *)

Section HistoryFacts.
Import Py PyRandom PyList.

(** [random.choice] returns an element of a non-empty sequence. *)
Lemma choice_In {A} (d : A) (l : list A) (o : Oracle) (c : Cursor) :
  unit_draws o -> l <> [] -> In (fst (choice d l o c)) l.
Proof.
  intros U NE. unfold choice. rewrite bind_value. cbn [random ret fst snd].
  apply nth_In.
  destruct (U (rpos c)) as [U0 U1].
  assert (P : 0 < inject_Z (Z.of_nat (length l))).
  { change 0 with (inject_Z 0). rewrite <- Zlt_Qlt.
    destruct l; [congruence|cbn [length]; lia]. }
  assert (0 <= Qfloor (rand o (rpos c) * inject_Z (Z.of_nat (length l)))
          < Z.of_nat (length l))%Z.
  { apply Qfloor_bounds; [change (inject_Z 0) with 0|]; nra. }
  lia.
Qed.

Lemma fingerprint_history_after_generate {Attributes : Type}
    (sample : FingerprintRotator.FingerprintType ->
              FingerprintRotator.HardwareProfile -> M Attributes)
    (self : FingerprintRotator.Rotator Attributes)
    (ft : option FingerprintRotator.FingerprintType)
    (hp : option FingerprintRotator.HardwareProfile)
    (o : Oracle) (c : Cursor) :
  let r := fst (FingerprintRotator.generate_fingerprint sample self ft hp o c) in
  FingerprintRotator.fingerprint_history (snd r)
  = last_n 50 (FingerprintRotator.fingerprint_history self ++ [fst r]).
Proof.
  unfold FingerprintRotator.generate_fingerprint. cbv zeta.
  repeat (rewrite bind_value; cbv beta).
  cbn [ret fst snd FingerprintRotator.fingerprint_history].
  apply cap_is_last_n.
Qed.

Lemma view_session_appends (self : BehaviorAI.Simulator) (d : Z)
    (bp : option BehaviorAI.BehaviorPattern) (o : Oracle) (c : Cursor) :
  unit_draws o ->
  let r := fst (BehaviorAI.generate_view_session self d bp o c) in
  exists s, fst r = Some s
            /\ BehaviorAI.session_history (snd r)
               = BehaviorAI.session_history self ++ [s].
Proof.
  intro U. unfold BehaviorAI.generate_view_session. cbv zeta.
  rewrite bind_value.
  set (ps := fst (_ o c)). set (c1 := snd (_ o c)).
  assert (SH : BehaviorAI.session_history (snd ps) = BehaviorAI.session_history self).
  { unfold ps. destruct bp as [p|]; [reflexivity|].
    unfold BehaviorAI.select_behavior_pattern.
    rewrite bind_value. reflexivity. }
  rewrite bind_value. cbv beta. rewrite bind_value. cbv beta.
  set (at_ := fst (_ o (snd (uniform _ _ o c1)))).
  set (c2 := snd (_ o (snd (uniform _ _ o c1)))).
  assert (AT : exists base,
             BehaviorAI.dict_lookup at_ BehaviorAI.attention_models = Some base).
  { assert (CH : forall c',
              exists base,
                BehaviorAI.dict_lookup
                  (fst (choice "" ["medium_attention"; "spikey_attention"] o c'))
                  BehaviorAI.attention_models = Some base).
    { intro c'.
      destruct (@choice_In _ "" ["medium_attention"; "spikey_attention"] o c' U)
        as [<-|[<-|[]]]; [discriminate| |]; eexists; reflexivity. }
    unfold at_. destruct (fst ps); try apply CH; eexists; reflexivity. }
  destruct AT as [base AT].
  destruct (attention_pattern_shape d at_ o c2 AT) as [l [E _]].
  rewrite bind_value. rewrite E.
  repeat (rewrite bind_value; cbv beta).
  cbn [ret fst snd BehaviorAI.session_history].
  eexists. split; [reflexivity|]. rewrite SH. reflexivity.
Qed.

Lemma save_session_history {SessionData : Type}
    (stamp : list SessionData -> Q -> SessionData -> SessionData)
    (log : list SessionData) (sd : SessionData) (o : Oracle) (c : Cursor) :
  let log' := fst (StealthManager.save_session stamp log sd o c) in
  log' = last_n 100 (log ++ [stamp log (clock o (tpos c)) sd]).
Proof.
  unfold StealthManager.save_session. rewrite bind_value.
  cbn [time ret fst snd]. apply cap_is_last_n.
Qed.

End HistoryFacts.

(** *** session_orchestrator.py: campaign execution *)

Section CampaignFacts.
Import Py PyRandom PyList.
Import SessionOrchestrator.

Context {ViewerProfile : Type}.
Variable gen_vp : VideoAnalysis -> M ViewerProfile.
Variable bot : string -> Z -> M (SessionResult + string).

Local Abbreviation CData := (CampaignData ViewerProfile).
Local Abbreviation Plan := (OrchestrationPlan ViewerProfile).

(** What the session loop keeps: the plan, the start time, and the
    empty [results], [end_time], [duration] and [error] of the record. *)
Lemma run_sessions_keeps (plan : Plan) (others : list CData) (o : Oracle)
    (schedule : list (SessionConfig ViewerProfile)) :
  forall i cd cnt peak c,
    let r := fst (run_sessions bot plan others schedule i cd cnt peak o c) in
    let cd' := snd (fst (fst r)) in
    cd_results cd' = cd_results cd
    /\ cd_duration cd' = cd_duration cd
    /\ cd_plan cd' = cd_plan cd
    /\ cd_start_time cd' = cd_start_time cd
    /\ (length (cd_sessions cd) <= length (cd_sessions cd')
        <= length (cd_sessions cd) + length schedule)%nat.
Proof.
  induction schedule as [|sc rest IH]; intros i cd cnt peak c.
  - cbn. repeat split; lia.
  - cbn [run_sessions]. rewrite bind_value. cbn [time fst snd].
    rewrite bind_value.
    destruct (fst (bot (video_url plan) (i + 1)%Z o _)) as [res|e].
    + rewrite bind_value. cbn [time fst snd]. rewrite bind_value.
      match goal with
      | |- context [_should_stop_campaign ?cd1 ?cr o ?c1] =>
          destruct (_should_stop_campaign cd1 cr o c1) as [stop c2] eqn:S
      end.
      cbn [fst snd]. destruct stop.
      * cbn [ret fst snd set_status set_sessions cd_results cd_duration cd_plan
               cd_start_time cd_sessions length].
        rewrite length_app. cbn [length]. repeat split; lia.
      * match goal with
        | |- context [run_sessions bot plan others rest ?i1 ?cd1 ?cnt1 ?pk1 o c2] =>
            specialize (IH i1 cd1 cnt1 pk1 c2)
        end.
        cbv zeta in IH. cbn [set_sessions cd_results cd_duration cd_plan
                               cd_start_time cd_sessions] in IH.
        rewrite length_app in IH. cbn [length] in *.
        destruct IH as [? [? [? [? ?]]]]. repeat split; try assumption; lia.
    + cbn [ret fst snd]. repeat split; lia.
Qed.

Lemma campaign_failed_outcome (self : Orchestrator ViewerProfile)
    (others : list CData) (cd : CData) (peak : Z) (e : string)
    (o : Oracle) (c : Cursor) :
  let r := fst (campaign_failed self others cd peak e o c) in
  cd_status (fst r) = failed
  /\ cd_error (fst r) = Some e
  /\ cd_sessions (fst r) = cd_sessions cd
  /\ cd_results (fst r) = cd_results cd
  /\ campaign_history (snd r) = campaign_history self
  /\ completed_campaigns (snd r) = completed_campaigns self ++ [fst r]
  /\ active_campaigns (snd r) = others
  /\ failed_campaigns (metrics (snd r)) = (failed_campaigns (metrics self) + 1)%Z
  /\ successful_campaigns (metrics (snd r)) = successful_campaigns (metrics self)
  /\ total_campaigns (metrics (snd r)) = total_campaigns (metrics self).
Proof.
  unfold campaign_failed. cbv zeta. rewrite bind_value.
  cbn. repeat split; reflexivity.
Qed.

(** How [execute_campaign] ends: either the collaborator raised [e], or
    the session loop returned and the success check raised. *)
Lemma execute_campaign_ends_in_except (self : Orchestrator ViewerProfile)
    (plan : Plan) (o : Oracle) (c : Cursor) :
  let r := fst (execute_campaign bot self plan o c) in
  let looped :=
    fst (run_sessions bot plan (active_campaigns self) (session_schedule plan) 0
           {| cd_plan := plan; cd_start_time := clock o (tpos c);
              cd_end_time := None; cd_sessions := []; cd_results := None;
              cd_status := running; cd_duration := None; cd_error := None |}
           {| c_successful_sessions := 0; c_failed_sessions := 0;
              c_total_watch_time := 0; c_detection_events := 0 |}
           (peak_concurrent_sessions (metrics self)) o
           {| rpos := rpos c; tpos := S (tpos c) |}) in
  cd_status (fst r) = failed
  /\ cd_results (fst r) = None
  /\ cd_sessions (fst r) = cd_sessions (snd (fst (fst looped)))
  /\ cd_error (fst r)
     = Some (match fst (fst (fst looped)) with
             | Some e => e
             | None => results_key_error
             end)
  /\ campaign_history (snd r) = campaign_history self
  /\ completed_campaigns (snd r) = completed_campaigns self ++ [fst r]
  /\ active_campaigns (snd r) = active_campaigns self
  /\ failed_campaigns (metrics (snd r)) = (failed_campaigns (metrics self) + 1)%Z
  /\ successful_campaigns (metrics (snd r)) = successful_campaigns (metrics self)
  /\ total_campaigns (metrics (snd r)) = (total_campaigns (metrics self) + 1)%Z.
Proof.
  unfold execute_campaign. rewrite bind_value. cbn [time fst snd]. cbv zeta.
  rewrite bind_value. cbn [metrics peak_concurrent_sessions active_campaigns].
  match goal with
  | |- context [run_sessions bot plan ?ot ?sch ?i ?cd ?cnt ?pk o ?c1] =>
      pose proof (@run_sessions_keeps plan ot o sch i cd cnt pk c1) as K;
      cbv zeta in K;
      destruct (run_sessions bot plan ot sch i cd cnt pk o c1)
        as [[[[raised cd'] cnt'] peak'] c2] eqn:R
  end.
  cbn [fst snd cd_results cd_duration] in K |- *.
  destruct K as [KR [KD _]].
  destruct raised as [e|].
  - match goal with
    | |- context [campaign_failed ?s ?ot ?d ?pk ?e0 o ?c3] =>
        pose proof (@campaign_failed_outcome s ot d pk e0 o c3) as F
    end.
    cbv zeta in F. cbn [campaign_history completed_campaigns metrics
                          failed_campaigns successful_campaigns total_campaigns] in F.
    destruct F as [F1 [F2 [F3 [F4 [F5 [F6 [F7 [F8 [F9 F10]]]]]]]]].
    rewrite F4, KR. repeat split; assumption.
  - rewrite bind_value. cbn [time fst snd].
    unfold _check_success_criteria.
    cbn [set_duration set_status set_end_time cd_results]. rewrite KR.
    match goal with
    | |- context [campaign_failed ?s ?ot ?d ?pk ?e0 o ?c3] =>
        pose proof (@campaign_failed_outcome s ot d pk e0 o c3) as F
    end.
    cbv zeta in F. cbn [campaign_history completed_campaigns metrics
                          failed_campaigns successful_campaigns total_campaigns
                          set_duration set_status set_end_time cd_results
                          cd_sessions] in F.
    destruct F as [F1 [F2 [F3 [F4 [F5 [F6 [F7 [F8 [F9 F10]]]]]]]]].
    rewrite F4, KR. repeat split; assumption.
Qed.

Lemma failure_fold_count (l : list (SessionData ViewerProfile)) (n : Z) :
  fold_left (fun n s => if success (sd_result s) then n else (n + 1)%Z) l n
  = (n + count_failed l)%Z.
Proof.
  revert n. induction l as [|s l IH]; intro n.
  - cbn. unfold count_failed. cbn. lia.
  - cbn [fold_left]. rewrite IH. unfold count_failed. cbn [filter].
    destruct (success (sd_result s)); cbn [negb length]; lia.
Qed.

Lemma count_failed_rev (l : list (SessionData ViewerProfile)) :
  count_failed (rev l) = count_failed l.
Proof.
  unfold count_failed. f_equal. apply Permutation_length.
  induction l as [|s l IH]; [constructor|].
  cbn [rev filter]. rewrite filter_app. cbn [filter].
  destruct (negb _); [|rewrite app_nil_r; exact IH].
  eapply perm_trans; [apply Permutation_app_comm|]. cbn. constructor. exact IH.
Qed.

Lemma should_stop_short (cd : CData) (cr : SuccessCriteria)
    (o : Oracle) (c : Cursor) :
  (length (cd_sessions cd) < 3)%nat ->
  _should_stop_campaign cd cr o c = (false, c).
Proof.
  intro L. unfold _should_stop_campaign. cbv zeta.
  apply Nat.ltb_lt in L. rewrite L. reflexivity.
Qed.

Lemma should_stop_recent_failures (cd : CData) (cr : SuccessCriteria)
    (o : Oracle) (c : Cursor) :
  (3 <= length (cd_sessions cd))%nat ->
  (max_consecutive_failures cr <= count_failed (last_n 3 (cd_sessions cd)))%Z ->
  _should_stop_campaign cd cr o c = (true, c).
Proof.
  intros L F. unfold _should_stop_campaign. cbv zeta.
  apply Nat.ltb_ge in L. rewrite L.
  rewrite failure_fold_count, count_failed_rev. cbn [Z.add].
  apply Z.leb_le in F. rewrite F. reflexivity.
Qed.

Lemma first_three_failures_stop (plan : Plan) (others : list CData)
    (s1 s2 s3 : SessionConfig ViewerProfile)
    (rest : list (SessionConfig ViewerProfile))
    (cd : CData) (cnt : Counters) (peak : Z) (o : Oracle) (c : Cursor) :
  cd_sessions cd = [] ->
  (max_consecutive_failures (success_criteria plan) <= 3)%Z ->
  (forall k o' c', (1 <= k <= 3)%Z ->
     exists r, fst (bot (video_url plan) k o' c') = inl r /\ success r = false) ->
  let looped :=
    fst (run_sessions bot plan others (s1 :: s2 :: s3 :: rest) 0 cd cnt peak o c) in
  fst (fst (fst looped)) = None
  /\ cd_status (snd (fst (fst looped))) = stopped_early
  /\ map (@sd_config _) (cd_sessions (snd (fst (fst looped)))) = [s1; s2; s3].
Proof.
  intros E M B.
  cbn [run_sessions].
  change (0 + 1 + 1 + 1)%Z with 3%Z. change (0 + 1 + 1)%Z with 2%Z.
  change (0 + 1)%Z with 1%Z.
  rewrite bind_value. cbn [time fst snd]. rewrite bind_value.
  destruct (B 1%Z o {| rpos := rpos c; tpos := S (tpos c) |}) as [r1 [B1 F1]]; [lia|].
  rewrite B1. rewrite bind_value. cbn [time fst snd].
  rewrite bind_value. rewrite should_stop_short
    by (cbn [set_sessions cd_sessions]; rewrite E; cbn; lia).
  cbn [fst snd]. rewrite bind_value. cbn [time fst snd]. rewrite bind_value.
  match goal with
  | |- context [bot (video_url plan) 2 o ?c0] =>
      destruct (B 2%Z o c0) as [r2 [B2 F2]]; [lia|]
  end.
  rewrite B2. rewrite bind_value. cbn [time fst snd].
  rewrite bind_value. rewrite should_stop_short
    by (cbn [set_sessions cd_sessions]; rewrite E; cbn; lia).
  cbn [fst snd]. rewrite bind_value. cbn [time fst snd]. rewrite bind_value.
  match goal with
  | |- context [bot (video_url plan) 3 o ?c0] =>
      destruct (B 3%Z o c0) as [r3 [B3 F3]]; [lia|]
  end.
  rewrite B3. rewrite bind_value. cbn [time fst snd].
  rewrite bind_value. rewrite should_stop_recent_failures.
  - cbn [ret fst snd set_status set_sessions cd_status cd_sessions].
    rewrite E. cbn. repeat split; reflexivity.
  - cbn [set_sessions cd_sessions]. rewrite E. cbn. lia.
  - cbn [set_sessions cd_sessions]. rewrite E.
    unfold count_failed, last_n. cbn [app length Nat.sub skipn filter sd_result].
    rewrite F1, F2, F3. cbn. exact M.
Qed.

(** C1, as the code has it: when the first three sessions report
    failure, [execute_campaign] stops after the third session; the
    record it returns holds exactly these three sessions, and its final
    status is ["failed"], not ["stopped_early"]: the status set on the
    early stop is overwritten with ["completed"], and the success check
    then raises on the still empty [results] dict. *)
Theorem three_failures_stop_but_status_is_failed
    (self : Orchestrator ViewerProfile) (plan : Plan)
    (s1 s2 s3 : SessionConfig ViewerProfile)
    (rest : list (SessionConfig ViewerProfile)) (o : Oracle) (c : Cursor) :
  session_schedule plan = s1 :: s2 :: s3 :: rest ->
  (max_consecutive_failures (success_criteria plan) <= 3)%Z ->
  (forall k o' c', (1 <= k <= 3)%Z ->
     exists r, fst (bot (video_url plan) k o' c') = inl r /\ success r = false) ->
  let cd := fst (fst (execute_campaign bot self plan o c)) in
  map (@sd_config _) (cd_sessions cd) = [s1; s2; s3]
  /\ cd_status cd = failed
  /\ cd_status cd <> stopped_early
  /\ cd_error cd = Some results_key_error.
Proof.
  intros S M B.
  pose proof (@execute_campaign_ends_in_except self plan o c) as X.
  cbv zeta in X. rewrite S in X.
  match type of X with
  | context [run_sessions bot plan ?ot _ 0 ?cd0 ?cnt0 ?pk o ?c1] =>
      pose proof (@first_three_failures_stop plan ot s1 s2 s3 rest cd0 cnt0 pk
                    o c1 eq_refl M B) as T
  end.
  cbv zeta in T. destruct T as [T1 [T2 T3]].
  destruct X as [X1 [X2 [X3 [X4 _]]]].
  cbv zeta. rewrite X3, T3. rewrite X4, T1.
  repeat split; try assumption. rewrite X1. discriminate.
Qed.
End CampaignFacts.

(** *** Scenarios and concrete runs *)

Section Scenarios.
Import Py PyRandom PyList.

Lemma half_oracle_unit : unit_draws half_oracle.
Proof.
  intro n. split.
  - apply Qle_bool_iff. reflexivity.
  - apply (proj1 (Qlt_bool_true _ _)). reflexivity.
Qed.

Lemma high_oracle_unit : unit_draws high_oracle.
Proof.
  intro n. split.
  - apply Qle_bool_iff. reflexivity.
  - apply (proj1 (Qlt_bool_true _ _)). reflexivity.
Qed.

Lemma generated_events_ordered_by_time_witness :
  Sorted (by_key BehaviorAI.action_time)
    (fst (BehaviorAI._generate_engagement_actions BehaviorAI.FOCUSED_WATCHING
            240 half_oracle start_cursor))
  /\ exists p,
       fst (StealthManager.generate_human_watch_pattern 300 (Some "tutorial")
              half_oracle start_cursor) = Some p
       /\ Sorted (by_key StealthManager.event_time) (StealthManager.events p).
Proof.
  apply (@generated_events_ordered_by_time BehaviorAI.FOCUSED_WATCHING 240
           300 (Some "tutorial") half_oracle start_cursor).
  discriminate.
Defined.

Lemma tutorial_watch_pattern_bounds_witness :
  exists p,
    fst (StealthManager.generate_human_watch_pattern 300 (Some "tutorial")
           half_oracle start_cursor) = Some p
    /\ (30 <= StealthManager.total_watch_time p)%Z
    /\ 10 <= StealthManager.completion_rate p
    /\ StealthManager.completion_rate p <= 100.
Proof.
  apply (@tutorial_watch_pattern_bounds half_oracle start_cursor).
  exact half_oracle_unit.
Defined.

Lemma high_priority_plan_schedule_witness :
  let plan :=
    fst (fst (SessionOrchestrator.create_campaign_plan
                (fun _ => ret tt) BehaviorAI.init
                "https://video.example/watch?v=1" 3 SessionOrchestrator.HIGH
                half_oracle start_cursor)) in
  exists e1 e2 e3,
    SessionOrchestrator.session_schedule plan = [e1; e2; e3]
    /\ SessionOrchestrator.scheduled_start e1
       < SessionOrchestrator.scheduled_start e2
    /\ SessionOrchestrator.scheduled_start e2
       < SessionOrchestrator.scheduled_start e3
    /\ SessionOrchestrator.scheduled_start e1 + 1800
       <= SessionOrchestrator.scheduled_start e2
    /\ SessionOrchestrator.scheduled_start e2 + 1800
       <= SessionOrchestrator.scheduled_start e3.
Proof.
  apply (@high_priority_plan_schedule unit (fun _ => ret tt) half_oracle
           BehaviorAI.init "https://video.example/watch?v=1" start_cursor).
  exact half_oracle_unit.
Defined.

Lemma rotate_fingerprint_policy_witness :
  let now := clock half_oracle (tpos start_cursor) in
  let due := FingerprintRotator.expires_at aged_fingerprint < now
             \/ false = true
             \/ inject_Z 300 < now - FingerprintRotator.created_at aged_fingerprint in
  let fresh :=
    fst (FingerprintRotator.generate_fingerprint no_attributes aged_rotator
           None None half_oracle (after_clock_read start_cursor)) in
  let r :=
    fst (FingerprintRotator.rotate_fingerprint no_attributes aged_rotator
           false 300 half_oracle start_cursor) in
  (due -> r = (Some (fst fresh), snd fresh)
          /\ FingerprintRotator.current_fingerprint (snd r) = Some (fst fresh))
  /\ (~ due -> r = (None, aged_rotator))
  /\ ((exists fp, fst r = Some fp) <-> due).
Proof.
  apply (@rotate_fingerprint_policy unit no_attributes aged_rotator
           aged_fingerprint false 300 half_oracle start_cursor).
  reflexivity.
Defined.

Lemma rotate_fingerprint_without_current_witness :
  let fresh :=
    fst (FingerprintRotator.generate_fingerprint no_attributes
           (FingerprintRotator.init unit) None None half_oracle
           (after_clock_read start_cursor)) in
  let r :=
    fst (FingerprintRotator.rotate_fingerprint no_attributes
           (FingerprintRotator.init unit) false 300 half_oracle start_cursor) in
  r = (Some (fst fresh), snd fresh)
  /\ FingerprintRotator.current_fingerprint (snd r) = Some (fst fresh).
Proof.
  apply (@rotate_fingerprint_without_current unit no_attributes
           (FingerprintRotator.init unit) false 300 half_oracle start_cursor).
  reflexivity.
Defined.

(** C3, the claim as stated fails: with every draw at 0.9 the first
    point of the trajectory from (0, 0) to (100, 0) is (2, 2) and its
    last point is (102, 2). *)
Lemma mouse_trajectory_ends_are_jittered :
  let l := fst (BehaviorAI.generate_mouse_trajectory isqrt 0 0 100 0 "natural"
                  high_oracle start_cursor) in
  unit_draws high_oracle
  /\ option_map coords (nth_error l 0) = Some (2, 2)%Z
  /\ option_map coords (nth_error l 0) <> Some (0, 0)%Z
  /\ option_map coords (nth_error l (length l - 1)) = Some (102, 2)%Z
  /\ option_map coords (nth_error l (length l - 1)) <> Some (100, 0)%Z.
Proof.
  split; [exact high_oracle_unit|].
  vm_compute. repeat split; congruence.
Qed.

Lemma mouse_trajectory_count_and_ends_witness :
  let l := fst (BehaviorAI.generate_mouse_trajectory isqrt 0 0 100 0 "natural"
                  high_oracle start_cursor) in
  (10 <= length l <= 50)%nat
  /\ (exists first, nth_error l 0 = Some first
        /\ (Z.abs (BehaviorAI.x first - 0) <= 2)%Z
        /\ (Z.abs (BehaviorAI.y first - 0) <= 2)%Z)
  /\ (exists final, nth_error l (length l - 1) = Some final
        /\ (Z.abs (BehaviorAI.x final - 100) <= 2)%Z
        /\ (Z.abs (BehaviorAI.y final - 0) <= 2)%Z).
Proof.
  apply (@mouse_trajectory_count_and_ends isqrt 0 0 100 0 "natural"
           high_oracle start_cursor).
  exact high_oracle_unit.
Defined.

(** C4, the claim as stated fails for the behaviour simulator: after
    101 calls of [generate_view_session] its session history holds 101
    sessions. *)
Lemma view_session_history_exceeds_cap :
  unit_draws half_oracle
  /\ length (BehaviorAI.session_history
               (fst (view_sessions 101 BehaviorAI.init 60 half_oracle
                       start_cursor))) = 101%nat.
Proof.
  split; [exact half_oracle_unit|]. vm_compute. reflexivity.
Qed.

(** C4, as the code has it: [generate_fingerprint] keeps the last 50
    Identities of the history with the new one appended, and
    [save_session] the last 100 saved sessions, so these two lists
    never exceed 50 and 100 entries and the oldest entries go first;
    [generate_view_session] appends the new session to the behaviour
    simulator's history and evicts nothing. *)
Theorem history_lists_capped_except_view_sessions
    {Attributes SessionData : Type}
    (sample : FingerprintRotator.FingerprintType ->
              FingerprintRotator.HardwareProfile -> M Attributes)
    (rotator : FingerprintRotator.Rotator Attributes)
    (ft : option FingerprintRotator.FingerprintType)
    (hp : option FingerprintRotator.HardwareProfile)
    (stamp : list SessionData -> Q -> SessionData -> SessionData)
    (log : list SessionData) (session_data : SessionData)
    (sim : BehaviorAI.Simulator) (video_duration : Z)
    (bp : option BehaviorAI.BehaviorPattern)
    (o : Oracle) (c : Cursor) :
  unit_draws o ->
  let g := fst (FingerprintRotator.generate_fingerprint sample rotator ft hp o c) in
  let log' := fst (StealthManager.save_session stamp log session_data o c) in
  let v := fst (BehaviorAI.generate_view_session sim video_duration bp o c) in
  (FingerprintRotator.fingerprint_history (snd g)
   = last_n 50 (FingerprintRotator.fingerprint_history rotator ++ [fst g])
   /\ (length (FingerprintRotator.fingerprint_history (snd g)) <= 50)%nat)
  /\ (log' = last_n 100 (log ++ [stamp log (clock o (tpos c)) session_data])
      /\ (length log' <= 100)%nat)
  /\ (exists s, fst v = Some s
        /\ BehaviorAI.session_history (snd v)
           = BehaviorAI.session_history sim ++ [s]
        /\ length (BehaviorAI.session_history (snd v))
           = S (length (BehaviorAI.session_history sim))).
Proof.
  intros U g log' v. split; [|split].
  - pose proof (@fingerprint_history_after_generate _ sample rotator ft hp o c) as H.
    cbv zeta in H. fold g in H. split; [exact H|].
    rewrite H, last_n_length. lia.
  - pose proof (@save_session_history _ stamp log session_data o c) as H.
    cbv zeta in H. fold log' in H. split; [exact H|].
    rewrite H, last_n_length. lia.
  - destruct (@view_session_appends sim video_duration bp o c U) as [s [E H]].
    fold v in E, H. exists s. split; [exact E|]. split; [exact H|].
    rewrite H, length_app. cbn [length]. lia.
Qed.

Lemma history_lists_capped_except_view_sessions_witness :
  let g := fst (FingerprintRotator.generate_fingerprint no_attributes aged_rotator
                  None None half_oracle start_cursor) in
  let log' := fst (StealthManager.save_session (fun _ _ (n : nat) => n)
                     [1%nat; 2%nat] 3%nat half_oracle start_cursor) in
  let v := fst (BehaviorAI.generate_view_session BehaviorAI.init 60 None
                  half_oracle start_cursor) in
  (FingerprintRotator.fingerprint_history (snd g)
   = last_n 50 (FingerprintRotator.fingerprint_history aged_rotator ++ [fst g])
   /\ (length (FingerprintRotator.fingerprint_history (snd g)) <= 50)%nat)
  /\ (log' = last_n 100 ([1%nat; 2%nat] ++ [3%nat])
      /\ (length log' <= 100)%nat)
  /\ (exists s, fst v = Some s
        /\ BehaviorAI.session_history (snd v)
           = BehaviorAI.session_history BehaviorAI.init ++ [s]
        /\ length (BehaviorAI.session_history (snd v))
           = S (length (BehaviorAI.session_history BehaviorAI.init))).
Proof.
  apply (@history_lists_capped_except_view_sessions unit nat no_attributes
           aged_rotator None None (fun _ _ (n : nat) => n) [1%nat; 2%nat] 3%nat
           BehaviorAI.init 60 None half_oracle start_cursor).
  exact half_oracle_unit.
Defined.

Lemma three_failures_stop_but_status_is_failed_witness :
  let cd := fst (fst (SessionOrchestrator.execute_campaign failing_bot
                        fresh_orchestrator sample_plan half_oracle start_cursor)) in
  map (@SessionOrchestrator.sd_config _) (SessionOrchestrator.cd_sessions cd)
  = [sample_config 1 100; sample_config 2 2000; sample_config 3 4000]
  /\ SessionOrchestrator.cd_status cd = SessionOrchestrator.failed
  /\ SessionOrchestrator.cd_status cd <> SessionOrchestrator.stopped_early
  /\ SessionOrchestrator.cd_error cd = Some results_key_error.
Proof.
  apply (@three_failures_stop_but_status_is_failed unit failing_bot
           fresh_orchestrator sample_plan
           (sample_config 1 100) (sample_config 2 2000) (sample_config 3 4000)
           [sample_config 4 6000] half_oracle start_cursor).
  - reflexivity.
  - cbn. lia.
  - intros k o' c' _. eexists. split; reflexivity.
Defined.

End Scenarios.

(* ================================================================== *)
(** ** Further properties of the modelled functions *)
(* ================================================================== *)

Section CampaignExtras.
Import Py PyRandom PyList.
Import SessionOrchestrator.

Context {ViewerProfile : Type}.
Variable gen_vp : VideoAnalysis -> M ViewerProfile.
Variable bot : string -> Z -> M (SessionResult + string).

Local Abbreviation CData := (CampaignData ViewerProfile).
Local Abbreviation Plan := (OrchestrationPlan ViewerProfile).


(** The sessions the loop records are those of a prefix of the schedule,
    in order. *)
Lemma run_sessions_prefix (plan : Plan) (others : list CData) (o : Oracle)
    (schedule : list (SessionConfig ViewerProfile)) :
  forall i cd cnt peak c,
    let r := fst (run_sessions bot plan others schedule i cd cnt peak o c) in
    let cd' := snd (fst (fst r)) in
    exists k, (k <= length schedule)%nat
      /\ map (@sd_config _) (cd_sessions cd')
         = map (@sd_config _) (cd_sessions cd) ++ firstn k schedule
      /\ map (@sd_session_number _) (cd_sessions cd')
         = map (@sd_session_number _) (cd_sessions cd)
           ++ map (fun j => (i + 1 + Z.of_nat j)%Z) (seq 0 k).
Proof.
  induction schedule as [|sc rest IH]; intros i cd cnt peak c.
  - exists 0%nat. cbn. rewrite !app_nil_r. split; [lia|]. split; reflexivity.
  - cbn [run_sessions]. rewrite bind_value. cbn [time fst snd].
    rewrite bind_value.
    destruct (fst (bot (video_url plan) (i + 1)%Z o _)) as [res|e].
    + rewrite bind_value. cbn [time fst snd]. rewrite bind_value.
      match goal with
      | |- context [_should_stop_campaign ?cd1 ?cr o ?c1] =>
          destruct (_should_stop_campaign cd1 cr o c1) as [stop c2] eqn:EQS
      end.
      cbn [fst snd]. destruct stop.
      * exists 1%nat.
        cbn [ret fst snd set_status set_sessions cd_sessions length firstn seq map].
        rewrite !map_app. cbn [map sd_config sd_session_number].
        split; [lia|]. split; [reflexivity|].
        f_equal. f_equal. lia.
      * match goal with
        | |- context [run_sessions bot plan others rest ?i1 ?cd1 ?cnt1 ?pk1 o c2] =>
            specialize (IH i1 cd1 cnt1 pk1 c2)
        end.
        cbv zeta in IH. cbn [set_sessions cd_sessions] in IH.
        destruct IH as [k [K [E1 E2]]]. exists (S k).
        cbn [length firstn seq map]. rewrite E1, E2. rewrite !map_app.
        cbn [map sd_config sd_session_number].
        rewrite <- !app_assoc. cbn [app].
        split; [lia|]. split; [reflexivity|].
        f_equal. f_equal; [lia|].
        rewrite <- seq_shift, map_map. apply map_ext. intro j. lia.
    + exists 0%nat. cbn [ret fst snd firstn seq map]. rewrite !app_nil_r.
      split; [lia|]. split; reflexivity.
Qed.

(** X2: the record [execute_campaign] returns holds the sessions of a
    prefix of the plan's schedule, in schedule order and numbered from
    1: whatever ran before an early stop or an exception is kept, and
    nothing is run twice or out of order. *)
Theorem execute_campaign_keeps_schedule_prefix
    (self : Orchestrator ViewerProfile) (plan : Plan) (o : Oracle) (c : Cursor) :
  let cd := fst (fst (execute_campaign bot self plan o c)) in
  exists k, (k <= length (session_schedule plan))%nat
    /\ map (@sd_config _) (cd_sessions cd) = firstn k (session_schedule plan)
    /\ map (@sd_session_number _) (cd_sessions cd)
       = map (fun j => Z.of_nat (S j)) (seq 0 k).
Proof.
  pose proof (@execute_campaign_ends_in_except _ bot self plan o c) as X.
  cbv zeta in X |- *. destruct X as [_ [_ [X3 _]]]. rewrite X3.
  match goal with
  | |- context [run_sessions bot plan ?ot ?sch ?i ?cd0 ?cnt ?pk o ?c1] =>
      destruct (@run_sessions_prefix plan ot o sch i cd0 cnt pk c1)
        as [k [K [E1 E2]]]
  end.
  exists k. split; [exact K|]. split.
  - rewrite E1. reflexivity.
  - rewrite E2. cbn [cd_sessions map app]. apply map_ext. intro j. lia.
Qed.

(** X3: with the criteria [_create_success_criteria] builds
    ([max_consecutive_failures = 2]) the campaign stops as soon as two
    of its last three sessions have failed, consecutive or not, and
    the decision reads no clock. *)
Theorem default_criteria_stop_on_two_of_last_three
    (cd : CData) (num_sessions : Z) (p : SessionPriority)
    (o : Oracle) (c : Cursor) :
  (3 <= length (cd_sessions cd))%nat ->
  (2 <= count_failed (last_n 3 (cd_sessions cd)))%Z ->
  _should_stop_campaign cd (_create_success_criteria num_sessions p) o c
  = (true, c).
Proof.
  intros L F. apply should_stop_recent_failures; [exact L|].
  destruct p; exact F.
Qed.

End CampaignExtras.

Section SelectionExtras.
Import Py PyRandom PyList.
Import BehaviorAI.

(** X4: in context mode [select_behavior_pattern] reads no random draw
    and returns a pattern of maximal score; among patterns of equal
    score the one declared first in [BehaviorPattern] wins, and only
    the usage counter of the selected pattern is incremented. *)
Theorem context_selection_is_first_maximum
    (self : Simulator) (ctx : Context) (o : Oracle) (c : Cursor) :
  let r := select_behavior_pattern self (Some ctx) o c in
  let p := fst (fst r) in
  let score q := pattern_score ctx (behavior_models q) in
  snd r = c
  /\ (forall q, score q <= score p)
  /\ (forall q, (pattern_rank q < pattern_rank p)%nat -> score q < score p)
  /\ pattern_usage (snd (fst r)) p = (pattern_usage self p + 1)%Z
  /\ (forall q, q <> p -> pattern_usage (snd (fst r)) q = pattern_usage self q).
Proof.
  unfold select_behavior_pattern. rewrite bind_value.
  cbn [all_patterns map py_max max_from snd fst ret].
  set (s1 := pattern_score ctx (behavior_models CASUAL_BROWSING)).
  set (s2 := pattern_score ctx (behavior_models FOCUSED_WATCHING)).
  set (s3 := pattern_score ctx (behavior_models MULTITASKING)).
  set (s4 := pattern_score ctx (behavior_models RESEARCH_MODE)).
  set (s5 := pattern_score ctx (behavior_models ENTERTAINMENT)).
  cbv zeta.
  destruct (Qlt_bool s1 s2) eqn:E1; cbn [fst snd];
  match goal with
  | |- context [Qlt_bool ?a s3] => destruct (Qlt_bool a s3) eqn:E2
  end; cbn [fst snd];
  match goal with
  | |- context [Qlt_bool ?a s4] => destruct (Qlt_bool a s4) eqn:E3
  end; cbn [fst snd];
  match goal with
  | |- context [Qlt_bool ?a s5] => destruct (Qlt_bool a s5) eqn:E4
  end; cbn [fst snd];
  repeat match goal with
         | H : Qlt_bool _ _ = true |- _ => apply Qlt_bool_true in H
         | H : Qlt_bool _ _ = false |- _ => apply Qlt_bool_false in H
         end;
    (split; [reflexivity|]);
    (split; [intro q; destruct q; fold s1 s2 s3 s4 s5; lra|]);
    (split; [intros q R; destruct q; cbn in R; try lia;
             fold s1 s2 s3 s4 s5; lra|]);
    (split; [reflexivity|]);
    intros q N; destruct q; try congruence; reflexivity.
Qed.

End SelectionExtras.

Section AttentionExtras.
Import Py PyRandom PyList.
Import BehaviorAI.

(** X5: [generate_attention_pattern] with a shape name that is not a key
    of the attention table raises [KeyError] before any draw is read;
    with no shape ([None] or the empty string) it draws one of the five
    shapes and returns between 2 and 9 values, all in [0.1, 1.0]. *)
Theorem attention_pattern_unknown_or_missing_shape
    (duration : Z) (pattern_type : option string) (o : Oracle) (c : Cursor) :
  unit_draws o ->
  let r := generate_attention_pattern duration pattern_type o c in
  match pattern_type with
  | Some (String a s) =>
      dict_lookup (String a s) attention_models = None -> r = (None, c)
  | _ =>
      exists l, fst r = Some l
        /\ (2 <= length l <= 9)%nat
        /\ Forall (fun v => 1 # 10 <= v /\ v <= 1) l
  end.
Proof.
  intros U r.
  assert (MISSING : exists l, fst (generate_attention_pattern duration None o c) = Some l
            /\ (2 <= length l <= 9)%nat
            /\ Forall (fun v => 1 # 10 <= v /\ v <= 1) l).
  { unfold generate_attention_pattern.
    rewrite bind_value.
    set (name := fst (choice "" (map fst attention_models) o c)).
    set (c1 := snd (choice "" (map fst attention_models) o c)).
    assert (I : In name (map fst attention_models))
      by (apply choice_In; [exact U|discriminate]).
    assert (L : exists base, dict_lookup name attention_models = Some base).
    { unfold attention_models in I. cbn [map fst In] in I.
      destruct I as [<-|[<-|[<-|[<-|[<-|[]]]]]]; eexists; reflexivity. }
    destruct L as [base L].
    destruct (attention_lookup_cases _ L) as [_ LEN].
    pose proof (@attention_pattern_shape duration name base o c1 L) as S.
    unfold generate_attention_pattern in S.
    destruct (attention_lookup_cases _ L) as [NE _]. rewrite NE in S.
    rewrite bind_value in S. cbn [ret fst snd] in S.
    destruct S as [l [E [N F]]]. exists l. split; [exact E|]. split; [lia|exact F]. }
  unfold r. destruct pattern_type as [[|a s]|].
  - exact MISSING.
  - intro K. unfold generate_attention_pattern. cbn [String.eqb].
    rewrite bind_value. cbn [ret fst snd]. rewrite K. reflexivity.
  - exact MISSING.
Qed.

End AttentionExtras.

Section ViewSessionExtras.
Import Py PyRandom PyList.
Import BehaviorAI.

Lemma watch_completion_range (p : BehaviorPattern) :
  0 <= fst (watch_completion (behavior_models p))
  /\ fst (watch_completion (behavior_models p))
     <= snd (watch_completion (behavior_models p))
  /\ snd (watch_completion (behavior_models p)) <= 1.
Proof. destruct p; cbn; lra. Qed.

Lemma always_attention (o : Oracle) (d : Z) (name : string) (base : list Q) :
  dict_lookup name attention_models = Some base ->
  always o (generate_attention_pattern d (Some name))
    (fun r => exists l, r = Some l
                /\ (2 <= length l <= 9)%nat
                /\ Forall (fun v => 1 # 10 <= v /\ v <= 1) l).
Proof.
  intros L c. destruct (attention_pattern_shape d name o c L) as [l [E [N F]]].
  destruct (attention_lookup_cases _ L) as [_ B].
  exists l. split; [exact E|]. split; [lia|exact F].
Qed.

(** X6: a view session generated for a given pattern over a video of
    non-negative length keeps to the pattern's declared ranges: the
    retention rate lies in the pattern's [watch_completion] interval,
    the watch time is the truncation of duration times retention and
    lies in [0, video_duration], the attention curve has 2 to 9 values
    in [0.1, 1.0], and the engagement actions are ordered by time. *)
Theorem view_session_within_pattern_ranges
    (sim : Simulator) (d : Z) (p : BehaviorPattern) (o : Oracle) (c : Cursor) :
  unit_draws o -> (0 <= d)%Z ->
  exists s,
    fst (fst (generate_view_session sim d (Some p) o c)) = Some s
    /\ fst (watch_completion (behavior_models p)) <= retention_rate s
    /\ retention_rate s <= snd (watch_completion (behavior_models p))
    /\ watch_time s = int (inject_Z d * retention_rate s)
    /\ (0 <= watch_time s <= d)%Z
    /\ video_duration s = d
    /\ (2 <= length (attention_pattern s) <= 9)%nat
    /\ Forall (fun v => 1 # 10 <= v /\ v <= 1) (attention_pattern s)
    /\ Sorted (by_key action_time) (engagement_actions s).
Proof.
  intros U D.
  enough (A : always o (generate_view_session sim d (Some p))
                (fun r => exists s,
                   fst r = Some s
                   /\ fst (watch_completion (behavior_models p)) <= retention_rate s
                   /\ retention_rate s <= snd (watch_completion (behavior_models p))
                   /\ watch_time s = int (inject_Z d * retention_rate s)
                   /\ (0 <= watch_time s <= d)%Z
                   /\ video_duration s = d
                   /\ (2 <= length (attention_pattern s) <= 9)%nat
                   /\ Forall (fun v => 1 # 10 <= v /\ v <= 1) (attention_pattern s)
                   /\ Sorted (by_key action_time) (engagement_actions s)))
    by apply (A c).
  unfold generate_view_session. cbv zeta.
  step_with (fun ps : BehaviorPattern * Simulator => ps = (p, sim)).
  { apply always_ret. reflexivity. }
  subst a. cbn [fst snd].
  destruct (watch_completion_range p) as [W0 [W1 W2]].
  step_with (fun v : Q => fst (watch_completion (behavior_models p)) <= v
                          /\ v <= snd (watch_completion (behavior_models p))).
  { apply always_uniform; assumption. }
  destruct H as [R1 R2].
  step_with (fun name : string =>
               exists base, dict_lookup name attention_models = Some base).
  { destruct p; try (apply always_ret; eexists; reflexivity).
    all: intro c0;
      destruct (@choice_In _ "" ["medium_attention"; "spikey_attention"] o c0 U)
        as [<-|[<-|[]]]; [discriminate| |]; eexists; reflexivity. }
  destruct H as [base L].
  step_with (fun r : option (list Q) =>
               exists l, r = Some l
                 /\ (2 <= length l <= 9)%nat
                 /\ Forall (fun v => 1 # 10 <= v /\ v <= 1) l).
  { apply always_attention with (base := base). exact L. }
  destruct H as [l [-> [N F]]].
  step_with (Sorted (by_key action_time)).
  { apply engagement_actions_sorted. }
  do 2 step_any. apply always_ret.
  eexists. split; [reflexivity|].
  cbn [retention_rate watch_time video_duration attention_pattern
         engagement_actions].
  assert (DQ : 0 <= inject_Z d).
  { change 0 with (inject_Z 0). rewrite <- Zle_Qle. exact D. }
  assert (X0 : 0 <= inject_Z d * a) by nra.
  assert (X1 : inject_Z d * a <= inject_Z d) by nra.
  repeat split; try assumption; try lia.
  - rewrite int_nonneg_floor by exact X0.
    change 0%Z with (Qfloor 0). apply Qfloor_resp_le. exact X0.
  - rewrite int_nonneg_floor by exact X0.
    pose proof (Qfloor_resp_le _ _ X1) as Y. rewrite Qfloor_Z in Y. exact Y.
Qed.

End ViewSessionExtras.

Section EngagementExtras.
Import Py PyRandom PyList.
Import BehaviorAI.

Lemma always_choice_In (o : Oracle) {A} (d : A) (l : list A) :
  unit_draws o -> l <> [] -> always o (choice d l) (fun v => In v l).
Proof. intros U NE c. apply choice_In; assumption. Qed.

Lemma always_if (o : Oracle) {A} (b : bool) (m1 m2 : M A) (P : A -> Prop) :
  always o m1 P -> always o m2 P -> always o (if b then m1 else m2) P.
Proof. destruct b; auto. Qed.

(** X7: for a watch time of at least 60 seconds every generated
    engagement action keeps to its declared ranges: clicks fall in
    [10, wt-10], scrolls in [5, wt-5], pauses in [15, wt-15], quality
    changes in [30, wt-30], volume changes in [20, wt-20], and the
    durations, amounts, speeds and labels are those of the source's
    intervals and lists. *)
Theorem engagement_actions_within_ranges
    (p : BehaviorPattern) (watch_time : Z) (o : Oracle) (c : Cursor) :
  unit_draws o -> (60 <= watch_time)%Z ->
  Forall (action_in_range (inject_Z watch_time))
    (fst (_generate_engagement_actions p watch_time o c)).
Proof.
  intros U W.
  assert (WQ : 60 <= inject_Z watch_time).
  { change 60 with (inject_Z 60). rewrite <- Zle_Qle. exact W. }
  enough (A : always o (_generate_engagement_actions p watch_time)
                (Forall (action_in_range (inject_Z watch_time))))
    by apply (A c).
  unfold _generate_engagement_actions. cbv zeta.
  do 3 step_any.
  step_with (Forall (action_in_range (inject_Z watch_time))).
  { apply always_replicateM_all.
    step_with (fun t : Q => 10 <= t /\ t <= inject_Z watch_time - 10).
    { apply always_uniform; [exact U|lra]. }
    step_with (fun e : string =>
                 In e ["video"; "like"; "subscribe"; "comment"; "share"]).
    { apply always_choice_In; [exact U|discriminate]. }
    step_with (fun d : Q => 1 # 10 <= d /\ d <= 5 # 10).
    { apply always_uniform; [exact U|lra]. }
    apply always_ret. cbn [action_in_range]. tauto. }
  step_with (Forall (action_in_range (inject_Z watch_time))).
  { apply always_replicateM_all.
    step_with (fun t : Q => 5 <= t /\ t <= inject_Z watch_time - 5).
    { apply always_uniform; [exact U|lra]. }
    step_with (fun e : string => In e ["up"; "down"]).
    { apply always_choice_In; [exact U|discriminate]. }
    step_with (fun z : Z => (100 <= z <= 500)%Z).
    { apply always_randint; [exact U|lia]. }
    step_with (fun d : Q => 50 <= d /\ d <= 300).
    { apply always_uniform; [exact U|lra]. }
    apply always_ret. cbn [action_in_range]. tauto. }
  step_with (Forall (action_in_range (inject_Z watch_time))).
  { apply always_replicateM_all.
    step_with (fun t : Q => 15 <= t /\ t <= inject_Z watch_time - 15).
    { apply always_uniform; [exact U|lra]. }
    step_with (fun d : Q => 2 <= d /\ d <= 10).
    { apply always_uniform; [exact U|lra]. }
    apply always_ret. cbn [action_in_range]. tauto. }
  step_any.
  step_with (Forall (action_in_range (inject_Z watch_time))).
  { apply always_if; [|apply always_ret; constructor].
    step_with (fun t : Q => 30 <= t /\ t <= inject_Z watch_time - 30).
    { apply always_uniform; [exact U|lra]. }
    step_with (fun e : string => In e ["360p"; "480p"; "720p"]).
    { apply always_choice_In; [exact U|discriminate]. }
    step_with (fun e : string => In e ["480p"; "720p"; "1080p"]).
    { apply always_choice_In; [exact U|discriminate]. }
    apply always_ret. constructor; [|constructor].
    cbn [action_in_range]. tauto. }
  step_any.
  step_with (Forall (action_in_range (inject_Z watch_time))).
  { apply always_if; [|apply always_ret; constructor].
    step_any. apply always_replicateM_all.
    step_with (fun t : Q => 20 <= t /\ t <= inject_Z watch_time - 20).
    { apply always_uniform; [exact U|lra]. }
    step_with (fun z : Z => (-30 <= z <= 30)%Z).
    { apply always_randint; [exact U|lia]. }
    apply always_ret. cbn [action_in_range]. tauto. }
  apply always_ret.
  eapply Permutation_Forall; [apply sort_by_perm|].
  repeat apply Forall_app_intro; assumption.
Qed.

Lemma fourth_draw_low_unit : unit_draws fourth_draw_low.
Proof.
  intro n. cbn. destruct (Nat.eqb n 3); split;
    try (apply Qle_bool_iff; reflexivity);
    apply (proj1 (Qlt_bool_true _ _)); reflexivity.
Qed.

Lemma int_zero (q : Q) : 0 <= q -> q < 1 -> int q = 0%Z.
Proof.
  intros L H. rewrite int_nonneg_floor by exact L.
  pose proof (@Qfloor_bounds q 0 1 L H). lia.
Qed.

(** X8: a short watch time breaks the window: for a watch time of 0 to
    26 seconds there are draws (the fourth one 0, all others 0.9) for
    which the only engagement action generated for a focused viewer is
    a quality change whose timestamp is negative. *)
Theorem short_watch_quality_change_before_start
    (watch_time : Z) (c : Cursor) :
  (0 <= watch_time <= 26)%Z -> rpos c = 0%nat ->
  unit_draws fourth_draw_low
  /\ exists t,
       fst (_generate_engagement_actions FOCUSED_WATCHING watch_time
              fourth_draw_low c)
       = [QualityChange t "720p" "1080p"]
       /\ t < 0.
Proof.
  intros W R. split; [apply fourth_draw_low_unit|].
  assert (W0 : 0 <= inject_Z watch_time).
  { change 0 with (inject_Z 0). rewrite <- Zle_Qle. lia. }
  assert (W1 : inject_Z watch_time <= 26).
  { change 26 with (inject_Z 26). rewrite <- Zle_Qle. lia. }
  destruct c as [rp tp]. cbn in R. subst rp.
  unfold _generate_engagement_actions. cbv zeta.
  do 3 (rewrite bind_value; cbv beta; rewrite uniform_value; cbn [fst snd rpos tpos]).
  cbn [behavior_models click_frequency scroll_frequency pause_frequency
         fst snd fourth_draw_low rand fourth_draw_low Nat.eqb].
  rewrite (@int_zero (inject_Z watch_time * ((5 # 100) + ((15 # 100) - (5 # 100)) * (9 # 10)) / 60))
    by (unfold Qdiv; change (/ 60) with (1 # 60); nra).
  rewrite (@int_zero (inject_Z watch_time * ((1 # 2) + (2 - (1 # 2)) * (9 # 10)) / 60))
    by (unfold Qdiv; change (/ 60) with (1 # 60); nra).
  rewrite (@int_zero (inject_Z watch_time * ((8 # 10) + (2 - (8 # 10)) * (9 # 10)) / 60))
    by (unfold Qdiv; change (/ 60) with (1 # 60); nra).
  cbn [Z.to_nat replicateM].
  do 3 (rewrite bind_value; cbv beta; cbn [ret fst snd]).
  rewrite bind_value. cbv beta. cbn [random fst snd rpos tpos rand fourth_draw_low Nat.eqb].
  change (Qlt_bool 0 (1 # 10)) with true. cbv iota.
  rewrite bind_value. cbv beta.
  rewrite (bind_value (uniform 30 (inject_Z watch_time - 30))).
  rewrite uniform_value. cbn [fst snd rpos tpos rand fourth_draw_low Nat.eqb].
  do 2 (rewrite bind_value; cbv beta).
  unfold choice at 1 2. do 2 (rewrite bind_value; cbv beta).
  cbn [random ret fst snd rpos tpos rand fourth_draw_low Nat.eqb length].
  change (Z.to_nat (Qfloor ((9 # 10) * inject_Z (Z.of_nat 3)))) with 2%nat.
  cbn [nth].
  rewrite bind_value. cbv beta. cbn [random fst snd rpos tpos rand fourth_draw_low Nat.eqb].
  change (Qlt_bool (9 # 10) (3 # 10)) with false. cbv iota.
  rewrite bind_value. cbv beta. cbn [ret fst snd app sort_by insert_by].
  eexists. split; [reflexivity|]. nra.
Qed.

End EngagementExtras.

Section TrajectoryExtras.
Import Py PyRandom PyList.
Import BehaviorAI.

Lemma trajectory_step_time (o : Oracle) (style : string) (pat : MousePattern)
    (sx sy ex ey : Z) (cps : list (Q * Q)) (dist : Q) (n : Z) (ct : Q) (i : Z)
    (c : Cursor) :
  unit_draws o -> 0 <= dist -> (0 < n)%Z ->
  let r := fst (trajectory_step style pat sx sy ex ey cps dist n ct i o c) in
  timestamp (fst r) = ct /\ 0 <= duration (fst r) /\ ct <= snd r.
Proof.
  intros U D N. unfold trajectory_step. cbv zeta.
  destruct (bezier_point sx sy ex ey cps (inject_Z i / inject_Z (n - 1)))
    as [x0 y0].
  assert (NQ : 0 < inject_Z n).
  { change 0 with (inject_Z 0). rewrite <- Zlt_Qlt. exact N. }
  assert (MD : forall speed,
             0 <= (if Qlt_bool 0 speed then dist / (inject_Z n * speed)
                   else 1 # 100)).
  { intro speed. destruct (Qlt_bool 0 speed) eqn:E; [|lra].
    apply Qlt_bool_true in E. apply Qle_shift_div_l; nra. }
  rewrite bind_value. cbv beta. rewrite bind_value. cbv beta.
  rewrite bind_value. cbv beta. rewrite bind_value. cbv beta.
  rewrite bind_value. cbv beta. rewrite bind_value. cbv beta.
  cbn [ret fst snd timestamp duration].
  split; [reflexivity|]. split; [apply MD|].
  match goal with
  | |- ct <= fst ((if ?b then _ else _) o ?c0) =>
      destruct b
  end.
  - rewrite bind_value. cbn [ret fst].
    match goal with
    | |- context [uniform (5 # 100) (2 # 10) o ?c0] =>
        pose proof (@uniform_bounds (5 # 100) (2 # 10) o c0 U)
    end.
    match goal with
    | |- context [if Qlt_bool 0 ?sp then _ else _] => pose proof (MD sp)
    end.
    lra.
  - cbn [ret fst].
    match goal with
    | |- context [if Qlt_bool 0 ?sp then _ else _] => pose proof (MD sp)
    end.
    lra.
Qed.

Lemma trajectory_loop_times (o : Oracle)
    (step : Q -> Z -> M (MouseAction * Q)) (indices : list Z) :
  (forall ct i c,
     let r := fst (step ct i o c) in
     timestamp (fst r) = ct /\ 0 <= duration (fst r) /\ ct <= snd r) ->
  forall ct c,
    let l := fst (trajectory_loop step ct indices o c) in
    Sorted (by_key timestamp) l
    /\ Forall (fun a => ct <= timestamp a /\ 0 <= duration a) l.
Proof.
  intro H. induction indices as [|i indices IH]; intros ct c.
  - cbn. split; constructor.
  - cbn [trajectory_loop]. rewrite !bind_value. cbn [ret fst].
    destruct (H ct i c) as [T [D L]].
    specialize (IH (snd (fst (step ct i o c))) (snd (step ct i o c))).
    cbv zeta in IH. destruct IH as [S F].
    split.
    + constructor; [exact S|].
      destruct (fst (trajectory_loop step _ indices o _)) as [|b l'];
        constructor.
      inversion F; subst. unfold by_key. rewrite T. lra.
    + constructor; [rewrite T; split; [lra|exact D]|].
      eapply Forall_impl; [|exact F]. cbv beta. intros a [A1 A2]. split; lra.
Qed.

(** X9: when the square root is non-negative, the points of a mouse
    trajectory carry non-decreasing timestamps that start at the clock
    read of the call, and non-negative durations. *)
Theorem mouse_trajectory_timestamps_nondecreasing (sqrt : Q -> Q)
    (start_x start_y end_x end_y : Z) (style : string)
    (o : Oracle) (c : Cursor) :
  unit_draws o -> (forall q, 0 <= sqrt q) ->
  let l := fst (generate_mouse_trajectory sqrt start_x start_y end_x end_y
                  style o c) in
  Sorted (by_key timestamp) l
  /\ Forall (fun a => clock o (tpos c) <= timestamp a /\ 0 <= duration a) l
  /\ option_map timestamp (nth_error l 0) = Some (clock o (tpos c)).
Proof.
  intros U SQ. unfold generate_mouse_trajectory. cbv zeta.
  rewrite bind_value. cbn [time fst snd]. rewrite bind_value.
  set (dist := sqrt _).
  pose proof (num_points_bounds dist) as NB.
  set (n := num_points_for dist) in *.
  match goal with
  | |- context [trajectory_loop ?step ?ct (range n) o ?c1] =>
      pose proof (@trajectory_loop_times o step (range n)) as T;
      set (stepf := step) in *
  end.
  assert (ST : forall ct i c0,
             let r := fst (stepf ct i o c0) in
             timestamp (fst r) = ct /\ 0 <= duration (fst r) /\ ct <= snd r).
  { intros ct i c0. apply trajectory_step_time; [exact U|apply SQ|lia]. }
  specialize (T ST). split; [apply T|]. split; [apply T|].
  destruct (@range_positive n) as [rest [E _]]; [lia|]. rewrite E.
  cbn [trajectory_loop]. rewrite !bind_value. cbn [ret fst nth_error option_map].
  f_equal. apply ST.
Qed.


End TrajectoryExtras.

Section PlanExtras.
Import Py PyRandom PyList.
Import SessionOrchestrator.

Context {ViewerProfile : Type}.
Variable gen_vp : VideoAnalysis -> M ViewerProfile.

(** X11: [_create_session_schedule] builds one entry per requested
    session (none for a count of zero or less); the first session starts
    60 to 300 seconds after the clock read, and every later session
    starts at least the minimum and at most the maximum gap of the
    priority after its predecessor. *)
Theorem schedule_entries_spaced_by_priority (o : Oracle)
    (ai : BehaviorAI.Simulator) (n : Z) (p : SessionPriority)
    (va : VideoAnalysis) (c : Cursor) :
  unit_draws o ->
  let l := fst (fst (_create_session_schedule gen_vp ai n p va o c)) in
  let now := clock o (tpos c) in
  length l = Z.to_nat n
  /\ match l with
     | [] => True
     | e :: l' =>
         now + 60 <= scheduled_start e /\ scheduled_start e <= now + 300
         /\ spaced (fst (gap_bounds p)) (snd (gap_bounds p)) (scheduled_start e) l'
     end.
Proof. apply session_schedule_spacing. Qed.

Lemma py_sum_from (l : list Q) (acc : Q) :
  fold_left Qplus l acc == acc + Qsum l.
Proof.
  revert acc. induction l as [|a l IH]; intro acc; cbn [fold_left Qsum fold_right].
  - ring.
  - rewrite IH. fold (Qsum l). ring.
Qed.

Lemma py_sum_Qsum (l : list Q) : py_sum l == Qsum l.
Proof. unfold py_sum. rewrite py_sum_from. ring. Qed.

Lemma Qsum_scaled (l : list (string * Q)) (t : Q) :
  Qsum (map snd (map (fun kv : string * Q => (fst kv, snd kv / t)) l))
  == Qsum (map snd l) / t.
Proof.
  induction l as [|[k v] l IH]; cbn [map Qsum fold_right fst snd].
  - unfold Qdiv. ring.
  - fold (Qsum (map snd (map (fun kv : string * Q => (fst kv, snd kv / t)) l))).
    fold (Qsum (map snd l)). rewrite IH. unfold Qdiv. ring.
Qed.

Lemma normalise_sums_to_one (cat : list (string * Q)) :
  0 < Qsum (map snd cat) ->
  Qsum (map snd (normalise cat)) == 1
  /\ map fst (normalise cat) = map fst cat.
Proof.
  intro P. unfold normalise.
  assert (T : 0 < py_sum (map snd cat)) by (rewrite py_sum_Qsum; exact P).
  apply Qlt_bool_true in T. rewrite T. split.
  - rewrite Qsum_scaled. rewrite py_sum_Qsum. field. lra.
  - rewrite map_map. reflexivity.
Qed.

Lemma draw_category_positive (o : Oracle) (ranges : list (string * (Q * Q))) :
  unit_draws o ->
  Forall (fun kr => 0 < fst (snd kr) /\ fst (snd kr) <= snd (snd kr)) ranges ->
  ranges <> [] ->
  always o (draw_category ranges)
    (fun cat => 0 < Qsum (map snd cat) /\ map fst cat = map fst ranges).
Proof.
  intros U F NE c. unfold draw_category. revert c.
  induction F as [|[k [lo hi]] rs [H1 H2] F IH]; [congruence|]. intro c.
  cbn [fst snd] in H1, H2.
  pose proof (@uniform_bounds lo hi o c U H2) as B.
  cbn [mapM]. rewrite bind_value. cbv beta. cbn [fst snd].
  rewrite (bind_value (uniform lo hi)). cbv beta.
  set (v := fst (uniform lo hi o c)) in *.
  set (c1 := snd (uniform lo hi o c)) in *.
  cbn [ret fst snd]. rewrite bind_value. cbn [ret fst snd map Qsum fold_right].
  destruct rs as [|r rs].
  - cbn [mapM ret fst map fold_right]. split; [lra|reflexivity].
  - destruct (IH ltac:(discriminate) c1) as [I1 I2].
    split.
    + unfold Qsum in I1. lra.
    + f_equal. exact I2.
Qed.

(** X12: the audience demographics of [_get_audience_demographics] are
    probability tables: in each of the four categories the weights sum
    to one after normalisation, and the keys are the source's, in
    order. *)
Theorem audience_demographics_are_normalised (o : Oracle) (c : Cursor) :
  unit_draws o ->
  let d := fst (_get_audience_demographics o c) in
  Qsum (map snd (age_groups d)) == 1
  /\ Qsum (map snd (genders d)) == 1
  /\ Qsum (map snd (devices d)) == 1
  /\ Qsum (map snd (locations d)) == 1
  /\ map fst (age_groups d) = ["13-17"; "18-24"; "25-34"; "35-44"; "45+"]
  /\ map fst (genders d) = ["male"; "female"; "other"]
  /\ map fst (devices d) = ["mobile"; "desktop"; "tablet"; "tv"]
  /\ map fst (locations d) = ["US"; "IN"; "GB"; "DE"; "Others"].
Proof.
  intro U.
  enough (A : always o _get_audience_demographics
                (fun d =>
                   Qsum (map snd (age_groups d)) == 1
                   /\ Qsum (map snd (genders d)) == 1
                   /\ Qsum (map snd (devices d)) == 1
                   /\ Qsum (map snd (locations d)) == 1
                   /\ map fst (age_groups d) = ["13-17"; "18-24"; "25-34"; "35-44"; "45+"]
                   /\ map fst (genders d) = ["male"; "female"; "other"]
                   /\ map fst (devices d) = ["mobile"; "desktop"; "tablet"; "tv"]
                   /\ map fst (locations d) = ["US"; "IN"; "GB"; "DE"; "Others"]))
    by apply (A c).
  unfold _get_audience_demographics.
  eapply always_bind.
  { apply draw_category_positive; [exact U| |discriminate].
    repeat constructor; cbn; lra. }
  intros a [A1 A2].
  eapply always_bind.
  { apply draw_category_positive; [exact U| |discriminate].
    repeat constructor; cbn; lra. }
  intros g [G1 G2].
  eapply always_bind.
  { apply draw_category_positive; [exact U| |discriminate].
    repeat constructor; cbn; lra. }
  intros d [D1 D2].
  eapply always_bind.
  { apply draw_category_positive; [exact U| |discriminate].
    repeat constructor; cbn; lra. }
  intros l [L1 L2].
  apply always_ret. cbn [age_groups genders devices locations].
  destruct (normalise_sums_to_one a A1) as [NA1 NA2].
  destruct (normalise_sums_to_one g G1) as [NG1 NG2].
  destruct (normalise_sums_to_one d D1) as [ND1 ND2].
  destruct (normalise_sums_to_one l L1) as [NL1 NL2].
  rewrite NA2, NG2, ND2, NL2, A2, G2, D2, L2.
  repeat split; assumption.
Qed.

(** X13: [_assess_campaign_risk] clamps only the overall risk: it lies
    in [0.08, 0.95], while the five sub-scores are fixed fractions of
    the unclamped level, so that the detection risk reaches 1.056 (a
    test campaign of more than ten sessions on entertainment content);
    at most five mitigation strategies are listed. *)
Theorem campaign_risk_bounds (num_sessions : Z) (p : SessionPriority)
    (va : VideoAnalysis) :
  let r := _assess_campaign_risk num_sessions p va in
  8 # 100 <= overall_risk r /\ overall_risk r <= 95 # 100
  /\ detection_risk r <= 1056 # 1000
  /\ technical_risk r == detection_risk r * (1 # 2)
  /\ timing_risk r == detection_risk r * (3 # 4)
  /\ behavioral_risk r == detection_risk r * (7 # 8)
  /\ network_risk r == detection_risk r * (5 # 8)
  /\ (overall_risk r < 95 # 100 -> detection_risk r == overall_risk r * (8 # 10))
  /\ (10 < num_sessions -> p = TEST -> va_content_type va = "entertainment" ->
      detection_risk r == 1056 # 1000)%Z
  /\ (2 <= length (mitigation_strategies r) <= 5)%nat.
Proof.
  unfold _assess_campaign_risk. cbv zeta.
  cbn [overall_risk detection_risk technical_risk timing_risk behavioral_risk
         network_risk mitigation_strategies].
  set (lvl := if BehaviorAI.str_in (va_content_type va) ["educational"; "documentary"]
              then _ else _).
  assert (B : 8 # 100 <= lvl /\ lvl <= 132 # 100).
  { unfold lvl.
    destruct (10 <? num_sessions)%Z; [|destruct (5 <? num_sessions)%Z];
      destruct (BehaviorAI.str_in _ _); try destruct (_ =? _);
      destruct p; cbn; split; lra. }
  destruct B as [B1 B2].
  split; [|split; [|split; [|split; [|split; [|split; [|split; [|split; [|split]]]]]]]].
  - destruct (Qmin_cases (95 # 100) lvl) as [[? ->]|[? ->]]; lra.
  - apply Qmin_upper.
  - lra.
  - ring.
  - ring.
  - ring.
  - ring.
  - intro H. destruct (Qmin_cases (95 # 100) lvl) as [[? E]|[? E]];
      rewrite E in *; [lra|ring].
  - intros N -> CT. unfold lvl. rewrite CT.
    apply Z.ltb_lt in N. rewrite N. cbn. reflexivity.
  - unfold _get_mitigation_strategies. cbv zeta.
    rewrite length_firstn.
    destruct (Qlt_bool (7 # 10) lvl); destruct (Qlt_bool (5 # 10) lvl);
      destruct p; cbn; lia.
Qed.

End PlanExtras.

Section RotatorExtras.
Import Py PyRandom PyList.
Import FingerprintRotator.

Context {Attributes : Type}.
Variable sample : FingerprintType -> HardwareProfile -> M Attributes.

Lemma last_map_last_n {A B} (f : A -> B) (n : nat) (l : list A) (x : A) (d : B) :
  (0 < n)%nat -> last (map f (last_n n (l ++ [x]))) d = f x.
Proof.
  intro N. unfold last_n.
  rewrite length_app. cbn [length].
  rewrite skipn_app.
  replace (length l + 1 - n - length l)%nat with 0%nat by lia.
  cbn [skipn]. rewrite map_app. cbn [map]. apply last_last.
Qed.

Lemma generate_keeps_ok (self : Rotator Attributes)
    (ft : option FingerprintType) (hp : option HardwareProfile)
    (o : Oracle) (c : Cursor) :
  rotator_ok self ->
  rotator_ok (snd (fst (generate_fingerprint sample self ft hp o c))).
Proof.
  intros [L [G C]].
  pose proof (@fingerprint_history_after_generate _ sample self ft hp o c) as H.
  pose proof (@generate_sets_current _ sample self ft hp o c) as K.
  cbv zeta in H, K.
  assert (S : fingerprints_generated
                (stats (snd (fst (generate_fingerprint sample self ft hp o c))))
              = (fingerprints_generated (stats self) + 1)%Z).
  { unfold generate_fingerprint. cbv zeta.
    repeat (rewrite bind_value; cbv beta). reflexivity. }
  unfold rotator_ok. rewrite H, K, S. split; [|split].
  - rewrite last_n_length, length_app. cbn [length]. lia.
  - lia.
  - symmetry. apply last_map_last_n. lia.
Qed.

(** X14: in every rotator that calls of [generate_fingerprint],
    [rotate_fingerprint], [get_fingerprint_for_playwright] and
    [get_fingerprint_for_session] lead to from a new one, the history
    holds [min(50, fingerprints_generated)] Identities and the current
    Identity is the newest entry of the history (there is none exactly
    when nothing has been generated). *)
Theorem reachable_rotator_history (o : Oracle) (self : Rotator Attributes) :
  rotator_reachable sample o self ->
  Z.of_nat (length (fingerprint_history self))
  = Z.min 50 (fingerprints_generated (stats self))
  /\ (length (fingerprint_history self) <= 50)%nat
  /\ current_fingerprint self = last (map Some (fingerprint_history self)) None
  /\ (current_fingerprint self = None <-> fingerprints_generated (stats self) = 0%Z).
Proof.
  intro R.
  assert (OK : rotator_ok self).
  { induction R as [|self ft hp c R IH|self force mt c R IH|self c R IH
                    |self st c R IH].
    - unfold rotator_ok. cbn. split; [reflexivity|]. split; [lia|reflexivity].
    - apply generate_keeps_ok. exact IH.
    - unfold rotate_fingerprint. rewrite bind_value. cbn [time fst snd].
      destruct (current_fingerprint self) as [cur|].
      + destruct (Qlt_bool _ _);
          [rewrite bind_value; cbn [ret fst snd]; apply generate_keeps_ok; exact IH|].
        destruct force;
          [rewrite bind_value; cbn [ret fst snd]; apply generate_keeps_ok; exact IH|].
        destruct (Qlt_bool _ _);
          [rewrite bind_value; cbn [ret fst snd]; apply generate_keeps_ok; exact IH|].
        exact IH.
      + rewrite bind_value. cbn [ret fst snd]. apply generate_keeps_ok. exact IH.
    - unfold get_fingerprint_for_playwright.
      destruct (current_fingerprint self) as [cur|]; [exact IH|].
      apply generate_keeps_ok. exact IH.
    - unfold get_fingerprint_for_session. rewrite bind_value.
      apply generate_keeps_ok. exact IH. }
  destruct OK as [L [G C]].
  split; [exact L|]. split; [lia|]. split; [exact C|].
  rewrite C. split; intro H.
  - destruct (fingerprint_history self) as [|x l] eqn:E; [cbn in L; lia|].
    exfalso. cbn [map] in H.
    assert (N : map Some (x :: l) <> []) by discriminate.
    destruct (exists_last N) as [l' [y E']]. cbn [map] in E'.
    rewrite E' in H. rewrite last_last in H.
    assert (In y (Some x :: map Some l)) by (rewrite E'; apply in_or_app; right; left; reflexivity).
    subst y. cbn in H0. destruct H0 as [H0|H0]; [discriminate|].
    apply in_map_iff in H0. destruct H0 as [? [? _]]. discriminate.
  - destruct (fingerprint_history self) as [|x l]; [reflexivity|].
    cbn [length] in L. lia.
Qed.

Lemma choices3_In {A} (d a b c0 : A) (w1 w2 w3 : Q) (o : Oracle) (c : Cursor) :
  In (fst (choices d [a; b; c0] [w1; w2; w3] o c)) [a; b; c0].
Proof.
  unfold choices. rewrite bind_value. cbn [ret fst accumulate removelast bisect].
  repeat match goal with |- context [if ?x then _ else _] => destruct x end;
    cbn; tauto.
Qed.

Lemma choices4_In {A} (d a b c0 e : A) (w1 w2 w3 w4 : Q) (o : Oracle) (c : Cursor) :
  In (fst (choices d [a; b; c0; e] [w1; w2; w3; w4] o c)) [a; b; c0; e].
Proof.
  unfold choices. rewrite bind_value. cbn [ret fst accumulate removelast bisect].
  repeat match goal with |- context [if ?x then _ else _] => destruct x end;
    cbn; tauto.
Qed.

(** X15: [_select_hardware_profile] gives every fingerprint type a
    hardware profile of its own device class: a mobile profile for the
    mobile types, the tablet profile for the tablet, and a desktop or
    laptop profile for the desktop types (always the laptop for desktop
    Safari). *)
Theorem hardware_profile_matches_device_class
    (t : FingerprintType) (o : Oracle) (c : Cursor) :
  let h := fst (_select_hardware_profile t o c) in
  profile_class h = template_device_type t
  /\ (t = DESKTOP_SAFARI -> h = laptop)
  /\ (t = TABLET_CHROME -> h = tablet).
Proof.
  destruct t; cbn [_select_hardware_profile template_device_type].
  all: try (cbn; repeat split; intros; try reflexivity; discriminate).
  all: match goal with
       | |- context [choices ?d [?a; ?b; ?c0] [?w1; ?w2; ?w3] ?o1 ?c1] =>
           pose proof (@choices3_In _ d a b c0 w1 w2 w3 o1 c1) as I
       | |- context [choices ?d [?a; ?b; ?c0; ?e] [?w1; ?w2; ?w3; ?w4] ?o1 ?c1] =>
           pose proof (@choices4_In _ d a b c0 e w1 w2 w3 w4 o1 c1) as I
       end;
    cbv zeta; repeat split; try discriminate;
    cbn [In] in I;
    repeat (destruct I as [<-|I]; [reflexivity|]); destruct I.
Qed.

End RotatorExtras.

Section WatchPatternExtras.
Import Py PyRandom PyList.
Import StealthManager.

Lemma retention_curves_length (vt : string) :
  length (curve (retention_curves_get vt)) = 11%nat.
Proof.
  unfold retention_curves_get.
  repeat match goal with |- context [if ?b then _ else _] => destruct b end;
    reflexivity.
Qed.

Lemma retention_at_range (o : Oracle) (base_curve : list Z) (i : Z) :
  always o (retention_at base_curve i) (fun v => 5 <= v /\ v <= 100).
Proof.
  intro c. unfold retention_at. cbv zeta. rewrite bind_value. cbn [ret fst].
  apply clamp_bounds. lra.
Qed.

Lemma actual_watch_time_at_least_30 (o : Oracle) (vl : Z) (l : list Q)
    (evs : list WatchEvent) :
  l <> [] ->
  always o (_calculate_actual_watch_time vl l evs)
    (fun r => exists z, r = Some z /\ (30 <= z)%Z).
Proof.
  intros NE c. unfold _calculate_actual_watch_time.
  destruct l as [|q l]; [congruence|]. cbv zeta.
  rewrite bind_value. cbn [ret fst]. eexists. split; [reflexivity|].
  match goal with |- (30 <= int (Qmax 30 ?x))%Z => set (y := Qmax 30 x) end.
  assert (Y : 30 <= y) by apply Qmax_lower.
  rewrite int_nonneg_floor by lra.
  change 30%Z with (Qfloor 30). apply Qfloor_resp_le. exact Y.
Qed.

Lemma watch_pattern_general (o : Oracle) (vl : Z) (vt : option string) :
  vl <> 0%Z ->
  always o (generate_human_watch_pattern vl vt)
    (fun r => exists p, r = Some p
       /\ (30 <= total_watch_time p)%Z
       /\ Z.of_nat (length (retention_curve p)) = Z.min (Z.max 2 (vl / 30)) 11
       /\ Forall (fun v => 5 <= v /\ v <= 100) (retention_curve p)
       /\ segment_length p * inject_Z (Z.of_nat (length (retention_curve p)))
          == inject_Z vl
       /\ completion_rate p
          = round1 (inject_Z (total_watch_time p) / inject_Z vl * 100)).
Proof.
  intro NZ. unfold generate_human_watch_pattern. cbv zeta.
  step_any. rewrite retention_curves_length.
  change (Z.of_nat 11) with 11%Z.
  set (segments := if (Z.min (vl / 30) 11 <? 2)%Z then 2%Z
                   else Z.min (vl / 30) 11).
  assert (SG : (segments = Z.min (Z.max 2 (vl / 30)) 11)%Z).
  { unfold segments. destruct (Z.min (vl / 30) 11 <? 2)%Z eqn:E;
      [apply Z.ltb_lt in E|apply Z.ltb_ge in E]; lia. }
  step_with (fun l : list Q =>
               length l = Z.to_nat segments /\ Forall (fun v => 5 <= v /\ v <= 100) l).
  { intro c. split.
    - rewrite mapM_length, range_length. reflexivity.
    - apply mapM_Forall. intros i c' _. apply retention_at_range. }
  destruct H as [LEN F].
  do 10 step_any.
  step_with (fun r : option Z => exists z, r = Some z /\ (30 <= z)%Z).
  { apply actual_watch_time_at_least_30. intro E. subst a0.
    cbn in LEN. lia. }
  destruct H as [z [-> Z30]].
  apply Z.eqb_neq in NZ. rewrite NZ.
  apply always_ret. eexists. split; [reflexivity|].
  cbn [total_watch_time retention_curve segment_length completion_rate].
  split; [exact Z30|]. split; [rewrite LEN; lia|]. split; [exact F|].
  split; [|reflexivity].
  rewrite LEN. rewrite Z2Nat.id by lia.
  field. intro E.
  assert (segments = 0)%Z by (apply (proj1 (inject_Z_injective _ 0%Z)); exact E).
  lia.
Qed.

(** X16: for every video length other than 0, whatever the content
    type, [generate_human_watch_pattern] returns a pattern whose
    retention curve has [min(max(2, video_length // 30), 11)] values,
    all in [5, 100], whose segments cover the video exactly, and whose
    [total_watch_time] is at least 30 seconds. *)
Theorem watch_pattern_shape (vl : Z) (vt : option string)
    (o : Oracle) (c : Cursor) :
  vl <> 0%Z ->
  exists p,
    fst (generate_human_watch_pattern vl vt o c) = Some p
    /\ (30 <= total_watch_time p)%Z
    /\ Z.of_nat (length (retention_curve p)) = Z.min (Z.max 2 (vl / 30)) 11
    /\ Forall (fun v => 5 <= v /\ v <= 100) (retention_curve p)
    /\ segment_length p * inject_Z (Z.of_nat (length (retention_curve p)))
       == inject_Z vl.
Proof.
  intro NZ. destruct (@watch_pattern_general o vl vt NZ c)
    as [p [E [T [L [F [S _]]]]]].
  exists p. tauto.
Qed.

(** X17: the 30-second floor of the watch time ignores the length of
    the video: for a video of 1 to 29 seconds the pattern reports a
    watch time longer than the video and a completion rate above 100
    per cent; for a video of length 0 the call raises
    [ZeroDivisionError]. *)
Theorem short_video_completion_exceeds_100 (vl : Z) (vt : option string)
    (o : Oracle) (c : Cursor) :
  (0 <= vl < 30)%Z ->
  match fst (generate_human_watch_pattern vl vt o c) with
  | None => vl = 0%Z
  | Some p =>
      (0 < vl)%Z /\ (vl < total_watch_time p)%Z /\ 100 < completion_rate p
  end.
Proof.
  intro R. destruct (Z.eq_dec vl 0) as [->|NZ].
  - enough (A : always o (generate_human_watch_pattern 0 vt) (fun r => r = None)).
    { rewrite (A c). reflexivity. }
    unfold generate_human_watch_pattern. cbv zeta.
    step_any. do 11 step_any.
    step_with (fun r : option Z => True). { intro c0. exact I. }
    destruct a11; apply always_ret; reflexivity.
  - destruct (@watch_pattern_general o vl vt NZ c)
      as [p [E [T [_ [_ [_ CR]]]]]].
    rewrite E. split; [lia|]. split; [lia|].
    rewrite CR.
    assert (V1 : 0 < inject_Z vl).
    { change 0 with (inject_Z 0). rewrite <- Zlt_Qlt. lia. }
    assert (V2 : inject_Z vl <= 29).
    { change 29 with (inject_Z 29). rewrite <- Zle_Qle. lia. }
    assert (V3 : 30 <= inject_Z (total_watch_time p)).
    { change 30 with (inject_Z 30). rewrite <- Zle_Qle. exact T. }
    set (x := inject_Z (total_watch_time p) / inject_Z vl * 100).
    assert (X : 1034 # 10 <= x).
    { unfold x.
      assert (1034 # 1000 <= inject_Z (total_watch_time p) / inject_Z vl).
      { apply Qle_shift_div_l; [exact V1|]. nra. }
      lra. }
    unfold round1.
    assert (B : (1034 <= round_half_even (x * 10))%Z).
    { unfold round_half_even.
      assert (FL : (1034 <= Qfloor (x * 10))%Z).
      { change 1034%Z with (Qfloor 1034). apply Qfloor_resp_le. lra. }
      destruct (Qcompare _ _); [destruct (Z.even _)| |]; lia. }
    rewrite Zle_Qle in B. unfold Qdiv. change (/ 10) with (1 # 10).
    change (inject_Z 1034) with 1034 in B. lra.
Qed.


Lemma Qsum_upper (l : list Q) (b : Q) :
  Forall (fun v => v <= b) l ->
  Qsum l <= b * inject_Z (Z.of_nat (length l)).
Proof.
  induction 1 as [|v l H F IH]; cbn [Qsum fold_right length].
  - change (inject_Z (Z.of_nat 0)) with 0. lra.
  - fold (Qsum l). rewrite Nat2Z.inj_succ, <- Z.add_1_r, inject_Z_plus.
    change (inject_Z 1) with 1. lra.
Qed.

(** X18: whatever the content type, for a video of at least 30 seconds
    the watch time is at most 5 per cent above the video length and the
    completion rate is between 0 and 105; the 5 per cent noise is added
    after the retention curve has been integrated and is not clamped. *)
Theorem watch_time_at_most_five_percent_over (vl : Z) (vt : option string)
    (o : Oracle) (c : Cursor) :
  unit_draws o -> (30 <= vl)%Z ->
  exists p,
    fst (generate_human_watch_pattern vl vt o c) = Some p
    /\ inject_Z (total_watch_time p) <= inject_Z vl * (105 # 100)
    /\ 0 <= completion_rate p /\ completion_rate p <= 105.
Proof.
  intros U V.
  enough (A : always o (generate_human_watch_pattern vl vt)
                (fun r => exists p, r = Some p
                   /\ inject_Z (total_watch_time p) <= inject_Z vl * (105 # 100)
                   /\ 0 <= completion_rate p /\ completion_rate p <= 105))
    by apply (A c).
  assert (VQ : 30 <= inject_Z vl).
  { change 30 with (inject_Z 30). rewrite <- Zle_Qle. exact V. }
  unfold generate_human_watch_pattern. cbv zeta.
  step_any. rewrite retention_curves_length.
  change (Z.of_nat 11) with 11%Z.
  set (segments := if (Z.min (vl / 30) 11 <? 2)%Z then 2%Z
                   else Z.min (vl / 30) 11).
  assert (SG : (2 <= segments)%Z).
  { unfold segments. destruct (Z.min (vl / 30) 11 <? 2)%Z eqn:E;
      [apply Z.ltb_lt in E|apply Z.ltb_ge in E]; lia. }
  step_with (fun l : list Q =>
               length l = Z.to_nat segments /\ Forall (fun v => 5 <= v /\ v <= 100) l).
  { intro c0. split.
    - rewrite mapM_length, range_length. reflexivity.
    - apply mapM_Forall. intros i c' _. apply retention_at_range. }
  destruct H as [LEN F].
  step_any.
  step_with (fun l : list WatchEvent => Forall cost_ok l).
  { apply always_replicateM_all.
    step_any.
    step_with (fun d : Q => 2 <= d /\ d <= 15).
    { apply always_uniform; [exact U | lra]. }
    apply always_ret. apply cost_ok_pause; tauto. }
  step_any.
  step_with (fun l : list WatchEvent => Forall cost_ok l).
  { destruct (Qlt_bool _ _); [|apply always_ret; constructor].
    step_any. apply always_replicateM_all.
    do 2 step_any. apply always_ret. apply cost_ok_seek. }
  step_any.
  step_with (fun l : list WatchEvent => Forall cost_ok l).
  { destruct (Qlt_bool _ _); [|apply always_ret; constructor].
    step_any. apply always_replicateM_all.
    do 2 step_any. apply always_ret. apply cost_ok_seek. }
  step_any.
  step_with (fun l : list WatchEvent => Forall cost_ok l).
  { destruct (Qlt_bool _ _); [|apply always_ret; constructor].
    do 3 step_any. apply always_ret. repeat constructor. unfold cost_ok. cbn. lra. }
  step_any.
  step_with (fun l : list WatchEvent => Forall cost_ok l).
  { destruct (Qlt_bool _ _); [|apply always_ret; constructor].
    step_any. apply always_replicateM_all.
    do 2 step_any. apply always_ret. unfold cost_ok. cbn. lra. }
  assert (NE : a0 <> []).
  { intro E. subst a0. cbn in LEN. lia. }
  assert (C : Forall cost_ok (sort_by event_time (a2 ++ a4 ++ a6 ++ a8 ++ a10))).
  { eapply Permutation_Forall; [apply sort_by_perm|].
    repeat apply Forall_app_intro; assumption. }
  step_with (fun r : option Z =>
               exists z, r = Some z /\ (30 <= z)%Z
                         /\ inject_Z z <= Qmax 30 (inject_Z vl * (105 # 100))).
  { apply actual_watch_time_bounds; try assumption.
    - lia.
    - eapply Forall_impl; [|exact F]. cbv beta. intros v [? ?]. lra.
    - assert (S : Qsum a0 <= 100 * inject_Z (Z.of_nat (length a0))).
      { apply Qsum_upper. eapply Forall_impl; [|exact F]. cbv beta. tauto. }
      assert (LP : 0 < inject_Z (Z.of_nat (length a0))).
      { change 0 with (inject_Z 0). rewrite <- Zlt_Qlt. lia. }
      set (n := inject_Z (Z.of_nat (length a0))) in *.
      assert (Q0 : 0 <= inject_Z vl / n).
      { apply Qle_shift_div_l; [exact LP|]. lra. }
      assert (E : inject_Z vl / n * (100 * n) == 100 * inject_Z vl)
        by (field; lra).
      nra. }
  match goal with
  | H : exists z, _ = Some z /\ _ |- _ => destruct H as [z [-> [Z1 Z2]]]
  end.
  assert (NZ : (vl =? 0)%Z = false) by (apply Z.eqb_neq; lia). rewrite NZ.
  apply always_ret. eexists. split; [reflexivity|].
  cbn [total_watch_time completion_rate].
  assert (Z3 : inject_Z z <= inject_Z vl * (105 # 100)).
  { destruct (Qmax_cases 30 (inject_Z vl * (105 # 100))) as [[? E]|[? E]];
      rewrite E in Z2; lra. }
  assert (Z4 : 30 <= inject_Z z).
  { change 30 with (inject_Z 30). rewrite <- Zle_Qle. exact Z1. }
  split; [exact Z3|].
  set (x := inject_Z z / inject_Z vl * 100).
  assert (X1 : 0 <= x /\ x <= 105).
  { unfold x.
    assert (0 <= inject_Z z / inject_Z vl) by (apply Qle_shift_div_l; lra).
    assert (inject_Z z / inject_Z vl <= 105 # 100)
      by (apply Qle_shift_div_r; lra).
    lra. }
  destruct (@round1_bounds x 0 1050) as [B1 B2].
  - unfold Qdiv. change (/ 10) with (1 # 10). change (inject_Z 0) with 0. lra.
  - unfold Qdiv. change (/ 10) with (1 # 10). change (inject_Z 1050) with 1050. lra.
  - unfold Qdiv in B1, B2. change (/ 10) with (1 # 10) in B1, B2.
    change (inject_Z 0) with 0 in B1. change (inject_Z 1050) with 1050 in B2.
    split; lra.
Qed.

End WatchPatternExtras.

Section ScrollExtras.
Import Py PyRandom PyList.
Import BehaviorAI.

Lemma scroll_patterns_burst_range (pattern_type : string) :
  (1 <= fst (sp_burst_count (scroll_patterns_get pattern_type))
   <= snd (sp_burst_count (scroll_patterns_get pattern_type)))%Z
  /\ (snd (sp_burst_count (scroll_patterns_get pattern_type)) <= 5)%Z
  /\ fst (sp_burst_duration (scroll_patterns_get pattern_type))
     <= snd (sp_burst_duration (scroll_patterns_get pattern_type))
  /\ 0 <= fst (sp_burst_duration (scroll_patterns_get pattern_type))
  /\ fst (sp_pause_between (scroll_patterns_get pattern_type))
     <= snd (sp_pause_between (scroll_patterns_get pattern_type))
  /\ 0 <= fst (sp_pause_between (scroll_patterns_get pattern_type)).
Proof.
  unfold scroll_patterns_get.
  repeat match goal with |- context [if ?b then _ else _] => destruct b end;
    cbn; repeat split; try lia; lra.
Qed.

Lemma scroll_loop_amounts (o : Oracle) (pattern : ScrollPattern) (n per : Z)
    (bursts : list Z) :
  unit_draws o -> (0 < per)%Z ->
  fst (sp_burst_duration pattern) <= snd (sp_burst_duration pattern) ->
  0 <= fst (sp_burst_duration pattern) ->
  fst (sp_pause_between pattern) <= snd (sp_pause_between pattern) ->
  0 <= fst (sp_pause_between pattern) ->
  forall ct remaining c,
    (Z.of_nat (length bursts) * per <= remaining)%Z ->
    let l := fst (scroll_loop pattern n per bursts ct remaining o c) in
    length l = length bursts
    /\ Forall (fun a => sc_amount a = per /\ ct <= sc_timestamp a) l
    /\ Sorted (by_key sc_timestamp) l.
Proof.
  intros U P D1 D0 P1 P0.
  induction bursts as [|b bursts IH]; intros ct remaining c R.
  - cbn. repeat split; constructor.
  - cbn [scroll_loop]. rewrite bind_value. cbv beta. rewrite bind_value. cbv beta.
    cbv zeta. cbn [length] in R.
    assert (M : Z.min per remaining = per) by lia. rewrite M.
    assert (E : (per <=? 0)%Z = false) by (apply Z.leb_gt; exact P). rewrite E.
    rewrite bind_value. cbv beta. rewrite bind_value. cbv beta.
    rewrite bind_value. cbn [ret fst snd length].
    match goal with
    | |- context [scroll_loop pattern n per bursts ?ct1 ?rem1 o ?c1] =>
        pose proof (IH ct1 rem1 c1 ltac:(lia)) as IH';
        assert (CT : ct <= ct1)
    end.
    { match goal with
      | |- ct <= fst ((if ?b then _ else _) o ?c0) => destruct b
      end.
      - rewrite bind_value. cbn [ret fst].
        match goal with
        | |- context [uniform (fst (sp_pause_between pattern)) ?b1 o ?c0] =>
            pose proof (@uniform_bounds _ b1 o c0 U P1)
        end.
        match goal with
        | |- context [fst (uniform (fst (sp_burst_duration pattern)) ?b1 o ?c0)] =>
            pose proof (@uniform_bounds _ b1 o c0 U D1)
        end.
        lra.
      - cbn [ret fst].
        match goal with
        | |- context [fst (uniform (fst (sp_burst_duration pattern)) ?b1 o ?c0)] =>
            pose proof (@uniform_bounds _ b1 o c0 U D1)
        end.
        lra. }
    cbv zeta in IH'. destruct IH' as [L [F S]].
    split; [f_equal; exact L|]. split.
    + constructor; [cbn [sc_amount sc_timestamp]; split; [reflexivity|lra]|].
      eapply Forall_impl; [|exact F]. cbv beta. intros a [A1 A2]. split; [exact A1|lra].
    + constructor; [exact S|].
      match goal with
      | |- HdRel _ _ ?l => destruct l as [|a l']; constructor
      end.
      inversion F as [|? ? [_ FA] ?]; subst. unfold by_key. cbn [sc_timestamp]. lra.
Qed.

Lemma total_amount_constant (l : list ScrollAction) (per : Z) :
  Forall (fun a => sc_amount a = per) l ->
  total_amount l = (Z.of_nat (length l) * per)%Z.
Proof.
  unfold total_amount.
  induction 1 as [|a l H F IH]; cbn [map fold_right length]; [lia|].
  rewrite IH, H. lia.
Qed.

(** X19: [generate_scroll_actions] splits a non-negative scroll distance
    into [n] equal bursts, [n] being drawn from the pattern's burst
    range: each burst scrolls [total_scroll // n], so the bursts add up
    to [total_scroll - total_scroll % n] and the remainder is never
    scrolled; a distance smaller than [n] yields no action at all; the
    bursts carry non-decreasing timestamps. *)
Theorem scroll_bursts_are_equal_and_drop_remainder
    (pattern_type : string) (total_scroll : Z) (o : Oracle) (c : Cursor) :
  unit_draws o -> (0 <= total_scroll)%Z ->
  exists n l,
    fst (generate_scroll_actions pattern_type total_scroll o c) = Some l
    /\ (1 <= n <= 5)%Z
    /\ Forall (fun a => sc_amount a = (total_scroll / n)%Z) l
    /\ Z.of_nat (length l) = (if (total_scroll <? n)%Z then 0 else n)%Z
    /\ total_amount l = (total_scroll - total_scroll mod n)%Z
    /\ Sorted (by_key sc_timestamp) l.
Proof.
  intros U T.
  destruct (scroll_patterns_burst_range pattern_type)
    as [[B1 B2] [B3 [D1 [D0 [P1 P0]]]]].
  unfold generate_scroll_actions. cbv zeta.
  rewrite bind_value. cbn [time fst snd]. rewrite bind_value.
  match goal with
  | |- context [randint ?a ?b o ?c0] =>
      pose proof (@randint_bounds a b o c0 U B2) as NB;
      set (n := fst (randint a b o c0)) in *;
      set (c1 := snd (randint a b o c0)) in *
  end.
  assert (NZ : (n =? 0)%Z = false) by (apply Z.eqb_neq; lia). rewrite NZ.
  rewrite bind_value. cbn [ret fst].
  exists n. eexists. split; [reflexivity|]. split; [lia|].
  pose proof (Z.div_mod total_scroll n ltac:(lia)) as DM.
  pose proof (Z.mod_pos_bound total_scroll n ltac:(lia)) as MB.
  destruct (Z.ltb_spec total_scroll n) as [SM|BG].
  - assert (Z0 : (total_scroll / n = 0)%Z) by (apply Z.div_small; lia).
    rewrite Z0. rewrite Z.mod_small by lia.
    destruct (@range_positive n) as [rest [-> _]]; [lia|].
    cbn [scroll_loop]. rewrite bind_value. cbv beta. rewrite bind_value. cbv beta.
    cbv zeta.
    replace (Z.min 0 total_scroll) with 0%Z by lia. cbn [Z.leb ret fst].
    cbn. repeat split; try constructor; lia.
  - assert (PP : (0 < total_scroll / n)%Z) by (apply Z.div_str_pos; lia).
    match goal with
    | |- context [scroll_loop ?pat n ?per (range n) ?ct total_scroll o c1] =>
        destruct (@scroll_loop_amounts o pat n per (range n) U PP D1 D0 P1 P0
                    ct total_scroll c1) as [L [F S]]
    end.
    { rewrite range_length. rewrite Z2Nat.id by lia. nia. }
    assert (F' : Forall (fun a => sc_amount a = (total_scroll / n)%Z)
                   (fst (scroll_loop (scroll_patterns_get pattern_type) n
                           (total_scroll / n) (range n)
                           (clock o (tpos c)) total_scroll o c1))).
    { eapply Forall_impl; [|exact F]. cbv beta. tauto. }
    split; [exact F'|]. rewrite range_length in L.
    split; [rewrite L; lia|]. split; [|exact S].
    rewrite (total_amount_constant F'), L. rewrite Z2Nat.id by lia. nia.
Qed.

End ScrollExtras.

Section StatisticsExtras.
Import Py PyRandom PyList.
Import SessionOrchestrator.

Context {ViewerProfile : Type}.
Variable gen_vp : VideoAnalysis -> M ViewerProfile.
Variable bot : string -> Z -> M (SessionResult + string).

Lemma reachable_results_empty (o : Oracle) (self : Orchestrator ViewerProfile) :
  orchestrator_reachable gen_vp bot o self ->
  Forall (fun c => cd_results c = None) (completed_campaigns self).
Proof.
  induction 1 as [self E|self plan c R IH|self u n p c R IH].
  - rewrite E. constructor.
  - pose proof (@execute_campaign_ends_in_except _ bot self plan o c) as X.
    cbv zeta in X. destruct X as [_ [X2 [_ [_ [_ [X6 _]]]]]].
    rewrite X6. apply Forall_app. split; [exact IH|].
    constructor; [exact X2|constructor].
  - unfold run_campaign. rewrite bind_value.
    match goal with
    | |- context [execute_campaign bot ?s ?pl o ?c1] =>
        pose proof (@execute_campaign_ends_in_except _ bot s pl o c1) as X
    end.
    cbv zeta in X. destruct X as [_ [X2 [_ [_ [_ [X6 _]]]]]].
    rewrite X6. cbn [completed_campaigns]. apply Forall_app. split; [exact IH|].
    constructor; [exact X2|constructor].
Qed.

Lemma fold_add_zero (l : list Z) :
  Forall (fun z => z = 0%Z) l -> forall a, fold_left Z.add l a = a.
Proof.
  induction 1 as [|z l Z F IH]; intro a; cbn [fold_left]; [reflexivity|].
  rewrite IH, Z. lia.
Qed.

Lemma sum_over_empty_results (f : Results -> Z)
    (l : list (CampaignData ViewerProfile)) :
  Forall (fun c => cd_results c = None) l ->
  sum_over (fun c => results_get c f 0%Z) l = 0.
Proof.
  intro F. unfold sum_over. rewrite fold_add_zero; [reflexivity|].
  apply Forall_map. eapply Forall_impl; [|exact F]. cbv beta.
  intros c E. unfold results_get. rewrite E. reflexivity.
Qed.

Lemma py_sum_zero (l : list Q) :
  Forall (fun q => q = 0) l -> forall a, fold_left Qplus l a == a.
Proof.
  induction 1 as [|q l Z F IH]; intro a; cbn [fold_left]; [reflexivity|].
  rewrite IH, Z. ring.
Qed.

(** X20: since every campaign is recorded with an empty [results] dict,
    the statistics of an orchestrator that started with no completed
    campaign never show a success, a failure or a detection: whatever
    the sessions did, the recent success rate, the watch time and the
    successes per hour, the detection rate, the failure rate and the
    risk score are 0 and the risk level, when there is one, is
    ["low"]. *)
Theorem statistics_never_show_failures (o : Oracle)
    (self : Orchestrator ViewerProfile) :
  orchestrator_reachable gen_vp bot o self ->
  let s := get_campaign_statistics self in
  st_recent_success_rate s == 0
  /\ watch_time_per_hour (st_efficiency_metrics s) == 0
  /\ success_per_hour (st_efficiency_metrics s) == 0
  /\ detection_rate (st_risk_profile s) == 0
  /\ failure_rate (st_risk_profile s) == 0
  /\ risk_score (st_risk_profile s) == 0
  /\ (risk_level (st_risk_profile s) = Some "low"
      \/ completed_campaigns self = [] /\ risk_level (st_risk_profile s) = None).
Proof.
  intro R. pose proof (reachable_results_empty R) as F.
  cbv zeta. unfold get_campaign_statistics.
  cbn [st_recent_success_rate st_efficiency_metrics st_risk_profile].
  unfold _calculate_recent_success_rate, _calculate_efficiency_metrics,
    _calculate_risk_profile.
  destruct (completed_campaigns self) as [|c0 cs] eqn:E.
  - cbn. repeat split; try reflexivity. right. split; reflexivity.
  - cbv zeta. set (l := c0 :: cs) in *.
    assert (FR : Forall (fun c : CampaignData ViewerProfile => cd_results c = None)
                   (last_n 10 l)).
    { apply Forall_forall. intros c I. rewrite Forall_forall in F. apply F.
      unfold last_n in I.
      rewrite <- (firstn_skipn (length l - 10) l). apply in_or_app.
      right. exact I. }
    assert (S1 : sum_over
                   (fun c : CampaignData ViewerProfile =>
                      if results_get c
                           (fun r => met_min_success_rate (met_success_criteria r))
                           false
                      then 1%Z else 0%Z) (last_n 10 l) = 0).
    { unfold sum_over. rewrite fold_add_zero; [reflexivity|].
      apply Forall_map. eapply Forall_impl; [|exact FR]. cbv beta.
      intros c EC. unfold results_get. rewrite EC. reflexivity. }
    rewrite S1. rewrite !(sum_over_empty_results _ F).
    assert (W : py_sum (map (fun c : CampaignData ViewerProfile =>
                               results_get c total_watch_time 0) l) == 0).
    { unfold py_sum. apply py_sum_zero.
      apply Forall_map. eapply Forall_impl; [|exact F]. cbv beta.
      intros c EC. unfold results_get. rewrite EC. reflexivity. }
    cbn [watch_time_per_hour success_per_hour detection_rate failure_rate
         risk_score risk_level].
    assert (Z0 : forall q : Q, 0 / q == 0) by (intro q; unfold Qdiv; ring).
    assert (D0 : forall q : Q, (if Qlt_bool 0 q then 0 / q else 0) == 0).
    { intro q. destruct (Qlt_bool 0 q); [apply Z0|reflexivity]. }
    split. { destruct (0 <? length (last_n 10 l))%nat; [apply Z0|reflexivity]. }
    split. { destruct (Qlt_bool 0 _); [rewrite W; apply Z0|reflexivity]. }
    split. { apply D0. }
    split. { apply D0. }
    split. { apply D0. }
    split.
    { assert (P : forall a b : Q, a == 0 -> b == 0 ->
                    Qmin 1 (a * (7 # 10) + b * (3 # 10)) == 0).
      { intros a b A B. unfold Qmin.
        destruct (Qle_bool 1 (a * (7 # 10) + b * (3 # 10))) eqn:Q1.
        - apply Qle_bool_iff in Q1. rewrite A, B in Q1. lra.
        - rewrite A, B. ring. }
      apply P; apply D0. }
    left. f_equal.
    assert (L : forall q a, q == 0 -> Qlt_bool a q = Qlt_bool a 0).
    { intros q a Q0. unfold Qlt_bool. f_equal.
      destruct (Qle_bool q a) eqn:A1, (Qle_bool 0 a) eqn:A2; try reflexivity.
      - apply Qle_bool_iff in A1. rewrite Q0 in A1.
        apply Qle_bool_iff in A1. congruence.
      - apply Qle_bool_iff in A2. rewrite <- Q0 in A2.
        apply Qle_bool_iff in A2. congruence. }
    rewrite !(L _ _ (D0 _)). reflexivity.
Qed.

End StatisticsExtras.

Section ActionExtras.
Import Py PyRandom PyList.
Import StealthManager.

(** X21: [should_perform_action] decides with a probability within 20
    per cent of the profile's (0.1 for an action the profile does not
    list), cut to [0, 1]: with [p] that probability and [r] the draw
    that decides, the action is performed when [r < 0.8 p] and is not
    when [1.2 p <= r]; an action of probability 0 is never performed. *)
Theorem action_probability_within_a_fifth (action_type : string)
    (probabilities : list (string * Q)) (o : Oracle) (c : Cursor) :
  unit_draws o ->
  let p := BehaviorAI.dict_get action_type probabilities (1 # 10) in
  let r := rand o (S (rpos c)) in
  let b := fst (should_perform_action action_type probabilities o c) in
  0 <= p ->
  (r < (8 # 10) * p -> b = true)
  /\ ((12 # 10) * p <= r -> b = false)
  /\ (p == 0 -> b = false).
Proof.
  intros U p r b P.
  assert (UB : -(2 # 10) <= fst (uniform (- (2 # 10)) (2 # 10) o c)
               /\ fst (uniform (- (2 # 10)) (2 # 10) o c) <= 2 # 10).
  { apply uniform_bounds; [exact U|lra]. }
  assert (B : b = Qlt_bool r
                    (Qmax 0 (Qmin 1 (p + p * fst (uniform (- (2 # 10)) (2 # 10) o c))))).
  { unfold b, should_perform_action. cbv zeta. rewrite bind_value.
    rewrite bind_value. reflexivity. }
  set (u := fst (uniform (- (2 # 10)) (2 # 10) o c)) in *.
  destruct (U (S (rpos c))) as [R0 R1]. fold r in R0, R1.
  set (f := Qmax 0 (Qmin 1 (p + p * u))) in *.
  assert (F1 : f <= (12 # 10) * p).
  { unfold f. destruct (Qmax_cases 0 (Qmin 1 (p + p * u))) as [[G E]|[G E]];
      rewrite E.
    - nra.
    - destruct (Qmin_cases 1 (p + p * u)) as [[G' E']|[G' E']]; rewrite E'; nra. }
  assert (F2 : r < (8 # 10) * p -> r < f).
  { intro H. unfold f.
    eapply Qlt_le_trans; [|apply Qmax_lower_r].
    destruct (Qmin_cases 1 (p + p * u)) as [[G' E']|[G' E']]; rewrite E'; nra. }
  rewrite B. split; [|split].
  - intro H. apply Qlt_bool_true. apply F2. exact H.
  - intro H. apply Qlt_bool_false. lra.
  - intro H. apply Qlt_bool_false. lra.
Qed.

End ActionExtras.

Section FurtherScenarios.
Import Py PyRandom PyList.

Lemma isqrt_nonneg (q : Q) : 0 <= isqrt q.
Proof.
  unfold isqrt. change 0 with (inject_Z 0). rewrite <- Zle_Qle.
  apply Z.sqrt_nonneg.
Qed.

Lemma default_criteria_stop_on_two_of_last_three_witness :
  SessionOrchestrator._should_stop_campaign interleaved_failures
    (SessionOrchestrator._create_success_criteria 4 SessionOrchestrator.HIGH)
    half_oracle start_cursor
  = (true, start_cursor).
Proof.
  apply (@default_criteria_stop_on_two_of_last_three unit interleaved_failures
           4 SessionOrchestrator.HIGH half_oracle start_cursor).
  - cbn. lia.
  - apply Z.leb_le. reflexivity.
Defined.

Lemma attention_pattern_unknown_or_missing_shape_witness :
  exists l,
    fst (BehaviorAI.generate_attention_pattern 300 None half_oracle
           start_cursor) = Some l
    /\ (2 <= length l <= 9)%nat
    /\ Forall (fun v => 1 # 10 <= v /\ v <= 1) l.
Proof.
  apply (@attention_pattern_unknown_or_missing_shape 300 None half_oracle
           start_cursor).
  exact half_oracle_unit.
Defined.

Lemma view_session_within_pattern_ranges_witness :
  exists s,
    fst (fst (BehaviorAI.generate_view_session BehaviorAI.init 300
                (Some BehaviorAI.FOCUSED_WATCHING) half_oracle start_cursor))
    = Some s
    /\ fst (BehaviorAI.watch_completion
              (BehaviorAI.behavior_models BehaviorAI.FOCUSED_WATCHING))
       <= BehaviorAI.retention_rate s
    /\ BehaviorAI.retention_rate s
       <= snd (BehaviorAI.watch_completion
                 (BehaviorAI.behavior_models BehaviorAI.FOCUSED_WATCHING))
    /\ BehaviorAI.watch_time s
       = int (inject_Z 300 * BehaviorAI.retention_rate s)
    /\ (0 <= BehaviorAI.watch_time s <= 300)%Z
    /\ BehaviorAI.video_duration s = 300%Z
    /\ (2 <= length (BehaviorAI.attention_pattern s) <= 9)%nat
    /\ Forall (fun v => 1 # 10 <= v /\ v <= 1) (BehaviorAI.attention_pattern s)
    /\ Sorted (by_key BehaviorAI.action_time) (BehaviorAI.engagement_actions s).
Proof.
  apply (@view_session_within_pattern_ranges BehaviorAI.init 300
           BehaviorAI.FOCUSED_WATCHING half_oracle start_cursor).
  - exact half_oracle_unit.
  - lia.
Defined.

Lemma engagement_actions_within_ranges_witness :
  Forall (action_in_range (inject_Z 240))
    (fst (BehaviorAI._generate_engagement_actions BehaviorAI.FOCUSED_WATCHING
            240 half_oracle start_cursor)).
Proof.
  apply (@engagement_actions_within_ranges BehaviorAI.FOCUSED_WATCHING 240
           half_oracle start_cursor).
  - exact half_oracle_unit.
  - lia.
Defined.

Lemma short_watch_quality_change_before_start_witness :
  unit_draws fourth_draw_low
  /\ exists t,
       fst (BehaviorAI._generate_engagement_actions BehaviorAI.FOCUSED_WATCHING
              20 fourth_draw_low start_cursor)
       = [BehaviorAI.QualityChange t "720p" "1080p"]
       /\ t < 0.
Proof.
  apply (@short_watch_quality_change_before_start 20 start_cursor).
  - lia.
  - reflexivity.
Defined.

Lemma mouse_trajectory_timestamps_nondecreasing_witness :
  let l := fst (BehaviorAI.generate_mouse_trajectory isqrt 0 0 100 0 "natural"
                  high_oracle start_cursor) in
  Sorted (by_key BehaviorAI.timestamp) l
  /\ Forall (fun a => clock high_oracle (tpos start_cursor)
                      <= BehaviorAI.timestamp a
                      /\ 0 <= BehaviorAI.duration a) l
  /\ option_map BehaviorAI.timestamp (nth_error l 0)
     = Some (clock high_oracle (tpos start_cursor)).
Proof.
  apply (@mouse_trajectory_timestamps_nondecreasing isqrt 0 0 100 0 "natural"
           high_oracle start_cursor).
  - exact high_oracle_unit.
  - exact isqrt_nonneg.
Defined.


Lemma schedule_entries_spaced_by_priority_witness :
  let l := fst (fst (SessionOrchestrator._create_session_schedule
                       (fun _ => ret tt) BehaviorAI.init 3
                       SessionOrchestrator.HIGH sample_analysis half_oracle
                       start_cursor)) in
  let now := clock half_oracle (tpos start_cursor) in
  length l = Z.to_nat 3
  /\ match l with
     | [] => True
     | e :: l' =>
         now + 60 <= SessionOrchestrator.scheduled_start e
         /\ SessionOrchestrator.scheduled_start e <= now + 300
         /\ spaced (fst (SessionOrchestrator.gap_bounds SessionOrchestrator.HIGH))
              (snd (SessionOrchestrator.gap_bounds SessionOrchestrator.HIGH))
              (SessionOrchestrator.scheduled_start e) l'
     end.
Proof.
  apply (@schedule_entries_spaced_by_priority unit (fun _ => ret tt)
           half_oracle BehaviorAI.init 3 SessionOrchestrator.HIGH
           sample_analysis start_cursor).
  exact half_oracle_unit.
Defined.

Lemma audience_demographics_are_normalised_witness :
  let d := fst (SessionOrchestrator._get_audience_demographics half_oracle
                  start_cursor) in
  Qsum (map snd (SessionOrchestrator.age_groups d)) == 1
  /\ Qsum (map snd (SessionOrchestrator.genders d)) == 1
  /\ Qsum (map snd (SessionOrchestrator.devices d)) == 1
  /\ Qsum (map snd (SessionOrchestrator.locations d)) == 1
  /\ map fst (SessionOrchestrator.age_groups d)
     = ["13-17"; "18-24"; "25-34"; "35-44"; "45+"]
  /\ map fst (SessionOrchestrator.genders d) = ["male"; "female"; "other"]
  /\ map fst (SessionOrchestrator.devices d)
     = ["mobile"; "desktop"; "tablet"; "tv"]
  /\ map fst (SessionOrchestrator.locations d)
     = ["US"; "IN"; "GB"; "DE"; "Others"].
Proof.
  apply (@audience_demographics_are_normalised half_oracle start_cursor).
  exact half_oracle_unit.
Defined.

Lemma reachable_rotator_history_witness :
  let self :=
    snd (fst (FingerprintRotator.generate_fingerprint no_attributes
                (FingerprintRotator.init unit) None None half_oracle
                start_cursor)) in
  Z.of_nat (length (FingerprintRotator.fingerprint_history self))
  = Z.min 50 (FingerprintRotator.fingerprints_generated
                (FingerprintRotator.stats self))
  /\ (length (FingerprintRotator.fingerprint_history self) <= 50)%nat
  /\ FingerprintRotator.current_fingerprint self
     = last (map Some (FingerprintRotator.fingerprint_history self)) None
  /\ (FingerprintRotator.current_fingerprint self = None
      <-> FingerprintRotator.fingerprints_generated
            (FingerprintRotator.stats self) = 0%Z).
Proof.
  apply (@reachable_rotator_history unit no_attributes half_oracle).
  apply reach_generate. apply reach_init.
Defined.

Lemma watch_pattern_shape_witness :
  exists p,
    fst (StealthManager.generate_human_watch_pattern 300 (Some "tutorial")
           half_oracle start_cursor) = Some p
    /\ (30 <= StealthManager.total_watch_time p)%Z
    /\ Z.of_nat (length (StealthManager.retention_curve p))
       = Z.min (Z.max 2 (300 / 30)) 11
    /\ Forall (fun v => 5 <= v /\ v <= 100) (StealthManager.retention_curve p)
    /\ StealthManager.segment_length p
       * inject_Z (Z.of_nat (length (StealthManager.retention_curve p)))
       == inject_Z 300.
Proof.
  apply (@watch_pattern_shape 300 (Some "tutorial") half_oracle start_cursor).
  discriminate.
Defined.

Lemma short_video_completion_exceeds_100_witness :
  match fst (StealthManager.generate_human_watch_pattern 20 None half_oracle
               start_cursor) with
  | None => 20%Z = 0%Z
  | Some p =>
      (0 < 20)%Z /\ (20 < StealthManager.total_watch_time p)%Z
      /\ 100 < StealthManager.completion_rate p
  end.
Proof.
  apply (@short_video_completion_exceeds_100 20 None half_oracle start_cursor).
  lia.
Defined.

Lemma watch_time_at_most_five_percent_over_witness :
  exists p,
    fst (StealthManager.generate_human_watch_pattern 300 (Some "music")
           half_oracle start_cursor) = Some p
    /\ inject_Z (StealthManager.total_watch_time p) <= inject_Z 300 * (105 # 100)
    /\ 0 <= StealthManager.completion_rate p
    /\ StealthManager.completion_rate p <= 105.
Proof.
  apply (@watch_time_at_most_five_percent_over 300 (Some "music") half_oracle
           start_cursor).
  - exact half_oracle_unit.
  - lia.
Defined.

Lemma scroll_bursts_are_equal_and_drop_remainder_witness :
  exists n l,
    fst (BehaviorAI.generate_scroll_actions "burst_scroll" 1000 half_oracle
           start_cursor) = Some l
    /\ (1 <= n <= 5)%Z
    /\ Forall (fun a => BehaviorAI.sc_amount a = (1000 / n)%Z) l
    /\ Z.of_nat (length l) = (if (1000 <? n)%Z then 0 else n)%Z
    /\ total_amount l = (1000 - 1000 mod n)%Z
    /\ Sorted (by_key BehaviorAI.sc_timestamp) l.
Proof.
  apply (@scroll_bursts_are_equal_and_drop_remainder "burst_scroll" 1000
           half_oracle start_cursor).
  - exact half_oracle_unit.
  - lia.
Defined.

Lemma statistics_never_show_failures_witness :
  let self :=
    snd (fst (SessionOrchestrator.execute_campaign failing_bot
                fresh_orchestrator sample_plan half_oracle start_cursor)) in
  let s := SessionOrchestrator.get_campaign_statistics self in
  SessionOrchestrator.st_recent_success_rate s == 0
  /\ SessionOrchestrator.watch_time_per_hour
       (SessionOrchestrator.st_efficiency_metrics s) == 0
  /\ SessionOrchestrator.success_per_hour
       (SessionOrchestrator.st_efficiency_metrics s) == 0
  /\ SessionOrchestrator.detection_rate
       (SessionOrchestrator.st_risk_profile s) == 0
  /\ SessionOrchestrator.failure_rate
       (SessionOrchestrator.st_risk_profile s) == 0
  /\ SessionOrchestrator.risk_score
       (SessionOrchestrator.st_risk_profile s) == 0
  /\ (SessionOrchestrator.risk_level (SessionOrchestrator.st_risk_profile s)
      = Some "low"
      \/ SessionOrchestrator.completed_campaigns self = []
         /\ SessionOrchestrator.risk_level
              (SessionOrchestrator.st_risk_profile s) = None).
Proof.
  apply (@statistics_never_show_failures unit (fun _ => ret tt) failing_bot
           half_oracle).
  apply reach_execute. apply reach_new. reflexivity.
Defined.

Lemma action_probability_within_a_fifth_witness :
  let p := BehaviorAI.dict_get "like" [("like", 1 # 2); ("share", 0)] (1 # 10) in
  let r := rand half_oracle (S (rpos start_cursor)) in
  let b := fst (StealthManager.should_perform_action "like"
                  [("like", 1 # 2); ("share", 0)] half_oracle start_cursor) in
  (r < (8 # 10) * p -> b = true)
  /\ ((12 # 10) * p <= r -> b = false)
  /\ (p == 0 -> b = false).
Proof.
  apply (@action_probability_within_a_fifth "like"
           [("like", 1 # 2); ("share", 0)] half_oracle start_cursor).
  - exact half_oracle_unit.
  - apply Qle_bool_iff. reflexivity.
Defined.

End FurtherScenarios.
